(** * Roof_Connect: the appointment scheduling and availability-rules engine

    A shallow embedding of the scheduling logic of the Roof_Connect front end
    ([src/types.ts], [src/pages/AppointmentMaker.tsx],
    [src/pages/ScheduleGrid.tsx]) and the properties its specification
    states about it.

    Conventions of the embedding.
    - A JavaScript string is the Rocq [string] of its UTF-8 bytes.
    - A value of type [any] is a [jsval]; numbers are the safe integers
      (NaN, infinities, fractions and larger numbers do not occur in the
      modelled code). The form itself only ever stores strings.
    - A plain object used as a dictionary ([Record<string, any>],
      [STATE_CONFIG]) is a [gmap] of its own members; reading a member goes
      on to [Object.prototype] when the object has none of that name.
    - A [Date] is its local time value in milliseconds, from which its
      calendar fields are read; a time zone gives the instant ([getTime]) of
      a local time value, so that a local day need not last [msPerDay]
      milliseconds. A transition of the zone is taken not to skip past the
      end of a local day.
    - React component state captured by a closure is passed explicitly;
      the clock ([new Date()]) and [crypto.randomUUID()] are inputs. *)

From Stdlib Require Import ZArith String Ascii List Lia DecimalString Bool.
From stdpp Require Import gmap strings list.

Open Scope string_scope.
Open Scope Z_scope.

(** ** JavaScript values *)

Module JS.

(** The names under which every object finds a member that it inherits
    from [Object.prototype]. *)
Definition Object_prototype : list string :=
  ["constructor"; "__defineGetter__"; "__defineSetter__"; "hasOwnProperty";
   "__lookupGetter__"; "__lookupSetter__"; "isPrototypeOf"; "propertyIsEnumerable";
   "toString"; "valueOf"; "__proto__"; "toLocaleString"].

Definition inherited (key : string) : bool :=
  existsb (String.eqb key) Object_prototype.

(** [Number.isSafeInteger(n)] *)
Definition safe_integer (n : Z) : Prop := Z.abs n <= 9007199254740991.

#[global] Instance safe_integer_dec (n : Z) : Decision (safe_integer n).
Proof. unfold safe_integer. apply _. Defined.

(** [JNative key] is the member that [Object.prototype] holds under [key]:
    a built-in function, or under [__proto__] the prototype object itself.
    It is met only by reading a member that an object does not have. *)
Inductive jsval : Type :=
| JUndefined
| JNull
| JBool (b : bool)
| JNum (n : dsig safe_integer)
| JStr (s : string)
| JNative (key : string).

#[global] Instance jsval_eq_dec : EqDecision jsval.
Proof. solve_decision. Defined.

(** [ToBoolean]: what [!v] and [if (v)] look at. *)
Definition truthy (v : jsval) : bool :=
  match v with
  | JUndefined | JNull => false
  | JBool b => b
  | JNum n => negb (`n =? 0)
  | JStr s => negb (String.eqb s EmptyString)
  | JNative _ => true
  end.

(** [a === b] *)
Definition strict_eq (a b : jsval) : bool := bool_decide (a = b).

(** [String(n)] for an integer [n] of absolute value below 10^21, which
    is printed with all its digits: the safe integers, the calendar fields
    of a [Date] and the counts that the model prints are such. *)
Definition string_of_Z (n : Z) : string :=
  NilZero.string_of_int (Z.to_int n).

(** The text of a built-in: the source text that V8 gives a native function
    (the exact text is left to the engine), [[object Object]] for the
    prototype object. The function under [constructor] is named [Object]. *)
Definition native_text (key : string) : string :=
  if String.eqb key "__proto__" then "[object Object]"
  else "function " +:+ (if String.eqb key "constructor" then "Object" else key)
       +:+ "() { [native code] }".

(** [ToString], as used by template literals and by property keys. *)
Definition ToString (v : jsval) : string :=
  match v with
  | JUndefined => "undefined"
  | JNull => "null"
  | JBool true => "true"
  | JBool false => "false"
  | JNum n => string_of_Z (`n)
  | JStr s => s
  | JNative key => native_text key
  end.

(** [s.padStart(n, pad)] for a one-character [pad]. *)
Definition padStart (n : nat) (pad : ascii) (s : string) : string :=
  string_of_list_ascii (repeat pad (n - String.length s)%nat) +:+ s.

(** [obj[key]] on a dictionary object: its own member, else the member
    inherited from [Object.prototype], else [undefined]. *)
Definition get (obj : gmap string jsval) (key : string) : jsval :=
  match obj !! key with
  | Some v => v
  | None => if inherited key then JNative key else JUndefined
  end.

(** [v || ''] where the left operand is an optional string. *)
Definition or_empty (o : option string) : string := default EmptyString o.

Definition LF : string := String (ascii_of_nat 10) EmptyString.

(** Truthiness of what [Array.prototype.find] returns: an element (an
    object) or [undefined]. *)
Definition is_Some_bool {A} (o : option A) : bool :=
  match o with Some _ => true | None => false end.

(** [obj[key] = v] for a primitive [v], on an object without an own member
    [__proto__]: a new own member, except under [__proto__], where the
    assignment reaches the inherited setter, which ignores a primitive. *)
Definition assign {A : Type} (obj : gmap string A) (key : string) (v : A)
  : gmap string A :=
  if String.eqb key "__proto__" then obj else <[key := v]> obj.

(** How a call ends: it returns a value, or it throws a [TypeError]. *)
Inductive Completion (A : Type) : Type :=
| Normal (a : A)
| TypeError.
Arguments Normal {A} a.
Arguments TypeError {A}.

End JS.
Import JS.

(** ** The built-in [Date], local time, proleptic Gregorian calendar *)

Module JSDate.

Definition msPerDay : Z := 1000 * 60 * 60 * 24.

(** A [Date] object: its local time value. *)
Definition Date := Z.

(** A time zone: the offset of local time from UTC, in milliseconds, that
    is in force at a local time value; at a local time that a transition
    skips, the offset before the transition. *)
Definition Zone := Z -> Z.

(** A zone whose offset never changes. *)
Definition fixedZone (offset : Z) : Zone := fun _ => offset.

Definition Day (t : Date) : Z := t / msPerDay.

(** Day number of the civil date [y]-[m]-[d], [m] in 1..12. *)
Definition days_from_civil (y m d : Z) : Z :=
  let y' := if m <=? 2 then y - 1 else y in
  let era := y' / 400 in
  let yoe := y' - era * 400 in
  let mp := if 2 <? m then m - 3 else m + 9 in
  let doy := (153 * mp + 2) / 5 + d - 1 in
  let doe := yoe * 365 + yoe / 4 - yoe / 100 + doy in
  era * 146097 + doe - 719468.

(** Civil date (year, month 1..12, day of month) of a day number. *)
Definition civil_from_days (z : Z) : Z * Z * Z :=
  let z := z + 719468 in
  let era := z / 146097 in
  let doe := z - era * 146097 in
  let yoe := (doe - doe / 1460 + doe / 36524 - doe / 146096) / 365 in
  let y := yoe + era * 400 in
  let doy := doe - (365 * yoe + yoe / 4 - yoe / 100) in
  let mp := (5 * doy + 2) / 153 in
  let d := doy - (153 * mp + 2) / 5 + 1 in
  let m := if mp <? 10 then mp + 3 else mp - 9 in
  (if m <=? 2 then y + 1 else y, m, d).

Definition getFullYear (t : Date) : Z := fst (fst (civil_from_days (Day t))).
(** months count from 0 *)
Definition getMonth (t : Date) : Z := snd (fst (civil_from_days (Day t))) - 1.
Definition getDate (t : Date) : Z := snd (civil_from_days (Day t)).
(** 0 = Sunday .. 6 = Saturday; day 0 (1970-01-01) was a Thursday *)
Definition getDay (t : Date) : Z := (Day t + 4) mod 7.
(** [d.getTime()]: the instant of the date, in milliseconds of UTC. *)
Definition getTime (tz : Zone) (t : Date) : Z := t - tz t.

(** [d.setHours(0, 0, 0, 0)]: local midnight of the day of [d]. *)
Definition setHours0 (t : Date) : Date := Day t * msPerDay.

(** [new Date(year, month, day)]: months count from 0 and overflow into
    the year, days overflow into the month, years 0..99 mean 1900..1999. *)
Definition make (year month day : Z) : Date :=
  let yr := if (0 <=? year) && (year <=? 99) then 1900 + year else year in
  let ym := yr + month / 12 in
  let mn := month mod 12 in
  (days_from_civil ym (mn + 1) 1 + day - 1) * msPerDay.

(** [Math.ceil(a / b)] for integers [a] and [b > 0] *)
Definition ceil_div (a b : Z) : Z := - ((- a) / b).

(** [TimeWithinDay(t)] *)
Definition TimeWithinDay (t : Date) : Z := t mod msPerDay.

(** [MakeDay(year, month, date)]: months overflow into the year and days
    into the month. *)
Definition MakeDay (year month date : Z) : Z :=
  days_from_civil (year + month / 12) (month mod 12 + 1) 1 + date - 1.

(** [d.setMonth(month)] *)
Definition setMonth (month : Z) (t : Date) : Date :=
  MakeDay (getFullYear t) month (getDate t) * msPerDay + TimeWithinDay t.

End JSDate.

(** ** [src/types.ts] *)

Module ConditionalLogic.
Record t := mk {
  fieldId : string;
  value : jsval;
}.
End ConditionalLogic.

Module FormField.
(** The members read by the modelled code; [options], [min], [max],
    [step] and [placeholder] only drive the rendering. *)
Record t := mk {
  id : string;
  type : string;
  label : string;
  required : bool;
  showWhen : option ConditionalLogic.t;
  prefix : option string;
  suffix : option string;
}.
End FormField.

Module AppointmentRecord.
Record t := mk {
  id : string;
  createdAt : Z;
  formData : gmap string jsval;
  clipboardSummary : string;
}.
End AppointmentRecord.

Module BlockRule.
(** A row of [block_rules]. The optional members are [undefined] on rules
    built in the browser and [null] on rows that come back from the
    store. *)
Record t := mk {
  id : string;
  date : string;
  time : jsval;
  state : jsval;
  reason : jsval;
}.

#[global] Instance eq_dec : EqDecision t.
Proof. solve_decision. Defined.
End BlockRule.

Module StateConfig.
Record t := mk {
  capacity : Z;
  workdays : list Z;
}.
End StateConfig.

Definition STATE_CONFIG : gmap string StateConfig.t :=
  <["GA" := StateConfig.mk 9 [1; 2; 3; 4; 5; 6]]>
  (<["TN" := StateConfig.mk 9 [1; 2; 3; 4; 5; 6]]>
  (<["AL" := StateConfig.mk 2 [1; 2; 3; 4; 5]]>
  (<["SC" := StateConfig.mk 1 [1; 2; 3; 4; 5]]> ∅))).

(** What [STATE_CONFIG[key]] evaluates to: an entry of the table, a member
    inherited from [Object.prototype] (truthy, and without [capacity] and
    [workdays]), or [undefined]. *)
Inductive ConfigEntry : Type :=
| Entry (config : StateConfig.t)
| Builtin
| NoEntry.

Definition STATE_CONFIG_get (key : string) : ConfigEntry :=
  match STATE_CONFIG !! key with
  | Some config => Entry config
  | None => if inherited key then Builtin else NoEntry
  end.

(** [n >= config.capacity]; false when [capacity] is [undefined]. *)
Definition atCapacity (n : Z) (config : ConfigEntry) : bool :=
  match config with
  | Entry config => StateConfig.capacity config <=? n
  | _ => false
  end.

Definition OPERATING_HOURS : list string :=
  ["9:00 AM"; "10:00 AM"; "11:00 AM"; "12:00 PM";
   "1:00 PM"; "2:00 PM"; "3:00 PM"; "4:00 PM"; "5:00 PM"].

(** [arr.includes(x)] on an array of numbers *)
Definition includesZ (l : list Z) (x : Z) : bool := existsb (Z.eqb x) l.

(** [arr.includes(s)] on an array of strings *)
Definition includes (l : list string) (s : string) : bool :=
  existsb (String.eqb s) l.

(** ** Regular-expression replacement over code points

    [text.replace(/[lo-hi]/gu, empty)] for a range that lies in the
    supplementary planes: with the [u] flag the pattern matches whole code
    points, which in UTF-8 are the well-formed four-byte sequences. *)

Module Unicode.

Definition byte (a : ascii) : Z := Z.of_N (N_of_ascii a).

Definition continuation (b : Z) : bool := (0x80 <=? b) && (b <=? 0xBF).

(** The code point of a four-byte sequence, when it is one. *)
Definition decode4 (a0 a1 a2 a3 : ascii) : option Z :=
  let b0 := byte a0 in
  let b1 := byte a1 in
  let b2 := byte a2 in
  let b3 := byte a3 in
  if (0xF0 <=? b0) && (b0 <=? 0xF4)
     && continuation b1 && continuation b2 && continuation b3
  then Some ((b0 - 0xF0) * 0x40000 + (b1 - 0x80) * 0x1000
             + (b2 - 0x80) * 0x40 + (b3 - 0x80))
  else None.

(** Delete every supplementary code point that satisfies [P]. *)
Fixpoint remove_code_points (P : Z -> bool) (s : string) : string :=
  match s with
  | EmptyString => EmptyString
  | String a0 t =>
      match t with
      | String a1 (String a2 (String a3 rest)) =>
          match decode4 a0 a1 a2 a3 with
          | Some cp =>
              if P cp then remove_code_points P rest
              else String a0 (remove_code_points P t)
          | None => String a0 (remove_code_points P t)
          end
      | _ => String a0 (remove_code_points P t)
      end
  end.

Definition in_range (lo hi cp : Z) : bool := (lo <=? cp) && (cp <=? hi).

End Unicode.

(** ** [src/pages/AppointmentMaker.tsx] *)

Definition HOLIDAY_BLOCKS : list string :=
  ["2024-12-25";  (* Christmas *)
   "2024-01-01"   (* New Years *)].

Definition DEFAULT_SCHEMA : list FormField.t :=
  let f := FormField.mk in
  let sw k v := Some (ConditionalLogic.mk k (JStr v)) in
  [ f "homeOwner" "text" "Home Owner" true None (Some "Home Owner: ") (Some LF);
    f "roofAge" "slider" "Roof Age" false None (Some "Roof Age: ") (Some (" years" +:+ LF));
    f "roofType" "select" "Roof Type" false None (Some "Roof Type: ") (Some LF);
    f "insuranceName" "select" "Insurance Name" false None (Some "Insurance: ") (Some LF);
    f "insuranceOther" "text" "Other Insurance Name" false (sw "insuranceName" "Other")
      (Some "Insurance (Other): ") (Some LF);
    f "roofCondition" "select" "Roof Condition" false None (Some "Condition: ") (Some LF);
    f "damageDescription" "textarea" "Damage Description" false (sw "roofCondition" "Damaged")
      (Some "Damage: ") (Some LF);
    f "squareFootage" "number" "Square Footage" false None (Some "Sq Ft: ") (Some LF);
    f "emailOption" "select" "Email Option" false None (Some "Email Status: ") (Some LF);
    f "email" "email" "Email Address" false (sw "emailOption" "Has Email")
      (Some "Email: ") (Some LF);
    f "phoneNumber" "tel" "Phone Number" false None (Some "Phone: ") (Some LF);
    f "address" "text" "Address" false None (Some "Address: ") (Some LF);
    f "state" "select" "Property State" true None (Some "State: ") (Some LF);
    f "engagementLevel" "select" "Engagement Level" false None (Some "Engagement: ")
      (Some ("/10" +:+ LF));
    f "appointmentDate" "date" "Appointment Date" true None (Some "Date: ") (Some LF);
    f "appointmentTime" "select" "Appointment Time" true None (Some "Time: ") (Some LF);
    f "notes" "textarea" "Notes" false None (Some "Notes: ") (Some LF);
    f "googleMaps" "url" "Google Maps Link" false None (Some "Map: ") (Some LF) ].

Definition isFieldVisible (field : FormField.t) (currentData : gmap string jsval) : bool :=
  match FormField.showWhen field with
  | None => true
  | Some sw =>
      strict_eq (get currentData (ConditionalLogic.fieldId sw)) (ConditionalLogic.value sw)
  end.

(** The body of the [forEach] callback: the text after visiting [field]. *)
Definition appendField (data : gmap string jsval) (text : string) (field : FormField.t)
  : string :=
  if isFieldVisible field data && truthy (get data (FormField.id field))
  then text +:+ (or_empty (FormField.prefix field)
                 +:+ ToString (get data (FormField.id field))
                 +:+ or_empty (FormField.suffix field))
  else text.

Definition generateClipboardText (data : gmap string jsval)
    (currentSchema : list FormField.t) : string :=
  let text := EmptyString in
  let text := fold_left (appendField data) currentSchema text in
  let text := text +:+ "Did you confirm the physical address?: Yes" in
  let text := Unicode.remove_code_points (Unicode.in_range 0x1F600 0x1F64F) text in
  text.

(** *** Capacity and rules logic *)

Section AppointmentMaker.

(** Component state read by the closures. *)
Variable appointments : list AppointmentRecord.t.
Variable blockedRules : list BlockRule.t.
Variable formData : gmap string jsval.

Definition isSlotUnavailable (dateStr time : string) (state : jsval) : bool :=
  if negb (truthy state) then true else
  match STATE_CONFIG_get (ToString state) with
  | NoEntry => true
  | config =>
      (* 1. Check Capacity *)
      let bookings :=
        List.filter (fun a =>
          strict_eq (get (AppointmentRecord.formData a) "appointmentDate") (JStr dateStr)
          && strict_eq (get (AppointmentRecord.formData a) "appointmentTime") (JStr time)
          && strict_eq (get (AppointmentRecord.formData a) "state") state)
        appointments in
      if atCapacity (Z.of_nat (length bookings)) config then true else
      (* 2. Check Dynamic Rules (Time Specific) *)
      let isBlocked :=
        existsb (fun r =>
          String.eqb (BlockRule.date r) dateStr
          && strict_eq (BlockRule.time r) (JStr time)
          && (negb (truthy (BlockRule.state r)) || strict_eq (BlockRule.state r) state))
        blockedRules in
      if isBlocked then true else
      false
  end.

(** 2. Lead time: [diffDays < 0], both dates cut to local midnight and
    their instants compared. *)
Definition diffDays (tz : JSDate.Zone) (now date : JSDate.Date) : Z :=
  let today := JSDate.setHours0 now in
  let target := JSDate.setHours0 date in
  let diffTime := JSDate.getTime tz target - JSDate.getTime tz today in
  JSDate.ceil_div diffTime (1000 * 60 * 60 * 24).

Definition leadTimeBlocked (tz : JSDate.Zone) (now date : JSDate.Date) : bool :=
  diffDays tz now date <? 0.

(** The [YYYY-MM-DD] string of a date. *)
Definition dateStrOf (target : JSDate.Date) : string :=
  string_of_Z (JSDate.getFullYear target)
  +:+ "-" +:+ padStart 2 "0" (string_of_Z (JSDate.getMonth target + 1))
  +:+ "-" +:+ padStart 2 "0" (string_of_Z (JSDate.getDate target)).

(** 4. Hardcoded holiday blocks *)
Definition holidayBlocked (dateStr : string) : bool :=
  includes HOLIDAY_BLOCKS dateStr.

(** 5. Dynamic rules (whole-day block) *)
Definition isDynamicDayBlocked (dateStr : string) (state : jsval) : bool :=
  existsb (fun r =>
    String.eqb (BlockRule.date r) dateStr
    && negb (truthy (BlockRule.time r))
    && (negb (truthy (BlockRule.state r)) || strict_eq (BlockRule.state r) state))
  blockedRules.

(** 6. Full capacity check *)
Definition allSlotsUnavailable (dateStr : string) (state : jsval) : bool :=
  forallb (fun time => isSlotUnavailable dateStr time state) OPERATING_HOURS.

(** [tz] is the time zone of the host and [now] the value of [new Date()]
    at the call. Reading [config.workdays.includes] throws when [config] is
    a member inherited from [Object.prototype]. *)
Definition isDateBlocked (tz : JSDate.Zone) (now : JSDate.Date) (date : JSDate.Date)
  : Completion bool :=
  let state := get formData "state" in
  (* 1. Must have state selected to pick date *)
  if negb (truthy state) then Normal true else
  match STATE_CONFIG_get (ToString state) with
  | NoEntry => Normal true
  | config =>
      let target := JSDate.setHours0 date in
      if leadTimeBlocked tz now date then Normal true else
      (* 3. Workdays (0 = Sun, 6 = Sat) *)
      match config with
      | Entry config =>
          if negb (includesZ (StateConfig.workdays config) (JSDate.getDay target))
          then Normal true else
          let dateStr := dateStrOf target in
          if holidayBlocked dateStr then Normal true else
          if isDynamicDayBlocked dateStr state then Normal true else
          if allSlotsUnavailable dateStr state then Normal true else
          Normal false
      | _ => TypeError
      end
  end.

End AppointmentMaker.

(** ** [src/pages/AppointmentMaker.tsx]: the time options *)

Module TimeSelect.

(** An [<option>] of the appointment-time select. *)
Record Option := mkOption {
  value : string;
  disabled : bool;
  text : string;
}.

(** [config.capacity - currentCount] in a template literal: [NaN] when
    [capacity] is [undefined]. *)
Definition remainingText (config : ConfigEntry) (currentCount : Z) : string :=
  match config with
  | Entry config => string_of_Z (StateConfig.capacity config - currentCount)
  | _ => "NaN"
  end.

(** The option rendered for [time] when a date and a state are selected.
    Reading [config.capacity] throws for a state without an entry
    ([None]). *)
Definition timeOption (appointments : list AppointmentRecord.t)
    (blockedRules : list BlockRule.t) (dateSelected : string) (stateSelected : jsval)
    (time : string) : option Option :=
  let isUnavailable :=
    isSlotUnavailable appointments blockedRules dateSelected time stateSelected in
  match STATE_CONFIG_get (ToString stateSelected) with
  | NoEntry => None
  | config =>
      let currentCount :=
        Z.of_nat (length (List.filter (fun a =>
          strict_eq (get (AppointmentRecord.formData a) "appointmentDate") (JStr dateSelected)
          && strict_eq (get (AppointmentRecord.formData a) "appointmentTime") (JStr time)
          && strict_eq (get (AppointmentRecord.formData a) "state") stateSelected)
        appointments)) in
      let remaining := remainingText config currentCount in
      let isBlockedRule :=
        existsb (fun r =>
          String.eqb (BlockRule.date r) dateSelected
          && strict_eq (BlockRule.time r) (JStr time)
          && (negb (truthy (BlockRule.state r))
              || strict_eq (BlockRule.state r) stateSelected))
        blockedRules in
      Some (mkOption time isUnavailable
              (time +:+ " "
               +:+ (if isBlockedRule then "(BLOCKED)"
                    else if atCapacity currentCount config then "(FULL)"
                    else "(" +:+ remaining +:+ " left)")))
  end.

(** The options of the select: none until a date and a state are chosen. *)
Definition timeOptions (appointments : list AppointmentRecord.t)
    (blockedRules : list BlockRule.t) (formData : gmap string jsval)
    (dateSelected : string) : option (list Option) :=
  let stateSelected := get formData "state" in
  if truthy (JStr dateSelected) && truthy stateSelected
  then
    fold_right (fun time acc =>
      match timeOption appointments blockedRules dateSelected stateSelected time, acc with
      | Some o, Some l => Some (o :: l)
      | _, _ => None
      end) (Some []) OPERATING_HOURS
  else Some [].

End TimeSelect.

(** ** The remote table store *)

Module Supabase.

(** Modelled from the spec: the remote table store that the handlers reach
    through [supabase.from('block_rules')]; the client ([lib/supabase]) and
    the service behind it are not among the sources. The store holds the
    committed rows, assigns the identifier of every row it inserts, and
    answers each request with a result or an error; a request that fails
    leaves the rows unchanged. *)
Record Store := mk {
  block_rules : list BlockRule.t;
  next_id : nat;
  online : bool;
}.

(** An asynchronous call that is awaited: a state transformer. *)
Definition DB (A : Type) : Type := Store -> A * Store.

Definition ret {A} (a : A) : DB A := fun s => (a, s).

Definition bind {A B} (m : DB A) (k : A -> DB B) : DB B :=
  fun s => let (a, s') := m s in k a s'.

(** The [{ data, error }] answer of a request. *)
Inductive Result (A : Type) : Type :=
| Ok (data : A)
| Error.
Arguments Ok {A} data.
Arguments Error {A}.

(** A row as it is sent for insertion: a rule without its [id]. *)
Record NewRule := mkNew {
  new_date : string;
  new_time : jsval;
  new_state : jsval;
  new_reason : jsval;
}.

Definition server_id (n : nat) : string := "srv-" +:+ string_of_Z (Z.of_nat n).

(** A member left [undefined] is stored, and read back, as [null]. *)
Definition column (v : jsval) : jsval :=
  match v with JUndefined => JNull | _ => v end.

Definition stored (n : nat) (r : NewRule) : BlockRule.t :=
  BlockRule.mk (server_id n) (new_date r)
    (column (new_time r)) (column (new_state r)) (column (new_reason r)).

Fixpoint store_all (n : nat) (rows : list NewRule) : list BlockRule.t :=
  match rows with
  | [] => []
  | r :: rows' => stored n r :: store_all (S n) rows'
  end.

(** [.delete().in('id', ids)] *)
Definition delete_in (ids : list string) : DB (Result unit) := fun s =>
  if online s then
    (Ok tt,
     mk (List.filter (fun r => negb (includes ids (BlockRule.id r))) (block_rules s))
        (next_id s) (online s))
  else (Error, s).

(** [.delete().eq('id', id)] *)
Definition delete_eq (id : string) : DB (Result unit) := delete_in [id].

(** [.insert(rows).select()] *)
Definition insert (rows : list NewRule) : DB (Result (list BlockRule.t)) := fun s =>
  if online s then
    let created := store_all (next_id s) rows in
    (Ok created,
     mk (block_rules s ++ created) (next_id s + length rows)%nat (online s))
  else (Error, s).

(** [.insert([row]).select().single()] *)
Definition insert_single (row : NewRule) : DB (Result BlockRule.t) := fun s =>
  if online s then
    let created := stored (next_id s) row in
    (Ok created, mk (block_rules s ++ [created]) (S (next_id s)) (online s))
  else (Error, s).

(** [.select('*')] *)
Definition select_all : DB (Result (list BlockRule.t)) := fun s =>
  if online s then (Ok (block_rules s), s) else (Error, s).

End Supabase.

Notation "'let*' x ':=' m 'in' k" :=
  (Supabase.bind m (fun x => k))
  (at level 10, x pattern, m at level 100, k at level 200, only parsing).

(** ** [src/pages/ScheduleGrid.tsx] *)

Module ScheduleGrid.

(** The [useState] cells of the component that the handlers touch. *)
Record State := mkState {
  appointments : list AppointmentRecord.t;
  blockedRules : list BlockRule.t;
  selectedDate : JSDate.Date;
  isBlockModalOpen : bool;
  blockModalViewDate : JSDate.Date;
  tempBlockedRules : list BlockRule.t;
  blockStateFilter : string;
}.

Definition setBlockedRules (rules : list BlockRule.t) (st : State) : State :=
  mkState (appointments st) rules (selectedDate st) (isBlockModalOpen st)
    (blockModalViewDate st) (tempBlockedRules st) (blockStateFilter st).

Definition setTempBlockedRules (rules : list BlockRule.t) (st : State) : State :=
  mkState (appointments st) (blockedRules st) (selectedDate st) (isBlockModalOpen st)
    (blockModalViewDate st) rules (blockStateFilter st).

Definition setIsBlockModalOpen (b : bool) (st : State) : State :=
  mkState (appointments st) (blockedRules st) (selectedDate st) b
    (blockModalViewDate st) (tempBlockedRules st) (blockStateFilter st).

Definition formatDate (date : JSDate.Date) : string :=
  let year := JSDate.getFullYear date in
  let month := padStart 2 "0" (string_of_Z (JSDate.getMonth date + 1)) in
  let day := padStart 2 "0" (string_of_Z (JSDate.getDate date)) in
  string_of_Z year +:+ "-" +:+ month +:+ "-" +:+ day.

Definition isTimeBlocked (dateStr : string) (blockedRules : list BlockRule.t)
    (time state : string) : bool :=
  existsb (fun r =>
    String.eqb (BlockRule.date r) dateStr
    && strict_eq (BlockRule.time r) (JStr time)
    && (negb (truthy (BlockRule.state r)) || strict_eq (BlockRule.state r) (JStr state)))
  blockedRules.

(** [state] is a region code or [undefined]. *)
Definition isDayBlocked (dStr : string) (state : jsval) (rules : list BlockRule.t)
  : bool :=
  existsb (fun r =>
    String.eqb (BlockRule.date r) dStr
    && negb (truthy (BlockRule.time r))
    && (negb (truthy (BlockRule.state r))
        || (truthy state && strict_eq (BlockRule.state r) state)))
  rules.

Definition isGlobalDayBlocked (dStr : string) (rules : list BlockRule.t) : bool :=
  existsb (fun r =>
    String.eqb (BlockRule.date r) dStr
    && negb (truthy (BlockRule.time r))
    && negb (truthy (BlockRule.state r)))
  rules.

Section Handlers.

(** From [useAuth()]. *)
Variable isAdmin : bool.

(** *** Grid / time blocking *)

Definition toggleBlockTime (time state : string) (st : State)
  : Supabase.DB State :=
  if negb isAdmin then Supabase.ret st else
  let dateStr := formatDate (selectedDate st) in
  let existing :=
    List.find (fun r =>
      String.eqb (BlockRule.date r) dateStr
      && strict_eq (BlockRule.time r) (JStr time)
      && (negb (truthy (BlockRule.state r))
          || strict_eq (BlockRule.state r) (JStr state)))
    (blockedRules st) in
  match existing with
  | Some existing =>
      (* Delete *)
      let* res := Supabase.delete_eq (BlockRule.id existing) in
      match res with
      | Supabase.Ok _ =>
          Supabase.ret
            (setBlockedRules
               (List.filter
                  (fun r => negb (String.eqb (BlockRule.id r) (BlockRule.id existing)))
                  (blockedRules st))
               st)
      | Supabase.Error => Supabase.ret st
      end
  | None =>
      (* Create *)
      let newRule :=
        Supabase.mkNew dateStr (JStr time) (JStr state) (JStr "Manual Slot Block") in
      let* res := Supabase.insert_single newRule in
      match res with
      | Supabase.Ok data => Supabase.ret (setBlockedRules (blockedRules st ++ [data]) st)
      | Supabase.Error => Supabase.ret st
      end
  end.

(** *** Modal calendar *)

Definition openBlockModal (st : State) : State :=
  if negb isAdmin then st else
  setIsBlockModalOpen true (setTempBlockedRules (blockedRules st) st).

End Handlers.

(** 1. Rules in temp not in current *)
Definition added (st : State) : list BlockRule.t :=
  List.filter (fun tr =>
    negb (is_Some_bool (List.find (fun br => String.eqb (BlockRule.id br) (BlockRule.id tr))
                          (blockedRules st))))
  (tempBlockedRules st).

(** 2. Rules in current not in temp *)
Definition removed (st : State) : list BlockRule.t :=
  List.filter (fun br =>
    negb (is_Some_bool (List.find (fun tr => String.eqb (BlockRule.id tr) (BlockRule.id br))
                          (tempBlockedRules st))))
  (blockedRules st).

(** [({ id, ...rest }) => rest] *)
Definition withoutId (r : BlockRule.t) : Supabase.NewRule :=
  Supabase.mkNew (BlockRule.date r) (BlockRule.time r) (BlockRule.state r)
    (BlockRule.reason r).

Definition saveBlockModal (st : State) : Supabase.DB State :=
  let added := added st in
  let removed := removed st in
  (* Batch apply *)
  let* _ :=
    if (0 <? length removed)%nat
    then let* _ := Supabase.delete_in (map BlockRule.id removed) in Supabase.ret tt
    else Supabase.ret tt in
  let* st :=
    if (0 <? length added)%nat then
      let toInsert := map withoutId added in
      let* res := Supabase.insert toInsert in
      match res with
      | Supabase.Ok _ =>
          let* all := Supabase.select_all in
          match all with
          | Supabase.Ok allRules => Supabase.ret (setBlockedRules allRules st)
          | Supabase.Error => Supabase.ret st
          end
      | Supabase.Error => Supabase.ret st
      end
    else Supabase.ret (setBlockedRules (tempBlockedRules st) st) in
  Supabase.ret (setIsBlockModalOpen false st).

(** [blockStateFilter === 'ALL' ? undefined : blockStateFilter] *)
Definition targetStateOf (blockStateFilter : string) : jsval :=
  if String.eqb blockStateFilter "ALL" then JUndefined else JStr blockStateFilter.

(** The callback of the unblocking [filter]: does rule [r] stay? *)
Definition keepOnUnblock (dStr : string) (targetState : jsval) (r : BlockRule.t) : bool :=
  let isSameDate := String.eqb (BlockRule.date r) dStr && negb (truthy (BlockRule.time r)) in
  if negb isSameDate then true (* keep other dates *) else
  if strict_eq targetState JUndefined then
    (* Filter is ALL. Remove global rule. *)
    negb (strict_eq (BlockRule.state r) JUndefined)
    && negb (strict_eq (BlockRule.state r) JNull)
  else
    (* Filter is specific. Remove specific rule. *)
    negb (strict_eq (BlockRule.state r) targetState).

(** The date string of the calendar cell [day] of the month on view:
    [formatDate(new Date(year, month, day))]. *)
Definition toggledDate (st : State) (day : Z) : string :=
  let d := JSDate.make (JSDate.getFullYear (blockModalViewDate st))
                       (JSDate.getMonth (blockModalViewDate st)) day in
  formatDate d.

(** [uuid] is the value of [crypto.randomUUID()]. *)
Definition toggleDateBlockFromCalendar (uuid : string) (day : Z) (st : State) : State :=
  let dStr := toggledDate st day in
  let targetState := targetStateOf (blockStateFilter st) in
  let currentlyBlocked := isDayBlocked dStr targetState (tempBlockedRules st) in
  if currentlyBlocked then
    (* Unblock *)
    setTempBlockedRules
      (List.filter (keepOnUnblock dStr targetState) (tempBlockedRules st)) st
  else
    (* Block *)
    let newRule :=
      BlockRule.mk uuid dStr JUndefined targetState (JStr "Manual Calendar Block") in
    setTempBlockedRules (tempBlockedRules st ++ [newRule]) st.

(** [dateStr] is [formatDate(selectedDate)]. *)
Definition getAppointmentsForSlot (dateStr : string)
    (appointments : list AppointmentRecord.t) (time state : string)
  : list AppointmentRecord.t :=
  List.filter (fun a =>
    strict_eq (get (AppointmentRecord.formData a) "appointmentDate") (JStr dateStr)
    && strict_eq (get (AppointmentRecord.formData a) "appointmentTime") (JStr time)
    && strict_eq (get (AppointmentRecord.formData a) "state") (JStr state))
  appointments.

(** A cell of the grid view: [isFull] and [isBlocked]. Reading
    [STATE_CONFIG[state].capacity] throws for a state without an entry
    ([None]). *)
Definition gridCell (dateStr : string) (appointments : list AppointmentRecord.t)
    (blockedRules : list BlockRule.t) (time state : string) : option (bool * bool) :=
  let isStateDayBlocked := isDayBlocked dateStr (JStr state) blockedRules in
  let bookings := getAppointmentsForSlot dateStr appointments time state in
  match STATE_CONFIG_get state with
  | NoEntry => None
  | config =>
      let filled := Z.of_nat (length bookings) in
      let isFull := atCapacity filled config in
      let isBlocked := isTimeBlocked dateStr blockedRules time state || isStateDayBlocked in
      Some (isFull, isBlocked)
  end.

(** *** The editor's calendar *)

Definition setBlockModalViewDate (d : JSDate.Date) (st : State) : State :=
  mkState (appointments st) (blockedRules st) (selectedDate st) (isBlockModalOpen st)
    d (tempBlockedRules st) (blockStateFilter st).

Definition getDaysInMonth (date : JSDate.Date) : Z :=
  let year := JSDate.getFullYear date in
  let month := JSDate.getMonth date in
  JSDate.getDate (JSDate.make year (month + 1) 0).

Definition getFirstDayOfMonth (date : JSDate.Date) : Z :=
  let year := JSDate.getFullYear date in
  let month := JSDate.getMonth date in
  JSDate.getDay (JSDate.make year month 1).

(** The two arrows of the editor's calendar. *)
Definition showPreviousMonth (st : State) : State :=
  let d := blockModalViewDate st in
  let d := JSDate.setMonth (JSDate.getMonth d - 1) d in
  setBlockModalViewDate d st.

Definition showNextMonth (st : State) : State :=
  let d := blockModalViewDate st in
  let d := JSDate.setMonth (JSDate.getMonth d + 1) d in
  setBlockModalViewDate d st.

End ScheduleGrid.

(** ** The [appointments] table *)

Module AppointmentsTable.

(** Modelled from the spec: the remote table behind
    [supabase.from('appointments')]; the client and the service are not
    among the sources. The rows are held in the order in which a read
    ordered by [created_at], newest first, returns them; the store assigns
    the id and the creation time of a row it inserts, and a request that
    fails leaves the rows unchanged. *)
Record Store := mk {
  rows : list AppointmentRecord.t;
  next_id : nat;
  clock : Z;
  online : bool;
}.

(** What [JSON.stringify] keeps of a member: [undefined] and functions
    are left out, an object stays an object. *)
Definition serialised (v : jsval) : bool :=
  match v with
  | JUndefined => false
  | JNative key => String.eqb key "__proto__"
  | _ => true
  end.

(** What a JSON column keeps of an object. *)
Definition json (obj : gmap string jsval) : gmap string jsval :=
  filter (fun kv => serialised (snd kv) = true) obj.

(** [.insert([{ user_id, form_data, clipboard_summary, status }]).select().single()],
    with the answer already mapped to an [AppointmentRecord]. *)
Definition insert_single (form_data : gmap string jsval) (clipboard_summary : string)
  : Store -> Supabase.Result AppointmentRecord.t * Store := fun s =>
  if online s then
    let created :=
      AppointmentRecord.mk (Supabase.server_id (next_id s)) (clock s)
        (json form_data) clipboard_summary in
    (Supabase.Ok created, mk (created :: rows s) (S (next_id s)) (clock s + 1) (online s))
  else (Supabase.Error, s).

(** [.delete().eq('id', id)] *)
Definition delete_eq (id : string) : Store -> Supabase.Result unit * Store := fun s =>
  if online s then
    (Supabase.Ok tt,
     mk (List.filter (fun a => negb (String.eqb (AppointmentRecord.id a) id)) (rows s))
        (next_id s) (clock s) (online s))
  else (Supabase.Error, s).

(** [.select('*').order('created_at', { ascending: false })] *)
Definition select_all : Store -> Supabase.Result (list AppointmentRecord.t) * Store :=
  fun s => if online s then (Supabase.Ok (rows s), s) else (Supabase.Error, s).

End AppointmentsTable.

(** ** [src/pages/AppointmentMaker.tsx]: the handlers *)

Module AppointmentMaker.

Inductive ToastType := success | error.

(** What the system clipboard does with a request to write: the promise
    of [writeText] resolves, or it rejects, or [navigator.clipboard] is
    missing and the call itself throws. *)
Inductive ClipboardAccess := Resolves | Rejects | Missing.

(** The [useState] cells of the component that the handlers touch, and the
    system clipboard: what it holds and how it answers. *)
Record State := mkState {
  clipboardAccess : ClipboardAccess;
  schema : list FormField.t;
  appointments : list AppointmentRecord.t;
  blockedRules : list BlockRule.t;
  formData : gmap string jsval;
  errors : gmap string bool;
  toast : option (string * ToastType);
  clipboard : option string;
  editingRecord : option AppointmentRecord.t;
  isEditModalOpen : bool;
  activeDateField : option string;
  calendarViewDate : JSDate.Date;
}.

Definition setAppointments (l : list AppointmentRecord.t) (st : State) : State :=
  mkState (clipboardAccess st) (schema st) l (blockedRules st) (formData st) (errors st)
    (toast st) (clipboard st) (editingRecord st) (isEditModalOpen st)
    (activeDateField st) (calendarViewDate st).

Definition setBlockedRules (l : list BlockRule.t) (st : State) : State :=
  mkState (clipboardAccess st) (schema st) (appointments st) l (formData st) (errors st)
    (toast st) (clipboard st) (editingRecord st) (isEditModalOpen st)
    (activeDateField st) (calendarViewDate st).

Definition setFormData (d : gmap string jsval) (st : State) : State :=
  mkState (clipboardAccess st) (schema st) (appointments st) (blockedRules st) d
    (errors st) (toast st) (clipboard st) (editingRecord st) (isEditModalOpen st)
    (activeDateField st) (calendarViewDate st).

Definition setErrors (e : gmap string bool) (st : State) : State :=
  mkState (clipboardAccess st) (schema st) (appointments st) (blockedRules st)
    (formData st) e (toast st) (clipboard st) (editingRecord st) (isEditModalOpen st)
    (activeDateField st) (calendarViewDate st).

Definition showToast (message : string) (type : ToastType) (st : State) : State :=
  mkState (clipboardAccess st) (schema st) (appointments st) (blockedRules st)
    (formData st) (errors st) (Some (message, type)) (clipboard st) (editingRecord st)
    (isEditModalOpen st) (activeDateField st) (calendarViewDate st).

(** What a successful [navigator.clipboard.writeText(text)] leaves. *)
Definition writeText (text : string) (st : State) : State :=
  mkState (clipboardAccess st) (schema st) (appointments st) (blockedRules st)
    (formData st) (errors st) (toast st) (Some text) (editingRecord st)
    (isEditModalOpen st) (activeDateField st) (calendarViewDate st).

(** [copyToClipboard(text)] up to its [await]: the request is made; where
    the clipboard is missing the call throws at once and the [catch] branch
    runs. *)
Definition copyToClipboard (text : string) (st : State) : State :=
  match clipboardAccess st with
  | Missing => showToast "Failed to copy" error st
  | _ => st
  end.

(** The rest of [copyToClipboard], once the promise of [writeText] has
    settled. *)
Definition copyToClipboardSettled (text : string) (st : State) : State :=
  match clipboardAccess st with
  | Resolves => showToast "Copied to clipboard!" success (writeText text st)
  | Rejects => showToast "Failed to copy" error st
  | Missing => st
  end.

Definition setEditingRecord (r : option AppointmentRecord.t) (st : State) : State :=
  mkState (clipboardAccess st) (schema st) (appointments st) (blockedRules st)
    (formData st) (errors st) (toast st) (clipboard st) r (isEditModalOpen st)
    (activeDateField st) (calendarViewDate st).

Definition setIsEditModalOpen (b : bool) (st : State) : State :=
  mkState (clipboardAccess st) (schema st) (appointments st) (blockedRules st)
    (formData st) (errors st) (toast st) (clipboard st) (editingRecord st) b
    (activeDateField st) (calendarViewDate st).

Definition setActiveDateField (f : option string) (st : State) : State :=
  mkState (clipboardAccess st) (schema st) (appointments st) (blockedRules st)
    (formData st) (errors st) (toast st) (clipboard st) (editingRecord st)
    (isEditModalOpen st) f (calendarViewDate st).

(** [isSlotUnavailable] on the untyped values that the form holds: the
    comparisons of the source, with whatever the date and the time are. *)
Definition isSlotUnavailableAny (appointments : list AppointmentRecord.t)
    (blockedRules : list BlockRule.t) (dateStr time state : jsval) : bool :=
  if negb (truthy state) then true else
  match STATE_CONFIG_get (ToString state) with
  | NoEntry => true
  | config =>
      let bookings :=
        List.filter (fun a =>
          strict_eq (get (AppointmentRecord.formData a) "appointmentDate") dateStr
          && strict_eq (get (AppointmentRecord.formData a) "appointmentTime") time
          && strict_eq (get (AppointmentRecord.formData a) "state") state)
        appointments in
      if atCapacity (Z.of_nat (length bookings)) config then true else
      let isBlocked :=
        existsb (fun r =>
          strict_eq (JStr (BlockRule.date r)) dateStr
          && strict_eq (BlockRule.time r) time
          && (negb (truthy (BlockRule.state r)) || strict_eq (BlockRule.state r) state))
        blockedRules in
      if isBlocked then true else
      false
  end.

(** The [forEach] of the validation: [newErrors] and [isValid]. *)
Definition validate (schema : list FormField.t) (formData : gmap string jsval)
  : gmap string bool * bool :=
  fold_left (fun (acc : gmap string bool * bool) field =>
    if isFieldVisible field formData then
      if FormField.required field && negb (truthy (get formData (FormField.id field)))
      then (assign (fst acc) (FormField.id field) true, false)
      else acc
    else acc)
  schema (∅, true).

Section Handlers.

(** [user] from [useAuth()]: the id of the signed-in user, if any. *)
Variable user : option string.

Definition handleSaveAndCopy (st : State) (db : AppointmentsTable.Store)
  : State * AppointmentsTable.Store :=
  let (newErrors, isValid) := validate (schema st) (formData st) in
  (* Double check capacity before saving *)
  if truthy (get (formData st) "state")
     && truthy (get (formData st) "appointmentDate")
     && truthy (get (formData st) "appointmentTime")
     && isSlotUnavailableAny (appointments st) (blockedRules st)
          (get (formData st) "appointmentDate") (get (formData st) "appointmentTime")
          (get (formData st) "state")
  then
    (showToast "This slot is unavailable (full or blocked). Please pick another." error st,
     db)
  else
  let st := setErrors newErrors st in
  if negb isValid then
    (showToast "Cannot save: Missing required fields." error st, db)
  else
  let summary := generateClipboardText (formData st) (schema st) in
  match user with
  | None => (showToast "Please log in using Supabase to save." error st, db)
  | Some _ =>
      match AppointmentsTable.insert_single (formData st) summary db with
      | (Supabase.Ok newRecord, db') =>
          let st := setAppointments (newRecord :: appointments st) st in
          let st := copyToClipboard summary st in
          let st := setFormData ∅ st in
          let st := setErrors ∅ st in
          let st := showToast "Saved, Copied & Form Cleared!" success st in
          (* [copyToClipboard] is not awaited: the promise settles after the
             handler has run to its end *)
          (copyToClipboardSettled summary st, db')
      | (Supabase.Error, db') =>
          (showToast "Failed to save to database." error st, db')
      end
  end.

(** [fetchAppointments]: both tables are read again. *)
Definition fetchAppointments (st : State) (db : AppointmentsTable.Store)
    (rules : Supabase.Store) : State :=
  match user with
  | None => st
  | Some _ =>
      let st :=
        match fst (AppointmentsTable.select_all db) with
        | Supabase.Ok apptData => setAppointments apptData st
        | Supabase.Error => st
        end in
      match fst (Supabase.select_all rules) with
      | Supabase.Ok rulesData => setBlockedRules rulesData st
      | Supabase.Error => st
      end
  end.

Definition handleDelete (id : string) (st : State) (db : AppointmentsTable.Store)
    (rules : Supabase.Store) : State * AppointmentsTable.Store :=
  (* Store the deleted item in case we need to restore it *)
  let deletedAppt :=
    List.find (fun a => String.eqb (AppointmentRecord.id a) id) (appointments st) in
  (* Optimistic update *)
  let st :=
    setAppointments
      (List.filter (fun a => negb (String.eqb (AppointmentRecord.id a) id))
         (appointments st)) st in
  match AppointmentsTable.delete_eq id db with
  | (Supabase.Ok _, db') =>
      let st := fetchAppointments st db' rules in
      (showToast "Record deleted." success st, db')
  | (Supabase.Error, db') =>
      (* Restore the item if deletion failed *)
      let st :=
        match deletedAppt with
        | Some deletedAppt => setAppointments (appointments st ++ [deletedAppt]) st
        | None => st
        end in
      (showToast "Failed to delete." error st, db')
  end.

End Handlers.

Definition handleUpdateRecord (st : State) : State :=
  match editingRecord st with
  | None => st
  | Some editingRecord =>
      let st :=
        setAppointments
          (map (fun a =>
                  if String.eqb (AppointmentRecord.id a) (AppointmentRecord.id editingRecord)
                  then editingRecord else a)
             (appointments st)) st in
      let st := setIsEditModalOpen false st in
      showToast "Record updated." success st
  end.

(** The edit button of a record, and the text area of the edit modal. *)
Definition openEdit (record : AppointmentRecord.t) (st : State) : State :=
  setIsEditModalOpen true (setEditingRecord (Some record) st).

Definition editSummary (text : string) (st : State) : State :=
  match editingRecord st with
  | None => st
  | Some r =>
      setEditingRecord
        (Some (AppointmentRecord.mk (AppointmentRecord.id r) (AppointmentRecord.createdAt r)
                 (AppointmentRecord.formData r) text)) st
  end.

(** *** Calendar *)

Definition getDaysInMonth (date : JSDate.Date) : Z :=
  let year := JSDate.getFullYear date in
  let month := JSDate.getMonth date in
  JSDate.getDate (JSDate.make year (month + 1) 0).

Definition getFirstDayOfMonth (date : JSDate.Date) : Z :=
  let year := JSDate.getFullYear date in
  let month := JSDate.getMonth date in
  JSDate.getDay (JSDate.make year month 1).

(** The string that [selectDate] writes for the cell [day]. *)
Definition selectedDateStr (calendarViewDate : JSDate.Date) (day : Z) : string :=
  let year := JSDate.getFullYear calendarViewDate in
  let month := padStart 2 "0" (string_of_Z (JSDate.getMonth calendarViewDate + 1)) in
  let dayStr := padStart 2 "0" (string_of_Z day) in
  string_of_Z year +:+ "-" +:+ month +:+ "-" +:+ dayStr.

Definition selectDate (day : Z) (st : State) : State :=
  match activeDateField st with
  | None => st
  | Some field =>
      let dateStr := selectedDateStr (calendarViewDate st) day in
      let st :=
        setFormData
          (<["appointmentTime" := JStr EmptyString]>
             (<[field := JStr dateStr]> (formData st))) st in
      let st := setErrors (<[field := false]> (errors st)) st in
      setActiveDateField None st
  end.

(** The [onChange] of a select input other than the time select. *)
Definition changeSelect (field : FormField.t) (value : string) (st : State) : State :=
  let newData := <[FormField.id field := JStr value]> (formData st) in
  (* If State changes, clear date and time because rules changed *)
  let newData :=
    if String.eqb (FormField.id field) "state"
    then <["appointmentTime" := JStr EmptyString]>
           (<["appointmentDate" := JStr EmptyString]> newData)
    else newData in
  let st := setFormData newData st in
  if truthy (JStr value) then setErrors (<[FormField.id field := false]> (errors st)) st
  else st.

Definition setCalendarViewDate (d : JSDate.Date) (st : State) : State :=
  mkState (clipboardAccess st) (schema st) (appointments st) (blockedRules st)
    (formData st) (errors st) (toast st) (clipboard st) (editingRecord st)
    (isEditModalOpen st) (activeDateField st) d.

Inductive Direction := prev | next.

Definition handleCalendarNav (direction : Direction) (st : State) : State :=
  let newDate := calendarViewDate st in
  let newDate :=
    match direction with
    | prev => JSDate.setMonth (JSDate.getMonth newDate - 1) newDate
    | next => JSDate.setMonth (JSDate.getMonth newDate + 1) newDate
    end in
  setCalendarViewDate newDate st.

(** The [Date] of the cell [day] of the calendar on view. *)
Definition cellDate (calendarViewDate : JSDate.Date) (day : Z) : JSDate.Date :=
  JSDate.make (JSDate.getFullYear calendarViewDate) (JSDate.getMonth calendarViewDate) day.

End AppointmentMaker.

(** ** Vocabulary of the specification *)

(** An appointment is booked for date [d], slot [t] and region [r]. *)
Definition bookedFor (d t r : string) (a : AppointmentRecord.t) : Prop :=
  AppointmentRecord.formData a !! "appointmentDate" = Some (JStr d)
  /\ AppointmentRecord.formData a !! "appointmentTime" = Some (JStr t)
  /\ AppointmentRecord.formData a !! "state" = Some (JStr r).

#[global] Instance bookedFor_dec d t r a : Decision (bookedFor d t r a).
Proof. unfold bookedFor. apply _. Defined.

(** The number of appointments that match (date, time, region). *)
Definition bookingCount (appointments : list AppointmentRecord.t) (d t r : string) : nat :=
  length (filter (bookedFor d t r) appointments).

(** A member that is missing: [undefined], [null] or empty. *)
Definition absent (v : jsval) : Prop := truthy v = false.

(** A block rule for the slot: same date, exactly this time, and either
    no state or the region's. *)
Definition slotRule (d t r : string) (rule : BlockRule.t) : Prop :=
  BlockRule.date rule = d
  /\ BlockRule.time rule = JStr t
  /\ (absent (BlockRule.state rule) \/ BlockRule.state rule = JStr r).

(** A region value against which nothing can be booked: none selected, or
    one under which [STATE_CONFIG] finds nothing. *)
Definition unknownRegion (v : jsval) : Prop :=
  truthy v = false \/ STATE_CONFIG_get (ToString v) = NoEntry.

(** A region value that is no key of the table and still finds a member:
    the name of something that every object inherits. *)
Definition inheritedName (v : jsval) : Prop :=
  truthy v = true /\ STATE_CONFIG_get (ToString v) = Builtin.

(** A whole-day block rule for date string [d] and region value [v]. *)
Definition wholeDayRule (d : string) (v : jsval) (rule : BlockRule.t) : Prop :=
  BlockRule.date rule = d
  /\ absent (BlockRule.time rule)
  /\ (absent (BlockRule.state rule) \/ BlockRule.state rule = v).

(** An appointment record whose form holds just the three booking keys. *)
Definition booking (d t r : string) : AppointmentRecord.t :=
  AppointmentRecord.mk "a" 0
    (<["appointmentDate" := JStr d]>
       (<["appointmentTime" := JStr t]> (<["state" := JStr r]> ∅)))
    EmptyString.

(** The form with region [r] selected. *)
Definition formWithState (r : string) : gmap string jsval := <["state" := JStr r]> ∅.

(** A global whole-day rule for Tuesday 2024-03-12, as the store returns it. *)
Definition officeClosed : BlockRule.t :=
  BlockRule.mk "r1" "2024-03-12" JNull JNull (JStr "Office closed").

(** Egypt in the spring of 2024: two hours ahead of UTC until the clocks
    went from 0:00 to 1:00 on Friday 26 April, three hours from then on. *)
Definition cairoSpring2024 : JSDate.Zone :=
  fun t => if t <? JSDate.make 2024 3 26 + 3600000 then 7200000 else 10800000.

(** *** Clipboard summary *)

(** The value that the filled form holds for a field: the member of that
    name among the form's own, [undefined] when the form has none. *)
Definition valueOf (data : gmap string jsval) (key : string) : jsval :=
  default JUndefined (data !! key).

(** The showWhen condition of a field holds against the data. *)
Definition visible (data : gmap string jsval) (field : FormField.t) : bool :=
  match FormField.showWhen field with
  | None => true
  | Some sw =>
      strict_eq (valueOf data (ConditionalLogic.fieldId sw)) (ConditionalLogic.value sw)
  end.

(** A field is emitted when it is visible and has a non-empty value; a
    value counts as non-empty when it is truthy, which for the strings that
    the form stores means any but the empty one. *)
Definition emitted (data : gmap string jsval) (field : FormField.t) : bool :=
  visible data field && truthy (valueOf data (FormField.id field)).

(** prefix + value + suffix *)
Definition fieldText (data : gmap string jsval) (field : FormField.t) : string :=
  or_empty (FormField.prefix field)
  +:+ ToString (valueOf data (FormField.id field))
  +:+ or_empty (FormField.suffix field).

(** No field of the schema is named, or made to depend on a field that is
    named, like a member that every object inherits. *)
Definition ordinaryKeys (schema : list FormField.t) : bool :=
  forallb (fun field =>
    negb (inherited (FormField.id field))
    && match FormField.showWhen field with
       | None => true
       | Some sw => negb (inherited (ConditionalLogic.fieldId sw))
       end) schema.

Definition concatAll (l : list string) : string := fold_right String.append EmptyString l.

Definition confirmationLine : string := "Did you confirm the physical address?: Yes".

(** The summary as the specification words it, for a given way [strip] of
    removing code points: the emitted fields in schema order, then the
    confirmation line, then the stripping. *)
Definition clipboardSpec (strip : string -> string)
    (data : gmap string jsval) (schema : list FormField.t) : string :=
  strip (concatAll (map (fieldText data) (List.filter (emitted data) schema))
         +:+ confirmationLine).

(** Text as a sequence of code points. The code points of well-formed text
    are the Unicode scalar values: the numbers from 0 to 0x10FFFF outside
    the surrogate range; the strings of this development hold their UTF-8
    bytes. *)
Definition scalarValue (cp : Z) : bool :=
  (0 <=? cp) && (cp <=? 0x10FFFF) && negb ((0xD800 <=? cp) && (cp <=? 0xDFFF)).

Definition chr (b : Z) : ascii := ascii_of_N (Z.to_N b).

Definition utf8 (cp : Z) : string :=
  if cp <? 0x80 then String (chr cp) EmptyString
  else if cp <? 0x800 then
    String (chr (0xC0 + cp / 0x40)) (String (chr (0x80 + cp mod 0x40)) EmptyString)
  else if cp <? 0x10000 then
    String (chr (0xE0 + cp / 0x1000))
      (String (chr (0x80 + cp / 0x40 mod 0x40))
         (String (chr (0x80 + cp mod 0x40)) EmptyString))
  else
    String (chr (0xF0 + cp / 0x40000))
      (String (chr (0x80 + cp / 0x1000 mod 0x40))
         (String (chr (0x80 + cp / 0x40 mod 0x40))
            (String (chr (0x80 + cp mod 0x40)) EmptyString))).

Definition text_of (cps : list Z) : string := concatAll (map utf8 cps).

(** The code points of an ASCII text. *)
Definition codes (s : string) : list Z := map Unicode.byte (list_ascii_of_string s).

(** The Emoticons block. *)
Definition emoticon (cp : Z) : bool := (0x1F600 <=? cp) && (cp <=? 0x1F64F).

(** Emoji code points, told by Unicode block: the pictographic blocks of
    the supplementary plane, Emoticons being one of the four. *)
Definition is_emoji_code_point (cp : Z) : bool :=
  Unicode.in_range 0x1F300 0x1F5FF cp     (* Miscellaneous Symbols and Pictographs *)
  || Unicode.in_range 0x1F600 0x1F64F cp  (* Emoticons *)
  || Unicode.in_range 0x1F680 0x1F6FF cp  (* Transport and Map Symbols *)
  || Unicode.in_range 0x1F900 0x1F9FF cp. (* Supplemental Symbols and Pictographs *)

(** Every emoji code point stripped. *)
Definition stripEmoji : string -> string :=
  Unicode.remove_code_points is_emoji_code_point.

(** Only the Emoticons block, U+1F600 to U+1F64F, stripped. *)
Definition stripEmoticons : string -> string :=
  Unicode.remove_code_points (Unicode.in_range 0x1F600 0x1F64F).

(** Text in which no byte can start a four-byte sequence. *)
Fixpoint plainText (s : string) : bool :=
  match s with
  | EmptyString => true
  | String a t => (Unicode.byte a <? 0xF0) && plainText t
  end.

(** U+1F680 ROCKET and U+1F600 GRINNING FACE *)
Definition rocket : string := "🚀".
Definition grinning : string := "😀".

(** A form whose owner name holds both. *)
Definition rocketForm : gmap string jsval :=
  <["homeOwner" := JStr ("Ann " +:+ rocket +:+ grinning)]> ∅.

(** *** Bulk block-date editor *)

(** The state scope of a rule is exactly the active region filter: no state
    under the all-regions filter, the selected region otherwise. *)
Definition exactScope (blockStateFilter : string) (rule : BlockRule.t) : Prop :=
  if String.eqb blockStateFilter "ALL"
  then BlockRule.state rule = JUndefined \/ BlockRule.state rule = JNull
  else BlockRule.state rule = JStr blockStateFilter.

(** A whole-day rule of date string [d]. *)
Definition wholeDayOn (d : string) (rule : BlockRule.t) : Prop :=
  BlockRule.date rule = d /\ absent (BlockRule.time rule).

(** Sample rules for Tuesday 2024-03-12: a whole-day rule for GA and a
    global rule for the 2:00 PM slot. *)
Definition gaClosed : BlockRule.t :=
  BlockRule.mk "r2" "2024-03-12" JNull (JStr "GA") (JStr "Manual Calendar Block").

Definition slotClosed : BlockRule.t :=
  BlockRule.mk "r3" "2024-03-12" (JStr "2:00 PM") JNull (JStr "Manual Slot Block").

(** The grid on 2024-03-12 with the given committed rules, working copy and
    region filter. *)
Definition gridOn (committed temp : list BlockRule.t) (blockStateFilter : string)
  : ScheduleGrid.State :=
  ScheduleGrid.mkState [] committed (JSDate.make 2024 2 12) true
    (JSDate.make 2024 2 1) temp blockStateFilter.

(** A reachable store that holds the given rows. *)
Definition storeOf (rows : list BlockRule.t) : Supabase.Store :=
  Supabase.mk rows 100 true.

(** *** Saving an appointment *)

(** Some visible required field of the schema reads as empty:
    [formData[field.id]] is falsy. The form is read as the code reads it, so
    that a member that the form inherits counts as a value. *)
Definition missingRequired (schema : list FormField.t) (formData : gmap string jsval)
  : Prop :=
  exists field,
    In field schema
    /\ isFieldVisible field formData = true
    /\ FormField.required field = true
    /\ truthy (get formData (FormField.id field)) = false.

(** The form names a state, a date and a time, and that slot is
    unavailable. *)
Definition slotRefused (st : AppointmentMaker.State) : Prop :=
  truthy (get (AppointmentMaker.formData st) "state") = true
  /\ truthy (get (AppointmentMaker.formData st) "appointmentDate") = true
  /\ truthy (get (AppointmentMaker.formData st) "appointmentTime") = true
  /\ AppointmentMaker.isSlotUnavailableAny (AppointmentMaker.appointments st)
       (AppointmentMaker.blockedRules st)
       (get (AppointmentMaker.formData st) "appointmentDate")
       (get (AppointmentMaker.formData st) "appointmentTime")
       (get (AppointmentMaker.formData st) "state") = true.

(** The record that the store creates for the form of [st]. *)
Definition recordOf (st : AppointmentMaker.State) (db : AppointmentsTable.Store)
  : AppointmentRecord.t :=
  AppointmentRecord.mk (Supabase.server_id (AppointmentsTable.next_id db))
    (AppointmentsTable.clock db)
    (AppointmentsTable.json (AppointmentMaker.formData st))
    (generateClipboardText (AppointmentMaker.formData st) (AppointmentMaker.schema st)).

(** No real slot of a region of the table holds more bookings than the
    capacity of the region. *)
Definition withinCapacity (appointments : list AppointmentRecord.t) : Prop :=
  forall d t r config,
    d <> EmptyString -> t <> EmptyString ->
    STATE_CONFIG !! r = Some config ->
    Z.of_nat (bookingCount appointments d t r) <= StateConfig.capacity config.

(** A maker state with the default schema, the given bookings and form,
    nothing else set, and the calendar on March 2024. *)
Definition makerOn (appointments : list AppointmentRecord.t)
    (blockedRules : list BlockRule.t) (formData : gmap string jsval)
  : AppointmentMaker.State :=
  AppointmentMaker.mkState AppointmentMaker.Resolves DEFAULT_SCHEMA appointments blockedRules
    formData ∅ None None
    None false (Some "appointmentDate") (JSDate.make 2024 2 1).

(** A reachable appointments table that holds the given rows. *)
Definition tableOf (rows : list AppointmentRecord.t) : AppointmentsTable.Store :=
  AppointmentsTable.mk rows 7 1710000000000 true.

(** A filled form for SC on Tuesday 2024-03-12 at 9:00 AM. *)
Definition scForm : gmap string jsval :=
  <["homeOwner" := JStr "Ann"]>
    (<["state" := JStr "SC"]>
       (<["appointmentDate" := JStr "2024-03-12"]>
          (<["appointmentTime" := JStr "9:00 AM"]> ∅))).

(** *** The civil calendar *)

Definition isLeapYear (y : Z) : bool :=
  (y mod 4 =? 0) && (negb (y mod 100 =? 0) || (y mod 400 =? 0)).

(** Days of the month [m] (0 = January) of year [y]. *)
Definition daysInMonth (y m : Z) : Z :=
  if m =? 1 then (if isLeapYear y then 29 else 28)
  else if (m =? 3) || (m =? 5) || (m =? 8) || (m =? 10) then 30
  else 31.

(** The year is one that [new Date(year, month, day)] takes as it is. *)
Definition plainYear (y : Z) : Prop := y < 0 \/ 99 < y.

(** The month that an arrow of a calendar asks for, counted from the month
    on view, and the year it falls in. *)
Definition monthStep (direction : AppointmentMaker.Direction) : Z :=
  match direction with
  | AppointmentMaker.prev => -1
  | AppointmentMaker.next => 1
  end.

Definition targetYear (view : JSDate.Date) (direction : AppointmentMaker.Direction) : Z :=
  JSDate.getFullYear view + (JSDate.getMonth view + monthStep direction) / 12.

Definition targetMonth (view : JSDate.Date) (direction : AppointmentMaker.Direction) : Z :=
  (JSDate.getMonth view + monthStep direction) mod 12.

(** The arrow of the editor's calendar for a direction. *)
Definition gridArrow (direction : AppointmentMaker.Direction)
  : ScheduleGrid.State -> ScheduleGrid.State :=
  match direction with
  | AppointmentMaker.prev => ScheduleGrid.showPreviousMonth
  | AppointmentMaker.next => ScheduleGrid.showNextMonth
  end.

(** A maker state whose calendar shows the month of [view]. *)
Definition makerViewing (view : JSDate.Date) : AppointmentMaker.State :=
  AppointmentMaker.mkState AppointmentMaker.Resolves DEFAULT_SCHEMA [] [] scForm ∅ None None
    None false (Some "appointmentDate") view.

(** A grid whose day view and editor calendar are on [view]. *)
Definition gridViewing (view : JSDate.Date) : ScheduleGrid.State :=
  ScheduleGrid.mkState [] [] view true view [] "ALL".

(** * Properties *)

(** ** Reading boolean tests *)

Lemma strict_eq_true (a b : jsval) : strict_eq a b = true <-> a = b.
Proof. unfold strict_eq. apply bool_decide_eq_true. Qed.

Lemma strict_eq_false (a b : jsval) : strict_eq a b = false <-> a <> b.
Proof. unfold strict_eq. apply bool_decide_eq_false. Qed.

Lemma includes_In (l : list string) (s : string) : includes l s = true <-> In s l.
Proof.
  unfold includes. rewrite existsb_exists. split.
  - intros [x [Hin Heq]]. apply String.eqb_eq in Heq. now subst.
  - intros Hin. exists s. split; [assumption | apply String.eqb_refl].
Qed.

Lemma includesZ_In (l : list Z) (x : Z) : includesZ l x = true <-> In x l.
Proof.
  unfold includesZ. rewrite existsb_exists. split.
  - intros [y [Hin Heq]]. apply Z.eqb_eq in Heq. now subst.
  - intros Hin. exists x. split; [assumption | apply Z.eqb_refl].
Qed.

Lemma truthy_JStr (s : string) : truthy (JStr s) = false <-> s = EmptyString.
Proof.
  simpl. rewrite negb_false_iff. apply String.eqb_eq.
Qed.

(** No region code of the table is the empty string. *)
Lemma STATE_CONFIG_empty_key : STATE_CONFIG !! EmptyString = None.
Proof. reflexivity. Qed.

(** ** Reading a member *)

Lemma get_own (m : gmap string jsval) (k : string) (v : jsval) :
  m !! k = Some v -> get m k = v.
Proof. intros H. unfold get. now rewrite H. Qed.

(** A key that names no inherited member is read from the object alone. *)
Lemma get_ordinary (m : gmap string jsval) (k : string) :
  inherited k = false -> get m k = default JUndefined (m !! k).
Proof. intros H. unfold get. rewrite H. now destruct (m !! k). Qed.

Lemma get_JStr (m : gmap string jsval) (k s : string) :
  strict_eq (get m k) (JStr s) = true <-> m !! k = Some (JStr s).
Proof.
  rewrite strict_eq_true. unfold get.
  destruct (m !! k) as [v|]; [split; congruence|].
  destruct (inherited k); split; discriminate.
Qed.

Lemma STATE_CONFIG_get_Entry (k : string) (config : StateConfig.t) :
  STATE_CONFIG_get k = Entry config <-> STATE_CONFIG !! k = Some config.
Proof.
  unfold STATE_CONFIG_get. destruct (STATE_CONFIG !! k) as [c|].
  - split; congruence.
  - destruct (inherited k); split; discriminate.
Qed.

(** A key of the table is no name of an inherited member, and none is
    empty. *)
Lemma STATE_CONFIG_keys (k : string) (config : StateConfig.t) :
  STATE_CONFIG !! k = Some config -> inherited k = false /\ k <> EmptyString.
Proof.
  intros H.
  assert (Hk : k ∈ dom STATE_CONFIG) by (apply elem_of_dom; eauto).
  unfold STATE_CONFIG in Hk.
  rewrite !dom_insert_L, dom_empty_L in Hk.
  rewrite !elem_of_union, !elem_of_singleton in Hk.
  destruct Hk as [-> | [-> | [-> | [-> | Hk]]]];
    try (split; [reflexivity | discriminate]).
  now apply elem_of_empty in Hk.
Qed.

(** The three outcomes of [STATE_CONFIG[state]] behind the guard. *)
Lemma region_cases (v : jsval) :
  unknownRegion v
  \/ inheritedName v
  \/ (truthy v = true /\ exists config, STATE_CONFIG !! ToString v = Some config).
Proof.
  unfold unknownRegion, inheritedName.
  destruct (truthy v); [|now left; left].
  destruct (STATE_CONFIG_get (ToString v)) as [config| |] eqn:E.
  - right. right. split; [reflexivity|]. exists config. now apply STATE_CONFIG_get_Entry.
  - right. left. now split.
  - left. now right.
Qed.

(** ** Slot availability *)

Section SlotSpec.

Variable appointments : list AppointmentRecord.t.
Variable blockedRules : list BlockRule.t.

Lemma bookings_length (d t r : string) :
  length
    (List.filter (fun a =>
       strict_eq (get (AppointmentRecord.formData a) "appointmentDate") (JStr d)
       && strict_eq (get (AppointmentRecord.formData a) "appointmentTime") (JStr t)
       && strict_eq (get (AppointmentRecord.formData a) "state") (JStr r))
     appointments)
  = bookingCount appointments d t r.
Proof.
  unfold bookingCount.
  induction appointments as [|a l IH]; [reflexivity|].
  cbn [List.filter]. rewrite filter_cons.
  destruct (decide (bookedFor d t r a)) as [Hb|Hb].
  - destruct Hb as (H1 & H2 & H3).
    rewrite (proj2 (get_JStr _ _ _) H1), (proj2 (get_JStr _ _ _) H2),
      (proj2 (get_JStr _ _ _) H3).
    simpl. now rewrite IH.
  - destruct (strict_eq (get (AppointmentRecord.formData a) "appointmentDate") (JStr d))
      eqn:E1; [|exact IH].
    destruct (strict_eq (get (AppointmentRecord.formData a) "appointmentTime") (JStr t))
      eqn:E2; [|exact IH].
    destruct (strict_eq (get (AppointmentRecord.formData a) "state") (JStr r))
      eqn:E3; [|exact IH].
    exfalso. apply Hb. unfold bookedFor.
    now rewrite <- !get_JStr.
Qed.

Lemma slotRule_test (d t r : string) :
  existsb (fun rule =>
    String.eqb (BlockRule.date rule) d
    && strict_eq (BlockRule.time rule) (JStr t)
    && (negb (truthy (BlockRule.state rule))
        || strict_eq (BlockRule.state rule) (JStr r)))
  blockedRules = true
  <-> exists rule, In rule blockedRules /\ slotRule d t r rule.
Proof.
  rewrite existsb_exists. unfold slotRule, absent.
  split; intros [rule [Hin H]]; exists rule; (split; [assumption|]).
  - rewrite !andb_true_iff, orb_true_iff, negb_true_iff in H.
    now rewrite String.eqb_eq, !strict_eq_true in H.
  - rewrite !andb_true_iff, orb_true_iff, negb_true_iff.
    now rewrite String.eqb_eq, !strict_eq_true.
Qed.

(** What [isSlotUnavailable] computes for a region of the table. *)
Lemma isSlotUnavailable_known (d t r : string) (config : StateConfig.t) :
  STATE_CONFIG !! r = Some config ->
  isSlotUnavailable appointments blockedRules d t (JStr r)
  = (StateConfig.capacity config <=? Z.of_nat (bookingCount appointments d t r))
    || existsb (fun rule =>
         String.eqb (BlockRule.date rule) d
         && strict_eq (BlockRule.time rule) (JStr t)
         && (negb (truthy (BlockRule.state rule))
             || strict_eq (BlockRule.state rule) (JStr r)))
       blockedRules.
Proof.
  intros Hcfg. unfold isSlotUnavailable.
  destruct (truthy (JStr r)) eqn:Ht.
  - cbn [negb ToString]. rewrite (proj2 (STATE_CONFIG_get_Entry _ _) Hcfg), bookings_length.
    cbn [atCapacity].
    destruct (StateConfig.capacity config <=? Z.of_nat (bookingCount appointments d t r));
      [reflexivity|].
    cbn [orb]. now destruct (existsb _ blockedRules).
  - apply truthy_JStr in Ht. subst r.
    rewrite STATE_CONFIG_empty_key in Hcfg. discriminate.
Qed.

Lemma isSlotUnavailable_unknown (d t : string) (v : jsval) :
  unknownRegion v ->
  isSlotUnavailable appointments blockedRules d t v = true.
Proof.
  intros [H|H]; unfold isSlotUnavailable.
  - now rewrite H.
  - rewrite H. now destruct (truthy v).
Qed.

(** Under the name of an inherited member there is no capacity to reach:
    only the block rules are looked at. *)
Lemma isSlotUnavailable_inherited (d t : string) (v : jsval) :
  inheritedName v ->
  isSlotUnavailable appointments blockedRules d t v
  = existsb (fun rule =>
      String.eqb (BlockRule.date rule) d
      && strict_eq (BlockRule.time rule) (JStr t)
      && (negb (truthy (BlockRule.state rule)) || strict_eq (BlockRule.state rule) v))
    blockedRules.
Proof.
  intros [Ht Hcfg]. unfold isSlotUnavailable. rewrite Ht, Hcfg. cbn [negb atCapacity].
  now destruct (existsb _ blockedRules).
Qed.

End SlotSpec.


(** X29. For a region code [r] that names no inherited member,
    [isSlotUnavailable d t r] is true exactly when [r] is not a key of the
    capacity table, or the appointments booked for (d, t, r) reach the
    capacity of [r], or some block rule has date [d], time exactly [t] and a
    state that is absent or [r]; the two checks are independent. With
    capacity 2, two bookings make the slot unavailable whatever the rules
    are, and one booking leaves it available unless a block rule applies. *)
Theorem isSlotUnavailable_spec
    (appointments : list AppointmentRecord.t) (blockedRules : list BlockRule.t)
    (d t r : string) :
  inherited r = false ->
  (isSlotUnavailable appointments blockedRules d t (JStr r) = true
   <-> STATE_CONFIG !! r = None
       \/ (exists config, STATE_CONFIG !! r = Some config
             /\ StateConfig.capacity config <= Z.of_nat (bookingCount appointments d t r))
       \/ (exists rule, In rule blockedRules /\ slotRule d t r rule))
  /\ (forall config, STATE_CONFIG !! r = Some config ->
        StateConfig.capacity config = 2 ->
        bookingCount appointments d t r = 2%nat ->
        isSlotUnavailable appointments blockedRules d t (JStr r) = true)
  /\ (forall config, STATE_CONFIG !! r = Some config ->
        StateConfig.capacity config = 2 ->
        bookingCount appointments d t r = 1%nat ->
        (forall rule, In rule blockedRules -> ~ slotRule d t r rule) ->
        isSlotUnavailable appointments blockedRules d t (JStr r) = false).
Proof.
  intros Hr. split; [|split].
  - destruct (STATE_CONFIG !! r) as [config|] eqn:Hcfg.
    + rewrite (isSlotUnavailable_known _ _ _ _ _ _ Hcfg).
      rewrite orb_true_iff, Z.leb_le, slotRule_test. split.
      * intros [H|H]; [right; left; eauto | right; right; exact H].
      * intros [H|[[c [Hc H]]|H]]; [discriminate | | right; exact H].
        left. congruence.
    + split; [intros _; now left|]. intros _.
      apply isSlotUnavailable_unknown. right.
      unfold STATE_CONFIG_get. cbn [ToString]. now rewrite Hcfg, Hr.
  - intros config Hcfg Hcap Hn.
    rewrite (isSlotUnavailable_known _ _ _ _ _ _ Hcfg), Hcap, Hn. reflexivity.
  - intros config Hcfg Hcap Hn Hnone.
    rewrite (isSlotUnavailable_known _ _ _ _ _ _ Hcfg), Hcap, Hn.
    cbn [orb Z.leb Z.of_nat Z.compare Pos.of_succ_nat Pos.compare Pos.compare_cont].
    apply not_true_is_false. intros H.
    apply slotRule_test in H. destruct H as [rule [Hin H]].
    exact (Hnone rule Hin H).
Qed.

(** X29, at region AL (capacity 2): a second booking fills the slot, a
    single one does not; the unlisted code FL is unavailable from the
    start. *)
Lemma isSlotUnavailable_spec_witness :
  isSlotUnavailable
    [booking "2024-03-12" "9:00 AM" "AL"; booking "2024-03-12" "9:00 AM" "AL"] []
    "2024-03-12" "9:00 AM" (JStr "AL") = true
  /\ isSlotUnavailable [booking "2024-03-12" "9:00 AM" "AL"] []
       "2024-03-12" "9:00 AM" (JStr "AL") = false
  /\ isSlotUnavailable [] [] "2024-03-12" "9:00 AM" (JStr "FL") = true.
Proof.
  split; [|split].
  - apply (proj1 (proj2 (isSlotUnavailable_spec
             [booking "2024-03-12" "9:00 AM" "AL"; booking "2024-03-12" "9:00 AM" "AL"]
             [] "2024-03-12" "9:00 AM" "AL" eq_refl)) (StateConfig.mk 2 [1; 2; 3; 4; 5]));
      reflexivity.
  - apply (proj2 (proj2 (isSlotUnavailable_spec
             [booking "2024-03-12" "9:00 AM" "AL"]
             [] "2024-03-12" "9:00 AM" "AL" eq_refl)) (StateConfig.mk 2 [1; 2; 3; 4; 5]));
      try reflexivity.
    intros rule Hin. destruct Hin.
  - apply (proj1 (isSlotUnavailable_spec [] [] "2024-03-12" "9:00 AM" "FL" eq_refl)).
    left. reflexivity.
Defined.

(** ** Date blocking *)

Lemma Day_setHours0 (t : JSDate.Date) : JSDate.Day (JSDate.setHours0 t) = JSDate.Day t.
Proof.
  unfold JSDate.setHours0, JSDate.Day. apply Z.div_mul. discriminate.
Qed.

Lemma getDay_setHours0 (t : JSDate.Date) :
  JSDate.getDay (JSDate.setHours0 t) = JSDate.getDay t.
Proof. unfold JSDate.getDay. now rewrite Day_setHours0. Qed.

Lemma dateStrOf_setHours0 (t : JSDate.Date) : dateStrOf (JSDate.setHours0 t) = dateStrOf t.
Proof.
  unfold dateStrOf, JSDate.getFullYear, JSDate.getMonth, JSDate.getDate.
  now rewrite Day_setHours0.
Qed.

(** The rounding on its own: the quotient is negative exactly when the
    difference is a full day or more below zero. *)
Lemma ceil_div_negative (diffTime : Z) :
  JSDate.ceil_div diffTime JSDate.msPerDay < 0 <-> diffTime <= - JSDate.msPerDay.
Proof.
  unfold JSDate.ceil_div.
  assert (Hpos : 0 < JSDate.msPerDay) by reflexivity.
  pose proof (Z.div_mod (- diffTime) JSDate.msPerDay ltac:(lia)) as Hdm.
  pose proof (Z.mod_pos_bound (- diffTime) JSDate.msPerDay Hpos) as Hb.
  split; intros H; nia.
Qed.

(** The lead-time step in any zone: the instant of the date's midnight lies
    a full day of 24 hours or more before the instant of today's. *)
Lemma leadTimeBlocked_instants (tz : JSDate.Zone) (now date : JSDate.Date) :
  leadTimeBlocked tz now date = true
  <-> JSDate.getTime tz (JSDate.setHours0 date) + JSDate.msPerDay
      <= JSDate.getTime tz (JSDate.setHours0 now).
Proof.
  unfold leadTimeBlocked, diffDays. cbv zeta.
  change (1000 * 60 * 60 * 24) with JSDate.msPerDay.
  rewrite Z.ltb_lt, ceil_div_negative. lia.
Qed.

(** Where the offset never changes, the rounded difference is the
    difference of the day numbers. *)
Lemma diffDays_Day (offset : Z) (now date : JSDate.Date) :
  diffDays (JSDate.fixedZone offset) now date = JSDate.Day date - JSDate.Day now.
Proof.
  unfold diffDays, JSDate.ceil_div, JSDate.getTime, JSDate.setHours0, JSDate.fixedZone.
  change (1000 * 60 * 60 * 24) with JSDate.msPerDay.
  replace (- (JSDate.Day date * JSDate.msPerDay - offset
              - (JSDate.Day now * JSDate.msPerDay - offset)))
    with ((JSDate.Day now - JSDate.Day date) * JSDate.msPerDay) by ring.
  rewrite Z.div_mul by discriminate. ring.
Qed.

Lemma leadTimeBlocked_Day (offset : Z) (now date : JSDate.Date) :
  leadTimeBlocked (JSDate.fixedZone offset) now date = true
  <-> JSDate.Day date < JSDate.Day now.
Proof.
  unfold leadTimeBlocked. rewrite diffDays_Day, Z.ltb_lt. lia.
Qed.

(** The steps of [isDateBlocked], for a region of the table. *)
Lemma isDateBlocked_known
    (appointments : list AppointmentRecord.t) (blockedRules : list BlockRule.t)
    (formData : gmap string jsval) (tz : JSDate.Zone) (now date : JSDate.Date)
    (config : StateConfig.t) :
  truthy (get formData "state") = true ->
  STATE_CONFIG !! ToString (get formData "state") = Some config ->
  isDateBlocked appointments blockedRules formData tz now date
  = Normal
      (leadTimeBlocked tz now date
       || negb (includesZ (StateConfig.workdays config) (JSDate.getDay date))
       || holidayBlocked (dateStrOf date)
       || isDynamicDayBlocked blockedRules (dateStrOf date) (get formData "state")
       || allSlotsUnavailable appointments blockedRules (dateStrOf date)
            (get formData "state")).
Proof.
  intros Ht Hcfg. unfold isDateBlocked.
  rewrite Ht, (proj2 (STATE_CONFIG_get_Entry _ _) Hcfg), getDay_setHours0,
    dateStrOf_setHours0.
  cbn [negb].
  destruct (leadTimeBlocked tz now date); [reflexivity|].
  destruct (negb (includesZ (StateConfig.workdays config) (JSDate.getDay date)));
    [reflexivity|].
  destruct (holidayBlocked (dateStrOf date)); [reflexivity|].
  destruct (isDynamicDayBlocked blockedRules (dateStrOf date) (get formData "state"));
    [reflexivity|].
  now destruct (allSlotsUnavailable appointments blockedRules (dateStrOf date)
                  (get formData "state")).
Qed.

Lemma isDateBlocked_unknown
    (appointments : list AppointmentRecord.t) (blockedRules : list BlockRule.t)
    (formData : gmap string jsval) (tz : JSDate.Zone) (now date : JSDate.Date) :
  unknownRegion (get formData "state") ->
  isDateBlocked appointments blockedRules formData tz now date = Normal true.
Proof.
  intros [H|H]; unfold isDateBlocked.
  - now rewrite H.
  - rewrite H. now destruct (truthy (get formData "state")).
Qed.

(** Under the name of an inherited member the call ends at the lead-time
    step or throws at the workday step. *)
Lemma isDateBlocked_inherited
    (appointments : list AppointmentRecord.t) (blockedRules : list BlockRule.t)
    (formData : gmap string jsval) (tz : JSDate.Zone) (now date : JSDate.Date) :
  inheritedName (get formData "state") ->
  isDateBlocked appointments blockedRules formData tz now date
  = if leadTimeBlocked tz now date then Normal true else TypeError.
Proof.
  intros [Ht Hcfg]. unfold isDateBlocked. rewrite Ht, Hcfg. reflexivity.
Qed.

(** The zone matters through the lead-time step only. *)
Lemma isDateBlocked_zone
    (appointments : list AppointmentRecord.t) (blockedRules : list BlockRule.t)
    (formData : gmap string jsval) (tz tz' : JSDate.Zone) (now date : JSDate.Date) :
  leadTimeBlocked tz now date = leadTimeBlocked tz' now date ->
  isDateBlocked appointments blockedRules formData tz now date
  = isDateBlocked appointments blockedRules formData tz' now date.
Proof. intros H. unfold isDateBlocked. now rewrite H. Qed.

Lemma isDateBlocked_fixedZone
    (appointments : list AppointmentRecord.t) (blockedRules : list BlockRule.t)
    (formData : gmap string jsval) (offset : Z) (now date : JSDate.Date) :
  isDateBlocked appointments blockedRules formData (JSDate.fixedZone offset) now date
  = isDateBlocked appointments blockedRules formData (JSDate.fixedZone 0) now date.
Proof.
  apply isDateBlocked_zone. unfold leadTimeBlocked. now rewrite !diffDays_Day.
Qed.

Lemma isDynamicDayBlocked_rule (blockedRules : list BlockRule.t) (d : string) (v : jsval) :
  isDynamicDayBlocked blockedRules d v = true
  <-> exists rule, In rule blockedRules /\ wholeDayRule d v rule.
Proof.
  unfold isDynamicDayBlocked, wholeDayRule, absent. rewrite existsb_exists.
  split; intros [rule [Hin H]]; exists rule; (split; [assumption|]).
  - rewrite !andb_true_iff, orb_true_iff, !negb_true_iff in H.
    now rewrite String.eqb_eq, strict_eq_true in H.
  - rewrite !andb_true_iff, orb_true_iff, !negb_true_iff.
    now rewrite String.eqb_eq, strict_eq_true.
Qed.

(** A date that the lead-time step blocks is blocked whatever the form
    holds: the step comes before anything that reads the entry. *)
Lemma leadTimeBlocked_blocks
    (appointments : list AppointmentRecord.t) (blockedRules : list BlockRule.t)
    (formData : gmap string jsval) (tz : JSDate.Zone) (now date : JSDate.Date) :
  leadTimeBlocked tz now date = true ->
  isDateBlocked appointments blockedRules formData tz now date = Normal true.
Proof.
  intros Hlead.
  destruct (region_cases (get formData "state")) as [Hu | [Hi | [Ht [config Hcfg]]]].
  - now apply isDateBlocked_unknown.
  - now rewrite isDateBlocked_inherited, Hlead.
  - now rewrite (isDateBlocked_known _ _ _ _ _ _ _ Ht Hcfg), Hlead.
Qed.

(** C2. The lead-time step compares instants, not calendar days: in Egypt
    the night from Thursday 25 to Friday 26 April 2024 skipped an hour, so
    that on Saturday the 27th the midnight of the 26th lies only 23 hours
    before today's; the rounded difference is 0 and the step lets
    yesterday pass. With AL selected and nothing booked or blocked, the
    26th, a date strictly before today, is not blocked. *)
Theorem lead_time_misses_day_after_short_day :
  JSDate.Day (JSDate.make 2024 3 26) < JSDate.Day (JSDate.make 2024 3 27 + 37800000)
  /\ diffDays cairoSpring2024 (JSDate.make 2024 3 27 + 37800000) (JSDate.make 2024 3 26) = 0
  /\ leadTimeBlocked cairoSpring2024
       (JSDate.make 2024 3 27 + 37800000) (JSDate.make 2024 3 26) = false
  /\ isDateBlocked [] [] (formWithState "AL") cairoSpring2024
       (JSDate.make 2024 3 27 + 37800000) (JSDate.make 2024 3 26) = Normal false
  /\ isDateBlocked [] [] (formWithState "AL") (JSDate.fixedZone 7200000)
       (JSDate.make 2024 3 27 + 37800000) (JSDate.make 2024 3 26) = Normal true.
Proof. repeat split; vm_compute; reflexivity. Qed.

(** X30. In a zone whose offset never changes the lead-time step blocks a
    date exactly when its calendar day is strictly before today's, whatever
    the times of day: a strictly earlier date is blocked for every form,
    appointment set and rule set, and from today on the step blocks nothing,
    so that for a region of the table the answer is that of the workday,
    holiday, block-rule and full-capacity steps. *)
Theorem lead_time_in_fixed_zone (offset : Z) (now date : JSDate.Date) :
  (leadTimeBlocked (JSDate.fixedZone offset) now date = true
   <-> JSDate.Day date < JSDate.Day now)
  /\ (JSDate.Day date < JSDate.Day now ->
      forall appointments blockedRules formData,
        isDateBlocked appointments blockedRules formData (JSDate.fixedZone offset) now date
        = Normal true)
  /\ (JSDate.Day now <= JSDate.Day date ->
      forall appointments blockedRules formData config,
        truthy (get formData "state") = true ->
        STATE_CONFIG !! ToString (get formData "state") = Some config ->
        isDateBlocked appointments blockedRules formData (JSDate.fixedZone offset) now date
        = Normal
            (negb (includesZ (StateConfig.workdays config) (JSDate.getDay date))
             || holidayBlocked (dateStrOf date)
             || isDynamicDayBlocked blockedRules (dateStrOf date) (get formData "state")
             || allSlotsUnavailable appointments blockedRules (dateStrOf date)
                  (get formData "state"))).
Proof.
  split; [apply leadTimeBlocked_Day | split].
  - intros Hpast appointments blockedRules formData.
    apply leadTimeBlocked_blocks. now apply leadTimeBlocked_Day.
  - intros Hday appointments blockedRules formData config Ht Hcfg.
    rewrite (isDateBlocked_known _ _ _ _ _ _ _ Ht Hcfg).
    replace (leadTimeBlocked (JSDate.fixedZone offset) now date) with false;
      [reflexivity|].
    symmetry. apply not_true_is_false. rewrite leadTimeBlocked_Day. lia.
Qed.

(** X30, on Tuesday 2024-03-12 at 10:30, two hours ahead of UTC: Monday the
    11th is blocked, and the 12th itself, a workday of GA with nothing
    booked or blocked, is not. *)
Lemma lead_time_in_fixed_zone_witness :
  isDateBlocked [] [] (formWithState "GA") (JSDate.fixedZone 7200000)
    (JSDate.make 2024 2 12 + 37800000) (JSDate.make 2024 2 11) = Normal true
  /\ isDateBlocked [] [] (formWithState "GA") (JSDate.fixedZone 7200000)
       (JSDate.make 2024 2 12 + 37800000) (JSDate.make 2024 2 12) = Normal false.
Proof.
  split.
  - apply (proj1 (proj2 (lead_time_in_fixed_zone 7200000
             (JSDate.make 2024 2 12 + 37800000) (JSDate.make 2024 2 11)))).
    vm_compute. reflexivity.
  - refine (eq_trans
              (proj2 (proj2 (lead_time_in_fixed_zone 7200000
                 (JSDate.make 2024 2 12 + 37800000) (JSDate.make 2024 2 12))) _
                 [] [] (formWithState "GA") (StateConfig.mk 9 [1; 2; 3; 4; 5; 6])
                 eq_refl eq_refl) _).
    + vm_compute. discriminate.
    + vm_compute. reflexivity.
Defined.


(** X31. With no region selected, or one under which the capacity table
    finds nothing, every date is blocked and every slot is unavailable:
    both functions return [true] on such input, in every zone. *)
Theorem unknown_region_is_blocked
    (appointments : list AppointmentRecord.t) (blockedRules : list BlockRule.t)
    (r : jsval) :
  unknownRegion r ->
  (forall formData tz now date,
     get formData "state" = r ->
     isDateBlocked appointments blockedRules formData tz now date = Normal true)
  /\ (forall d t, isSlotUnavailable appointments blockedRules d t r = true).
Proof.
  intros Hu. split.
  - intros formData tz now date Hst. apply isDateBlocked_unknown. now rewrite Hst.
  - intros d t. now apply isSlotUnavailable_unknown.
Qed.

(** X31, for the unlisted code FL. *)
Lemma unknown_region_is_blocked_witness :
  isDateBlocked [] [] (formWithState "FL") cairoSpring2024
    (JSDate.make 2024 2 11) (JSDate.make 2024 2 12) = Normal true
  /\ isSlotUnavailable [] [] "2024-03-12" "9:00 AM" (JStr "FL") = true.
Proof.
  assert (Hu : unknownRegion (JStr "FL")) by (right; reflexivity).
  split.
  - apply (proj1 (unknown_region_is_blocked [] [] (JStr "FL") Hu)). reflexivity.
  - apply (proj2 (unknown_region_is_blocked [] [] (JStr "FL") Hu)).
Defined.

(** With no region selected at all. *)
Example no_region_is_blocked :
  isDateBlocked [] [] ∅ (JSDate.fixedZone 0) (JSDate.make 2024 2 11) (JSDate.make 2024 2 12)
  = Normal true
  /\ isSlotUnavailable [] [] "2024-03-12" "9:00 AM" JUndefined = true
  /\ isSlotUnavailable [] [] "2024-03-12" "9:00 AM" (JStr EmptyString) = true.
Proof. repeat split. Qed.

(** C4. A whole-day block rule (no time) whose date is the date asked about
    and whose state is absent or the selected region blocks that date,
    whatever the bookings and the other rules are; a rule with neither time
    nor state does so for every region. This holds for every region of the
    table, and as well when no region or an unknown one is selected; it is
    not said of the names of inherited members, under which the call may
    throw before it reaches the rules. *)
Theorem whole_day_rule_blocks_date
    (appointments : list AppointmentRecord.t) (blockedRules : list BlockRule.t)
    (tz : JSDate.Zone) (now date : JSDate.Date) (rule : BlockRule.t) :
  In rule blockedRules ->
  BlockRule.date rule = dateStrOf date ->
  absent (BlockRule.time rule) ->
  (forall formData,
     ~ inheritedName (get formData "state") ->
     absent (BlockRule.state rule) \/ BlockRule.state rule = get formData "state" ->
     isDateBlocked appointments blockedRules formData tz now date = Normal true)
  /\ (absent (BlockRule.state rule) ->
      forall r config,
        STATE_CONFIG !! r = Some config ->
        isDateBlocked appointments blockedRules (formWithState r) tz now date
        = Normal true).
Proof.
  intros Hin Hdate Htime.
  assert (H : forall formData,
             ~ inheritedName (get formData "state") ->
             absent (BlockRule.state rule) \/ BlockRule.state rule = get formData "state" ->
             isDateBlocked appointments blockedRules formData tz now date = Normal true).
  { intros formData Hown Hstate.
    destruct (region_cases (get formData "state")) as [Hu | [Hi | [Ht [config Hcfg]]]].
    - now apply isDateBlocked_unknown.
    - contradiction.
    - rewrite (isDateBlocked_known _ _ _ _ _ _ _ Ht Hcfg).
      assert (Hday : isDynamicDayBlocked blockedRules (dateStrOf date)
                       (get formData "state") = true).
      { apply isDynamicDayBlocked_rule. exists rule. now repeat split. }
      rewrite Hday. now rewrite !orb_true_r. }
  split; [exact H|].
  intros Habs r config Hcfg. apply H; [|now left].
  unfold inheritedName, formWithState. rewrite (get_own _ _ (JStr r)) by apply lookup_insert_eq.
  cbn [ToString]. rewrite (proj2 (STATE_CONFIG_get_Entry _ _) Hcfg).
  intros [_ Hb]. discriminate.
Qed.

(** C4, for a global whole-day rule on Tuesday 2024-03-12: no slot of the
    day is taken in GA or AL, and still the date is blocked for both. *)
Lemma whole_day_rule_blocks_date_witness :
  forallb (fun t => negb (isSlotUnavailable [] [officeClosed] "2024-03-12" t (JStr "GA")))
    OPERATING_HOURS = true
  /\ isDateBlocked [] [officeClosed] (formWithState "GA") (JSDate.fixedZone 0)
       (JSDate.make 2024 2 11) (JSDate.make 2024 2 12) = Normal true
  /\ isDateBlocked [] [officeClosed] (formWithState "AL") (JSDate.fixedZone 0)
       (JSDate.make 2024 2 11) (JSDate.make 2024 2 12) = Normal true.
Proof.
  assert (Hin : In officeClosed [officeClosed]) by (left; reflexivity).
  assert (Hdate : BlockRule.date officeClosed = dateStrOf (JSDate.make 2024 2 12))
    by (vm_compute; reflexivity).
  assert (Htime : absent (BlockRule.time officeClosed)) by reflexivity.
  assert (Hstate : absent (BlockRule.state officeClosed)) by reflexivity.
  split; [vm_compute; reflexivity | split].
  - exact (proj2 (whole_day_rule_blocks_date [] [officeClosed] (JSDate.fixedZone 0)
                    (JSDate.make 2024 2 11) (JSDate.make 2024 2 12) officeClosed
                    Hin Hdate Htime)
             Hstate "GA" (StateConfig.mk 9 [1; 2; 3; 4; 5; 6]) eq_refl).
  - exact (proj2 (whole_day_rule_blocks_date [] [officeClosed] (JSDate.fixedZone 0)
                    (JSDate.make 2024 2 11) (JSDate.make 2024 2 12) officeClosed
                    Hin Hdate Htime)
             Hstate "AL" (StateConfig.mk 2 [1; 2; 3; 4; 5]) eq_refl).
Defined.

(** C5. For a region whose workdays are Monday to Friday, every Saturday
    and every Sunday is blocked, whatever the bookings and the rules are. *)
Theorem weekend_blocked_for_weekday_regions
    (appointments : list AppointmentRecord.t) (blockedRules : list BlockRule.t)
    (formData : gmap string jsval) (tz : JSDate.Zone) (now date : JSDate.Date)
    (r : string) (config : StateConfig.t) :
  get formData "state" = JStr r ->
  STATE_CONFIG !! r = Some config ->
  (forall x, In x (StateConfig.workdays config) <-> 1 <= x <= 5) ->
  JSDate.getDay date = 6 \/ JSDate.getDay date = 0 ->
  isDateBlocked appointments blockedRules formData tz now date = Normal true.
Proof.
  intros Hst Hcfg Hwork Hweekend.
  assert (Ht : truthy (get formData "state") = true).
  { rewrite Hst. apply not_false_is_true. intros Hf.
    apply truthy_JStr in Hf. subst r.
    rewrite STATE_CONFIG_empty_key in Hcfg. discriminate. }
  assert (Hcfg' : STATE_CONFIG !! ToString (get formData "state") = Some config)
    by now rewrite Hst.
  rewrite (isDateBlocked_known _ _ _ _ _ _ _ Ht Hcfg').
  assert (Hoff : includesZ (StateConfig.workdays config) (JSDate.getDay date) = false).
  { apply not_true_is_false. rewrite includesZ_In, Hwork. lia. }
  rewrite Hoff. cbn [negb]. now rewrite orb_true_r.
Qed.

(** C5, for AL on Saturday 2024-03-16 and SC on Sunday 2024-03-17. *)
Lemma weekend_blocked_for_weekday_regions_witness :
  isDateBlocked [] [] (formWithState "AL") (JSDate.fixedZone 0)
    (JSDate.make 2024 2 11) (JSDate.make 2024 2 16) = Normal true
  /\ isDateBlocked [] [] (formWithState "SC") (JSDate.fixedZone 0)
       (JSDate.make 2024 2 11) (JSDate.make 2024 2 17) = Normal true.
Proof.
  split.
  - apply (weekend_blocked_for_weekday_regions [] [] (formWithState "AL")
             (JSDate.fixedZone 0) (JSDate.make 2024 2 11) (JSDate.make 2024 2 16)
             "AL" (StateConfig.mk 2 [1; 2; 3; 4; 5])).
    + reflexivity.
    + reflexivity.
    + intros x. cbn [StateConfig.workdays In]. lia.
    + left. vm_compute. reflexivity.
  - apply (weekend_blocked_for_weekday_regions [] [] (formWithState "SC")
             (JSDate.fixedZone 0) (JSDate.make 2024 2 11) (JSDate.make 2024 2 17)
             "SC" (StateConfig.mk 1 [1; 2; 3; 4; 5])).
    + reflexivity.
    + reflexivity.
    + intros x. cbn [StateConfig.workdays In]. lia.
    + right. vm_compute. reflexivity.
Defined.

(** In the shipped table the Monday-to-Friday regions are AL and SC. *)
Example weekday_regions :
  StateConfig.workdays <$> STATE_CONFIG !! "AL" = Some [1; 2; 3; 4; 5]
  /\ StateConfig.workdays <$> STATE_CONFIG !! "SC" = Some [1; 2; 3; 4; 5].
Proof. split; reflexivity. Qed.

(** C10. The holiday step blocks exactly the two date strings 2024-12-25
    and 2024-01-01. The same holidays of other years are not on the list:
    Christmas 2025 passes the step and, with nothing else in the way, is
    bookable, while Christmas 2024 is blocked. *)
Theorem holiday_step_blocks_two_literal_dates :
  (forall dateStr,
     holidayBlocked dateStr = true <-> dateStr = "2024-12-25" \/ dateStr = "2024-01-01")
  /\ holidayBlocked "2025-12-25" = false
  /\ holidayBlocked "2025-01-01" = false
  /\ (forall offset,
        isDateBlocked [] [] (formWithState "GA") (JSDate.fixedZone offset)
          (JSDate.make 2024 11 2) (JSDate.make 2025 11 25) = Normal false)
  /\ (forall offset,
        isDateBlocked [] [] (formWithState "GA") (JSDate.fixedZone offset)
          (JSDate.make 2024 11 2) (JSDate.make 2024 11 25) = Normal true).
Proof.
  split.
  - intros dateStr. unfold holidayBlocked. rewrite includes_In.
    unfold HOLIDAY_BLOCKS. cbn [In]. intuition congruence.
  - split; [reflexivity|]. split; [reflexivity|].
    split; intros offset; rewrite isDateBlocked_fixedZone; vm_compute; reflexivity.
Qed.

(** ** Clipboard summary *)

Lemma append_nil_r (s : string) : s +:+ EmptyString = s.
Proof.
  induction s as [|a s IH]; [reflexivity|].
  change (String a (s +:+ EmptyString) = String a s). now rewrite IH.
Qed.

Lemma append_assoc (s1 s2 s3 : string) : (s1 +:+ s2) +:+ s3 = s1 +:+ (s2 +:+ s3).
Proof.
  induction s1 as [|a s1 IH]; [reflexivity|].
  change (String a ((s1 +:+ s2) +:+ s3) = String a (s1 +:+ (s2 +:+ s3))).
  now rewrite IH.
Qed.

(** Under ordinary keys the reads of the code see the form's own members. *)
Lemma appendField_ordinary (data : gmap string jsval) (text : string)
    (field : FormField.t) :
  ordinaryKeys [field] = true ->
  appendField data text field
  = if emitted data field then text +:+ fieldText data field else text.
Proof.
  unfold ordinaryKeys. cbn [forallb].
  rewrite andb_true_r, andb_true_iff, negb_true_iff. intros [Hid Hshow].
  unfold appendField, emitted, fieldText, isFieldVisible, visible, valueOf.
  rewrite (get_ordinary data _ Hid).
  destruct (FormField.showWhen field) as [sw|]; [|reflexivity].
  apply negb_true_iff in Hshow. now rewrite (get_ordinary data _ Hshow).
Qed.

(** The [forEach] loop appends the texts of the emitted fields, in order. *)
Lemma forEach_appendField (data : gmap string jsval) (schema : list FormField.t)
    (text : string) :
  ordinaryKeys schema = true ->
  fold_left (appendField data) schema text
  = text +:+ concatAll (map (fieldText data) (List.filter (emitted data) schema)).
Proof.
  revert text. induction schema as [|field schema IH]; intros text Hkeys.
  - symmetry. apply append_nil_r.
  - unfold ordinaryKeys in Hkeys. cbn [forallb] in Hkeys.
    apply andb_true_iff in Hkeys. destruct Hkeys as [Hfield Hkeys].
    cbn [fold_left List.filter]. rewrite (IH _ Hkeys).
    rewrite appendField_ordinary
      by (unfold ordinaryKeys; cbn [forallb]; now rewrite Hfield).
    destruct (emitted data field); [|reflexivity].
    unfold concatAll. cbn [map fold_right]. apply append_assoc.
Qed.

(** One step of the scan. *)
Lemma remove_code_points_step (P : Z -> bool) (a0 : ascii) (t : string) :
  Unicode.remove_code_points P (String a0 t)
  = match t with
    | String a1 (String a2 (String a3 rest)) =>
        match Unicode.decode4 a0 a1 a2 a3 with
        | Some cp =>
            if P cp then Unicode.remove_code_points P rest
            else String a0 (Unicode.remove_code_points P t)
        | None => String a0 (Unicode.remove_code_points P t)
        end
    | _ => String a0 (Unicode.remove_code_points P t)
    end.
Proof. reflexivity. Qed.

(** Text without any four-byte sequence, such as ASCII text and the whole
    Basic Multilingual Plane, goes through the replacement unchanged. *)
Lemma remove_code_points_plain (P : Z -> bool) (s : string) :
  plainText s = true -> Unicode.remove_code_points P s = s.
Proof.
  induction s as [|a0 t IH]; [reflexivity|].
  cbn [plainText]. rewrite andb_true_iff, Z.ltb_lt. intros [Ha Ht].
  specialize (IH Ht). rewrite remove_code_points_step.
  destruct t as [|a1 [|a2 [|a3 rest]]]; try now rewrite IH.
  unfold Unicode.decode4.
  replace (0xF0 <=? Unicode.byte a0) with false
    by (symmetry; apply Z.leb_gt; exact Ha).
  cbn [andb]. now rewrite IH.
Qed.

(** A code point of the Emoticons block is deleted wherever it stands; the
    rocket is not. *)
Lemma stripEmoticons_examples (s : string) :
  stripEmoticons (grinning +:+ s) = stripEmoticons s
  /\ stripEmoticons rocket = rocket.
Proof.
  split; [|vm_compute; reflexivity].
  unfold stripEmoticons, grinning.
  change ("😀" +:+ s) with (String "240" (String "159" (String "152" (String "128" s)))).
  rewrite remove_code_points_step. reflexivity.
Qed.


(** *** The replacement, code point by code point *)

Lemma byte_chr (b : Z) : 0 <= b < 256 -> Unicode.byte (chr b) = b.
Proof.
  intros H. unfold Unicode.byte, chr.
  rewrite N_ascii_embedding by lia. lia.
Qed.

(** A byte below 0xF0 starts no four-byte sequence and is copied. *)
Lemma remove_code_points_skip (P : Z -> bool) (a : ascii) (t : string) :
  Unicode.byte a < 0xF0 ->
  Unicode.remove_code_points P (String a t)
  = String a (Unicode.remove_code_points P t).
Proof.
  intros Ha. rewrite remove_code_points_step.
  destruct t as [|a1 [|a2 [|a3 rest]]]; try reflexivity.
  unfold Unicode.decode4.
  replace (0xF0 <=? Unicode.byte a) with false
    by (symmetry; apply Z.leb_gt; exact Ha).
  reflexivity.
Qed.

Lemma append_cons (a : ascii) (s t : string) : String a s +:+ t = String a (s +:+ t).
Proof. reflexivity. Qed.

Lemma append_nil_l (t : string) : EmptyString +:+ t = t.
Proof. reflexivity. Qed.

(** A code point of the Basic Multilingual Plane takes up to three bytes,
    none of which starts a four-byte sequence. *)
Lemma remove_code_points_bmp (P : Z -> bool) (cp : Z) (rest : string) :
  0 <= cp < 0x10000 ->
  Unicode.remove_code_points P (utf8 cp +:+ rest)
  = utf8 cp +:+ Unicode.remove_code_points P rest.
Proof.
  intros H. unfold utf8.
  destruct (Z.ltb_spec cp 0x80);
    [|destruct (Z.ltb_spec cp 0x800);
      [|destruct (Z.ltb_spec cp 0x10000); [|exfalso; lia]]];
    rewrite ?append_cons, ?append_nil_l;
    repeat (rewrite remove_code_points_skip
              by (rewrite byte_chr; Z.div_mod_to_equations; lia));
    reflexivity.
Qed.

(** The four bytes of a supplementary code point decode to it. *)
Lemma decode4_utf8 (cp : Z) :
  0x10000 <= cp <= 0x10FFFF ->
  Unicode.decode4 (chr (0xF0 + cp / 0x40000)) (chr (0x80 + cp / 0x1000 mod 0x40))
    (chr (0x80 + cp / 0x40 mod 0x40)) (chr (0x80 + cp mod 0x40))
  = Some cp.
Proof.
  intros H. unfold Unicode.decode4, Unicode.continuation. cbv zeta.
  rewrite !byte_chr by (Z.div_mod_to_equations; lia).
  repeat match goal with
         | |- context [?a <=? ?b] =>
             destruct (Z.leb_spec a b); [|exfalso; Z.div_mod_to_equations; lia]
         end.
  cbn [andb]. f_equal. Z.div_mod_to_equations; lia.
Qed.

(** A supplementary code point is deleted when it satisfies [P] and copied
    otherwise. *)
Lemma remove_code_points_supplementary (P : Z -> bool) (cp : Z) (rest : string) :
  0x10000 <= cp <= 0x10FFFF ->
  Unicode.remove_code_points P (utf8 cp +:+ rest)
  = if P cp then Unicode.remove_code_points P rest
    else utf8 cp +:+ Unicode.remove_code_points P rest.
Proof.
  intros H. unfold utf8.
  destruct (Z.ltb_spec cp 0x80); [exfalso; lia|].
  destruct (Z.ltb_spec cp 0x800); [exfalso; lia|].
  destruct (Z.ltb_spec cp 0x10000); [exfalso; lia|].
  rewrite !append_cons, append_nil_l.
  rewrite remove_code_points_step, (decode4_utf8 cp H).
  destruct (P cp); [reflexivity|].
  repeat (rewrite remove_code_points_skip
            by (rewrite byte_chr; Z.div_mod_to_equations; lia)).
  reflexivity.
Qed.

(** On text that is a sequence of code points the replacement deletes
    exactly the code points that satisfy [P], for a [P] that holds in the
    supplementary planes only. *)
Lemma remove_code_points_text_of (P : Z -> bool) (cps : list Z) :
  (forall cp, P cp = true -> 0x10000 <= cp) ->
  forallb scalarValue cps = true ->
  Unicode.remove_code_points P (text_of cps)
  = text_of (List.filter (fun cp => negb (P cp)) cps).
Proof.
  intros HP. induction cps as [|cp cps IH]; [reflexivity|].
  cbn [forallb]. rewrite andb_true_iff. intros [Hcp Hcps].
  specialize (IH Hcps).
  unfold scalarValue in Hcp. rewrite !andb_true_iff, !Z.leb_le in Hcp.
  destruct Hcp as [[Hmin Hmax] _].
  unfold text_of, concatAll in *. cbn [map fold_right List.filter].
  destruct (Z.lt_ge_cases cp 0x10000) as [Hlow | Hhigh].
  - rewrite remove_code_points_bmp by lia. rewrite IH.
    destruct (P cp) eqn:E; [apply HP in E; exfalso; lia | reflexivity].
  - rewrite remove_code_points_supplementary by lia. rewrite IH.
    now destruct (P cp).
Qed.

(** The two ways of stripping the Emoticons block agree. *)
Lemma stripEmoticons_text_of (cps : list Z) :
  forallb scalarValue cps = true ->
  stripEmoticons (text_of cps)
  = text_of (List.filter (fun cp => negb (emoticon cp)) cps).
Proof.
  intros H. unfold stripEmoticons. apply remove_code_points_text_of; [|exact H].
  intros cp Hcp. unfold Unicode.in_range in Hcp.
  apply andb_true_iff in Hcp. destruct Hcp as [Hlo _].
  apply Z.leb_le in Hlo. lia.
Qed.



(** A field named like an inherited member reads that member when the form
    has no value for it. *)
Example clipboard_of_inherited_key :
  generateClipboardText ∅
    [FormField.mk "constructor" "text" "Constructor" false None (Some "P: ") (Some LF)]
  = "P: function Object() { [native code] }" +:+ LF +:+ confirmationLine.
Proof. vm_compute. reflexivity. Qed.

(** What each field contributes. *)
Example clipboard_of_sample_form :
  generateClipboardText
    (<["homeOwner" := JStr "Ann"]>
       (<["roofAge" := JStr "0"]>
          (<["insuranceName" := JStr "Geico"]>
             (<["insuranceOther" := JStr "hidden"]>
                (<["notes" := JStr EmptyString]> ∅)))))
    DEFAULT_SCHEMA
  = "Home Owner: Ann" +:+ LF +:+ "Roof Age: 0 years" +:+ LF
    +:+ "Insurance: Geico" +:+ LF +:+ confirmationLine.
Proof. vm_compute. reflexivity. Qed.

(** ** Bulk block-date editor *)

(** The unblocking filter drops a rule exactly when it is a whole-day rule
    of the toggled date whose scope is the active filter. *)
Lemma keepOnUnblock_spec (dStr blockStateFilter : string) (rule : BlockRule.t) :
  ScheduleGrid.keepOnUnblock dStr (ScheduleGrid.targetStateOf blockStateFilter) rule = true
  <-> ~ (wholeDayOn dStr rule /\ exactScope blockStateFilter rule).
Proof.
  unfold ScheduleGrid.keepOnUnblock, ScheduleGrid.targetStateOf, wholeDayOn,
    exactScope, absent.
  destruct (String.eqb (BlockRule.date rule) dStr) eqn:Hd.
  - apply String.eqb_eq in Hd.
    destruct (truthy (BlockRule.time rule)) eqn:Ht.
    + cbn [andb negb]. split; [|reflexivity].
      intros _ [[_ H] _]. discriminate.
    + cbn [andb negb].
      destruct (String.eqb blockStateFilter "ALL") eqn:Hall.
      * replace (strict_eq JUndefined JUndefined) with true by reflexivity.
        rewrite andb_true_iff, !negb_true_iff, !strict_eq_false. tauto.
      * replace (strict_eq (JStr blockStateFilter) JUndefined) with false by reflexivity.
        rewrite negb_true_iff, strict_eq_false. tauto.
  - cbn [andb negb]. split; [|reflexivity].
    intros _ [[H _] _]. apply String.eqb_neq in Hd. contradiction.
Qed.

(** C6. When a toggle in the block-date editor unblocks (the day shows as
    blocked under the active filter), the working copy afterwards holds
    exactly the earlier rules that are not whole-day rules of that date with
    a scope equal to the filter: with region S selected the rules of state S
    go and the unscoped ones stay, with the all-regions filter the unscoped
    rules go and the state-scoped ones stay, and no rule is made up. *)
Theorem unblock_removes_exact_scope_only
    (uuid : string) (day : Z) (st : ScheduleGrid.State) (rule : BlockRule.t) :
  ScheduleGrid.isDayBlocked (ScheduleGrid.toggledDate st day)
    (ScheduleGrid.targetStateOf (ScheduleGrid.blockStateFilter st))
    (ScheduleGrid.tempBlockedRules st) = true ->
  In rule (ScheduleGrid.tempBlockedRules
             (ScheduleGrid.toggleDateBlockFromCalendar uuid day st))
  <-> In rule (ScheduleGrid.tempBlockedRules st)
      /\ ~ (wholeDayOn (ScheduleGrid.toggledDate st day) rule
            /\ exactScope (ScheduleGrid.blockStateFilter st) rule).
Proof.
  intros Hblocked. unfold ScheduleGrid.toggleDateBlockFromCalendar. cbv zeta.
  rewrite Hblocked. unfold ScheduleGrid.setTempBlockedRules.
  cbn [ScheduleGrid.tempBlockedRules].
  rewrite filter_In. now rewrite keepOnUnblock_spec.
Qed.

(** C6, on 2024-03-12 with a global and a GA whole-day rule in the working
    copy: under filter GA the global rule stays and the GA rule goes. *)
Lemma unblock_removes_exact_scope_only_witness :
  In officeClosed
    (ScheduleGrid.tempBlockedRules
       (ScheduleGrid.toggleDateBlockFromCalendar "uuid-1" 12
          (gridOn [] [officeClosed; gaClosed; slotClosed] "GA")))
  /\ ~ In gaClosed
       (ScheduleGrid.tempBlockedRules
          (ScheduleGrid.toggleDateBlockFromCalendar "uuid-1" 12
             (gridOn [] [officeClosed; gaClosed; slotClosed] "GA"))).
Proof.
  assert (Hb : ScheduleGrid.isDayBlocked
                 (ScheduleGrid.toggledDate (gridOn [] [officeClosed; gaClosed; slotClosed] "GA") 12)
                 (ScheduleGrid.targetStateOf
                    (ScheduleGrid.blockStateFilter
                       (gridOn [] [officeClosed; gaClosed; slotClosed] "GA")))
                 (ScheduleGrid.tempBlockedRules
                    (gridOn [] [officeClosed; gaClosed; slotClosed] "GA")) = true)
    by (vm_compute; reflexivity).
  split.
  - apply (proj2 (unblock_removes_exact_scope_only "uuid-1" 12
             (gridOn [] [officeClosed; gaClosed; slotClosed] "GA") officeClosed Hb)).
    split.
    + left. reflexivity.
    + intros [_ Hscope]. vm_compute in Hscope. discriminate.
  - intros Hin.
    apply (proj1 (unblock_removes_exact_scope_only "uuid-1" 12
             (gridOn [] [officeClosed; gaClosed; slotClosed] "GA") gaClosed Hb)) in Hin.
    destruct Hin as [_ Hkeep]. apply Hkeep.
    repeat split; vm_compute; reflexivity.
Defined.

(** The two filters on the sample working copy. *)
Example unblock_by_filter :
  ScheduleGrid.tempBlockedRules
    (ScheduleGrid.toggleDateBlockFromCalendar "uuid-1" 12
       (gridOn [] [officeClosed; gaClosed; slotClosed] "GA"))
  = [officeClosed; slotClosed]
  /\ ScheduleGrid.tempBlockedRules
       (ScheduleGrid.toggleDateBlockFromCalendar "uuid-1" 12
          (gridOn [] [officeClosed; gaClosed; slotClosed] "ALL"))
     = [gaClosed; slotClosed].
Proof. split; vm_compute; reflexivity. Qed.

(** ** Committing the editor *)

Lemma find_by_id (x : string) (l : list BlockRule.t) :
  is_Some_bool (List.find (fun r => String.eqb (BlockRule.id r) x) l) = true
  <-> In x (map BlockRule.id l).
Proof.
  induction l as [|r l IH]; cbn [List.find map In is_Some_bool].
  - split; [discriminate | contradiction].
  - destruct (String.eqb (BlockRule.id r) x) eqn:E.
    + apply String.eqb_eq in E. cbn [is_Some_bool]. split; [now left | reflexivity].
    + apply String.eqb_neq in E. rewrite IH. split; [now right | now intros [H|H]].
Qed.

Lemma removed_spec (st : ScheduleGrid.State) (r : BlockRule.t) :
  In r (ScheduleGrid.removed st)
  <-> In r (ScheduleGrid.blockedRules st)
      /\ ~ In (BlockRule.id r) (map BlockRule.id (ScheduleGrid.tempBlockedRules st)).
Proof.
  unfold ScheduleGrid.removed. rewrite filter_In, negb_true_iff.
  rewrite <- find_by_id, not_true_iff_false. reflexivity.
Qed.

Lemma added_spec (st : ScheduleGrid.State) (r : BlockRule.t) :
  In r (ScheduleGrid.added st)
  <-> In r (ScheduleGrid.tempBlockedRules st)
      /\ ~ In (BlockRule.id r) (map BlockRule.id (ScheduleGrid.blockedRules st)).
Proof.
  unfold ScheduleGrid.added. rewrite filter_In, negb_true_iff.
  rewrite <- find_by_id, not_true_iff_false. reflexivity.
Qed.

(** Requests against a reachable store. *)
Lemma delete_in_online (ids : list string) (s : Supabase.Store) :
  Supabase.online s = true ->
  Supabase.delete_in ids s
  = (Supabase.Ok tt,
     Supabase.mk
       (List.filter (fun r => negb (includes ids (BlockRule.id r))) (Supabase.block_rules s))
       (Supabase.next_id s) true).
Proof. intros H. unfold Supabase.delete_in. now rewrite H. Qed.

Lemma insert_online (rows : list Supabase.NewRule) (s : Supabase.Store) :
  Supabase.online s = true ->
  Supabase.insert rows s
  = (Supabase.Ok (Supabase.store_all (Supabase.next_id s) rows),
     Supabase.mk
       (Supabase.block_rules s ++ Supabase.store_all (Supabase.next_id s) rows)
       (Supabase.next_id s + length rows)%nat true).
Proof. intros H. unfold Supabase.insert. now rewrite H. Qed.

Lemma filter_nothing (l : list BlockRule.t) :
  List.filter (fun r => negb (includes [] (BlockRule.id r))) l = l.
Proof. apply forallb_filter_id. now apply forallb_forall. Qed.

(** The rows of the store after a commit. *)
Lemma saveBlockModal_store (st : ScheduleGrid.State) (s : Supabase.Store) :
  Supabase.online s = true ->
  Supabase.block_rules (snd (ScheduleGrid.saveBlockModal st s))
  = (List.filter
       (fun r => negb (includes (map BlockRule.id (ScheduleGrid.removed st)) (BlockRule.id r)))
       (Supabase.block_rules s)
     ++ Supabase.store_all (Supabase.next_id s)
          (map ScheduleGrid.withoutId (ScheduleGrid.added st)))%list.
Proof.
  intros Hon. unfold ScheduleGrid.saveBlockModal, Supabase.bind, Supabase.ret.
  cbv zeta.
  destruct (ScheduleGrid.removed st) as [|r0 rs];
    destruct (ScheduleGrid.added st) as [|a0 adds];
    cbn [length Nat.ltb Nat.leb map Supabase.store_all].
  - rewrite filter_nothing. cbn [snd]. now rewrite app_nil_r.
  - rewrite (insert_online _ _ Hon). unfold Supabase.select_all.
    cbn [Supabase.online Supabase.block_rules snd Supabase.store_all].
    now rewrite filter_nothing.
  - rewrite (delete_in_online _ _ Hon). cbn [snd Supabase.block_rules map].
    now rewrite app_nil_r.
  - rewrite (delete_in_online _ _ Hon).
    rewrite insert_online by reflexivity. unfold Supabase.select_all.
    cbn [Supabase.online Supabase.block_rules Supabase.next_id snd Supabase.store_all map].
    reflexivity.
Qed.

(** The store names every row it inserts. *)
Lemma store_all_ids (n : nat) (rows : list Supabase.NewRule) :
  map BlockRule.id (Supabase.store_all n rows)
  = map Supabase.server_id (seq n (length rows)).
Proof.
  revert n. induction rows as [|r rows IH]; intros n; [reflexivity|].
  cbn [Supabase.store_all map length seq]. rewrite IH. reflexivity.
Qed.



(** ** Single-slot toggle *)

Lemma isTimeBlocked_rule (dateStr : string) (rules : list BlockRule.t) (time state : string) :
  ScheduleGrid.isTimeBlocked dateStr rules time state = true
  <-> exists rule, In rule rules /\ slotRule dateStr time state rule.
Proof. unfold ScheduleGrid.isTimeBlocked. apply slotRule_test. Qed.

(** C9. Unblocking a slot while a region is on view deletes the rule that
    was found, also when that rule is global: if the only rule for (current
    date, time) has no state, an admin's toggle for any region, once the
    store has carried out the delete, removes the rows with the id of that
    rule, and nothing else, from the store and from the grid's list; the
    rest of the grid's state is as it was. So neither the grid nor the store
    is left with that rule, the slot is no longer blocked for any region,
    and every rule with another id is still in both. *)
Theorem toggleBlockTime_deletes_global_rule
    (st : ScheduleGrid.State) (s : Supabase.Store) (time state : string)
    (g : BlockRule.t) :
  Supabase.online s = true ->
  In g (ScheduleGrid.blockedRules st) ->
  BlockRule.date g = ScheduleGrid.formatDate (ScheduleGrid.selectedDate st) ->
  BlockRule.time g = JStr time ->
  absent (BlockRule.state g) ->
  (forall r, In r (ScheduleGrid.blockedRules st) ->
     BlockRule.date r = ScheduleGrid.formatDate (ScheduleGrid.selectedDate st) ->
     BlockRule.time r = JStr time -> r = g) ->
  ScheduleGrid.toggleBlockTime true time state st s
  = (ScheduleGrid.setBlockedRules
       (List.filter (fun r => negb (String.eqb (BlockRule.id r) (BlockRule.id g)))
          (ScheduleGrid.blockedRules st)) st,
     Supabase.mk
       (List.filter (fun r => negb (String.eqb (BlockRule.id r) (BlockRule.id g)))
          (Supabase.block_rules s))
       (Supabase.next_id s) true)
  /\ ~ In g (ScheduleGrid.blockedRules
            (fst (ScheduleGrid.toggleBlockTime true time state st s)))
  /\ ~ In (BlockRule.id g)
         (map BlockRule.id
            (Supabase.block_rules
               (snd (ScheduleGrid.toggleBlockTime true time state st s))))
  /\ (forall region,
        ScheduleGrid.isTimeBlocked
          (ScheduleGrid.formatDate (ScheduleGrid.selectedDate st))
          (ScheduleGrid.blockedRules
             (fst (ScheduleGrid.toggleBlockTime true time state st s)))
          time region = false)
  /\ (forall r, BlockRule.id r <> BlockRule.id g ->
        (In r (ScheduleGrid.blockedRules st) ->
         In r (ScheduleGrid.blockedRules
                 (fst (ScheduleGrid.toggleBlockTime true time state st s))))
        /\ (In r (Supabase.block_rules s) ->
            In r (Supabase.block_rules
                    (snd (ScheduleGrid.toggleBlockTime true time state st s))))).
Proof.
  intros Hon Hin Hdate Htime Hstate Honly.
  assert (Heq : ScheduleGrid.toggleBlockTime true time state st s
    = (ScheduleGrid.setBlockedRules
         (List.filter (fun r => negb (String.eqb (BlockRule.id r) (BlockRule.id g)))
            (ScheduleGrid.blockedRules st)) st,
       Supabase.mk
         (List.filter (fun r => negb (String.eqb (BlockRule.id r) (BlockRule.id g)))
            (Supabase.block_rules s))
         (Supabase.next_id s) true)).
  { unfold ScheduleGrid.toggleBlockTime. cbn [negb]. cbv zeta.
    destruct (List.find _ (ScheduleGrid.blockedRules st)) as [existing|] eqn:Hfind.
    - apply find_some in Hfind. destruct Hfind as [Hex Hmatch].
      rewrite !andb_true_iff, String.eqb_eq, strict_eq_true in Hmatch.
      destruct Hmatch as [[Hd Ht] _].
      assert (existing = g) by now apply Honly. subst existing.
      unfold Supabase.bind, Supabase.delete_eq.
      rewrite (delete_in_online _ _ Hon). unfold Supabase.ret.
      f_equal. f_equal. apply List.filter_ext. intros r.
      unfold includes. cbn [existsb]. now rewrite orb_false_r.
    - exfalso. apply (find_none _ _ Hfind) in Hin.
      rewrite Hdate, Htime, String.eqb_refl in Hin.
      unfold absent in Hstate. rewrite Hstate in Hin.
      unfold strict_eq in Hin. rewrite bool_decide_eq_true_2 in Hin by reflexivity.
      discriminate. }
  split; [exact Heq|]. rewrite Heq.
  cbn [fst snd Supabase.block_rules].
  replace (ScheduleGrid.blockedRules (ScheduleGrid.setBlockedRules _ st))
    with (List.filter (fun r => negb (String.eqb (BlockRule.id r) (BlockRule.id g)))
            (ScheduleGrid.blockedRules st)) by now destruct st.
  split; [|split; [|split]].
  - rewrite filter_In, negb_true_iff, String.eqb_refl. now intros [_ H].
  - rewrite in_map_iff. intros [r [Hid Hr]].
    rewrite filter_In, negb_true_iff in Hr. destruct Hr as [_ Hr].
    rewrite Hid, String.eqb_refl in Hr. discriminate.
  - intros region. apply not_true_is_false. rewrite isTimeBlocked_rule.
    intros [r [Hr [Hrd [Hrt _]]]].
    rewrite filter_In, negb_true_iff in Hr. destruct Hr as [Hr Hid].
    assert (r = g) by now apply Honly. subst r.
    rewrite String.eqb_refl in Hid. discriminate.
  - intros r Hid. rewrite !filter_In, negb_true_iff.
    apply String.eqb_neq in Hid. now split; intros H.
Qed.

(** C9, on the sample grid: the 2:00 PM slot of 2024-03-12 is blocked for
    every region by one global rule; toggling it from the GA column removes
    that rule and keeps the two others, in the grid and in the store, and TN
    is unblocked as well. *)
Lemma toggleBlockTime_deletes_global_rule_witness :
  ScheduleGrid.isTimeBlocked "2024-03-12" [officeClosed; gaClosed; slotClosed]
    "2:00 PM" "TN" = true
  /\ ScheduleGrid.toggleBlockTime true "2:00 PM" "GA"
       (gridOn [officeClosed; gaClosed; slotClosed] [] "ALL")
       (storeOf [officeClosed; gaClosed; slotClosed])
     = (gridOn [officeClosed; gaClosed] [] "ALL", storeOf [officeClosed; gaClosed])
  /\ ScheduleGrid.isTimeBlocked "2024-03-12"
       (ScheduleGrid.blockedRules
          (fst (ScheduleGrid.toggleBlockTime true "2:00 PM" "GA"
                  (gridOn [officeClosed; gaClosed; slotClosed] [] "ALL")
                  (storeOf [officeClosed; gaClosed; slotClosed]))))
       "2:00 PM" "TN" = false.
Proof.
  assert (Hunique : forall r,
            In r [officeClosed; gaClosed; slotClosed] ->
            BlockRule.date r = "2024-03-12" -> BlockRule.time r = JStr "2:00 PM" ->
            r = slotClosed).
  { intros r [Hr | [Hr | [Hr | []]]] Hd Ht; subst r;
      [discriminate Ht | discriminate Ht | reflexivity]. }
  split; [vm_compute; reflexivity|]. split.
  - refine (eq_trans (proj1 (toggleBlockTime_deletes_global_rule
              (gridOn [officeClosed; gaClosed; slotClosed] [] "ALL")
              (storeOf [officeClosed; gaClosed; slotClosed])
              "2:00 PM" "GA" slotClosed eq_refl _ eq_refl eq_refl eq_refl Hunique)) _).
    + right. right. left. reflexivity.
    + vm_compute. reflexivity.
  - refine (proj1 (proj2 (proj2 (proj2 (toggleBlockTime_deletes_global_rule
              (gridOn [officeClosed; gaClosed; slotClosed] [] "ALL")
              (storeOf [officeClosed; gaClosed; slotClosed])
              "2:00 PM" "GA" slotClosed eq_refl _ eq_refl eq_refl eq_refl Hunique)))) "TN").
    right. right. left. reflexivity.
Defined.

(** Without the admin role the toggle does nothing. *)
Example toggleBlockTime_not_admin (st : ScheduleGrid.State) (s : Supabase.Store)
    (time state : string) :
  ScheduleGrid.toggleBlockTime false time state st s = (st, s).
Proof. reflexivity. Qed.

(** * Further properties of the code *)

(** ** The availability engine *)

(** The two checks of [isSlotUnavailable], for a region of the table. *)
Lemma isSlotUnavailable_steps
    (appointments : list AppointmentRecord.t) (blockedRules : list BlockRule.t)
    (d t : string) (v : jsval) (config : StateConfig.t) :
  truthy v = true ->
  STATE_CONFIG !! ToString v = Some config ->
  isSlotUnavailable appointments blockedRules d t v
  = (StateConfig.capacity config
       <=? Z.of_nat (length (List.filter (fun a =>
             strict_eq (get (AppointmentRecord.formData a) "appointmentDate") (JStr d)
             && strict_eq (get (AppointmentRecord.formData a) "appointmentTime") (JStr t)
             && strict_eq (get (AppointmentRecord.formData a) "state") v)
           appointments)))
    || existsb (fun r =>
         String.eqb (BlockRule.date r) d
         && strict_eq (BlockRule.time r) (JStr t)
         && (negb (truthy (BlockRule.state r)) || strict_eq (BlockRule.state r) v))
       blockedRules.
Proof.
  intros Ht Hcfg. unfold isSlotUnavailable.
  rewrite Ht, (proj2 (STATE_CONFIG_get_Entry _ _) Hcfg). cbn [negb atCapacity].
  destruct (StateConfig.capacity config <=? _); [reflexivity|].
  cbn [orb]. now destruct (existsb _ blockedRules).
Qed.

Lemma forallb_false_exists {A : Type} (f : A -> bool) (l : list A) :
  forallb f l = false <-> exists x, In x l /\ f x = false.
Proof.
  induction l as [|a l IH]; cbn [forallb In].
  - split; [discriminate | intros [x [[] _]]].
  - rewrite andb_false_iff, IH. split.
    + intros [H | [x [Hin H]]]; [exists a | exists x]; auto.
    + intros [x [[Heq | Hin] H]]; [left; now subst | right; eauto].
Qed.

(** X1. A date is offered by the calendar (not blocked) exactly when a
    region of the table is selected, the lead-time step lets the date pass
    (the instant of its midnight lies less than 24 hours before the instant
    of today's), its weekday is a workday of the region, it is not a listed
    holiday, no whole-day rule covers it, and at least one operating hour
    is still available: a date that can be picked always has a time that
    can be picked. *)
Theorem isDateBlocked_false_iff
    (appointments : list AppointmentRecord.t) (blockedRules : list BlockRule.t)
    (formData : gmap string jsval) (tz : JSDate.Zone) (now date : JSDate.Date) :
  isDateBlocked appointments blockedRules formData tz now date = Normal false
  <-> exists config,
        truthy (get formData "state") = true
        /\ STATE_CONFIG !! ToString (get formData "state") = Some config
        /\ JSDate.getTime tz (JSDate.setHours0 now)
           < JSDate.getTime tz (JSDate.setHours0 date) + JSDate.msPerDay
        /\ In (JSDate.getDay date) (StateConfig.workdays config)
        /\ ~ In (dateStrOf date) HOLIDAY_BLOCKS
        /\ (forall rule, In rule blockedRules ->
              ~ wholeDayRule (dateStrOf date) (get formData "state") rule)
        /\ exists time,
             In time OPERATING_HOURS
             /\ isSlotUnavailable appointments blockedRules (dateStrOf date) time
                  (get formData "state") = false.
Proof.
  destruct (region_cases (get formData "state")) as [Hu | [Hi | [Ht [config Hcfg]]]].
  - rewrite (isDateBlocked_unknown _ _ _ _ _ _ Hu). split; [discriminate|].
    intros [config (Ht & Hcfg & _)]. apply STATE_CONFIG_get_Entry in Hcfg.
    destruct Hu as [Hu | Hu]; congruence.
  - rewrite (isDateBlocked_inherited _ _ _ _ _ _ Hi). split.
    + destruct (leadTimeBlocked tz now date); discriminate.
    + intros [config (_ & Hcfg & _)]. apply STATE_CONFIG_get_Entry in Hcfg.
      destruct Hi as [_ Hi]. congruence.
  - rewrite (isDateBlocked_known _ _ _ _ _ _ _ Ht Hcfg).
    assert (Hn : forall b : bool, Normal b = Normal false <-> b = false)
      by (intros b; split; congruence).
    rewrite Hn, !orb_false_iff, negb_false_iff, includesZ_In.
    rewrite <- not_true_iff_false, leadTimeBlocked_instants.
    rewrite <- (not_true_iff_false (holidayBlocked _)).
    unfold holidayBlocked. rewrite includes_In.
    rewrite <- (not_true_iff_false (isDynamicDayBlocked _ _ _)), isDynamicDayBlocked_rule.
    unfold allSlotsUnavailable. rewrite forallb_false_exists.
    split.
    + intros ((((Hlead & Hwork) & Hhol) & Hrule) & Hslot).
      exists config. repeat split; try assumption; [lia|].
      intros rule Hin Hr. apply Hrule. eauto.
    + intros [config' (_ & Hcfg' & Hlead & Hwork & Hhol & Hrule & Hslot)].
      assert (config' = config) by congruence. subst config'.
      repeat split; try assumption; [lia|].
      intros [rule [Hin Hr]]. exact (Hrule rule Hin Hr).
Qed.

(** X1, for GA on Tuesday 2024-03-12 seen from the day before: the date is
    free, and so is one of its hours. *)
Lemma isDateBlocked_false_iff_witness :
  exists time,
    In time OPERATING_HOURS
    /\ isSlotUnavailable [] [] (dateStrOf (JSDate.make 2024 2 12)) time (JStr "GA") = false.
Proof.
  assert (H : isDateBlocked [] [] (formWithState "GA") (JSDate.fixedZone 0)
                (JSDate.make 2024 2 11) (JSDate.make 2024 2 12) = Normal false)
    by (vm_compute; reflexivity).
  apply (proj1 (isDateBlocked_false_iff [] [] (formWithState "GA") (JSDate.fixedZone 0)
                  (JSDate.make 2024 2 11) (JSDate.make 2024 2 12))) in H.
  destruct H as [config (_ & _ & _ & _ & _ & _ & Hslot)]. exact Hslot.
Defined.

Lemma forallb_pointwise {A : Type} (f g : A -> bool) (l : list A) :
  (forall x, f x = g x) -> forallb f l = forallb g l.
Proof.
  intros H. induction l as [|a l IH]; [reflexivity|].
  cbn [forallb]. now rewrite H, IH.
Qed.

(** [isDateBlocked] sees the bookings and the rules only through the slot
    check and the whole-day check. *)
Lemma isDateBlocked_ext
    (appointments appointments' : list AppointmentRecord.t)
    (blockedRules blockedRules' : list BlockRule.t)
    (formData : gmap string jsval) (tz : JSDate.Zone) (now date : JSDate.Date) :
  (forall time,
     isSlotUnavailable appointments' blockedRules' (dateStrOf date) time
       (get formData "state")
     = isSlotUnavailable appointments blockedRules (dateStrOf date) time
         (get formData "state")) ->
  isDynamicDayBlocked blockedRules' (dateStrOf date) (get formData "state")
  = isDynamicDayBlocked blockedRules (dateStrOf date) (get formData "state") ->
  isDateBlocked appointments' blockedRules' formData tz now date
  = isDateBlocked appointments blockedRules formData tz now date.
Proof.
  intros Hslot Hday.
  destruct (region_cases (get formData "state")) as [Hu | [Hi | [Ht [config Hcfg]]]].
  - now rewrite !isDateBlocked_unknown.
  - now rewrite !isDateBlocked_inherited.
  - rewrite !(isDateBlocked_known _ _ _ _ _ _ _ Ht Hcfg), Hday.
    unfold allSlotsUnavailable.
    now rewrite (forallb_pointwise _ _ OPERATING_HOURS Hslot).
Qed.

(** X2. Bookings and rules only ever close: a slot that is unavailable, or
    a date that is blocked, stays so when an appointment and a block rule
    are added. *)
Theorem adding_never_frees
    (appointments : list AppointmentRecord.t) (blockedRules : list BlockRule.t)
    (a : AppointmentRecord.t) (rule : BlockRule.t) :
  (forall d t v,
     isSlotUnavailable appointments blockedRules d t v = true ->
     isSlotUnavailable (a :: appointments) (rule :: blockedRules) d t v = true)
  /\ (forall formData tz now date,
        isDateBlocked appointments blockedRules formData tz now date = Normal true ->
        isDateBlocked (a :: appointments) (rule :: blockedRules) formData tz now date
        = Normal true).
Proof.
  assert (Hslot : forall d t v,
            isSlotUnavailable appointments blockedRules d t v = true ->
            isSlotUnavailable (a :: appointments) (rule :: blockedRules) d t v = true).
  { intros d t v.
    destruct (region_cases v) as [Hu | [Hi | [Ht [config Hcfg]]]].
    - intros _. now apply isSlotUnavailable_unknown.
    - rewrite !(isSlotUnavailable_inherited _ _ _ _ _ Hi). cbn [existsb].
      intros Hrule. rewrite Hrule. apply orb_true_r.
    - rewrite !(isSlotUnavailable_steps _ _ _ _ _ _ Ht Hcfg).
      rewrite !orb_true_iff, !Z.leb_le. intros [Hcap | Hrule].
      + left. cbn [List.filter].
        destruct (_ && _ && _); cbn [length]; lia.
      + right. cbn [existsb]. rewrite Hrule. apply orb_true_r. }
  split; [exact Hslot|].
  intros formData tz now date.
  destruct (region_cases (get formData "state")) as [Hu | [Hi | [Ht [config Hcfg]]]].
  - intros _. now apply isDateBlocked_unknown.
  - now rewrite !(isDateBlocked_inherited _ _ _ _ _ _ Hi).
  - rewrite !(isDateBlocked_known _ _ _ _ _ _ _ Ht Hcfg).
    assert (Hn : forall b : bool, Normal b = Normal true <-> b = true)
      by (intros b; split; congruence).
    rewrite !Hn, !orb_true_iff.
    intros [[[[H | H] | H] | H] | H]; auto.
    + left. right. unfold isDynamicDayBlocked in *. cbn [existsb].
      rewrite H. apply orb_true_r.
    + right. unfold allSlotsUnavailable in *.
      rewrite forallb_forall in *. intros time Hin. apply Hslot. now apply H.
Qed.

(** X2, for SC: the 9:00 AM slot taken by one booking stays taken after a
    second booking and a rule for another day. *)
Lemma adding_never_frees_witness :
  isSlotUnavailable
    [booking "2024-03-12" "9:00 AM" "SC"; booking "2024-03-12" "9:00 AM" "SC"]
    [slotClosed; officeClosed] "2024-03-12" "9:00 AM" (JStr "SC") = true.
Proof.
  apply (proj1 (adding_never_frees [booking "2024-03-12" "9:00 AM" "SC"] [officeClosed]
                  (booking "2024-03-12" "9:00 AM" "SC") slotClosed)).
  vm_compute. reflexivity.
Defined.

(** X3. Regions are kept apart: a rule scoped to another region and an
    appointment booked for another region change neither the availability
    of a slot nor the blocking of a date. *)
Theorem other_region_is_ignored
    (appointments : list AppointmentRecord.t) (blockedRules : list BlockRule.t)
    (a : AppointmentRecord.t) (rule : BlockRule.t) (r : string) :
  truthy (BlockRule.state rule) = true ->
  BlockRule.state rule <> JStr r ->
  get (AppointmentRecord.formData a) "state" <> JStr r ->
  (forall d t,
     isSlotUnavailable (a :: appointments) (rule :: blockedRules) d t (JStr r)
     = isSlotUnavailable appointments blockedRules d t (JStr r))
  /\ (forall formData tz now date,
        get formData "state" = JStr r ->
        isDateBlocked (a :: appointments) (rule :: blockedRules) formData tz now date
        = isDateBlocked appointments blockedRules formData tz now date).
Proof.
  intros Hscoped Hother Happt.
  assert (Hrule : forall d (p : bool),
            (String.eqb (BlockRule.date rule) d && p
             && (negb (truthy (BlockRule.state rule))
                 || strict_eq (BlockRule.state rule) (JStr r))) = false).
  { intros d p. rewrite Hscoped. apply strict_eq_false in Hother. rewrite Hother.
    cbn [negb orb]. apply andb_false_r. }
  assert (Hslot : forall d t,
            isSlotUnavailable (a :: appointments) (rule :: blockedRules) d t (JStr r)
            = isSlotUnavailable appointments blockedRules d t (JStr r)).
  { intros d t.
    destruct (region_cases (JStr r)) as [Hu | [Hi | [Ht [config Hcfg]]]].
    - now rewrite !isSlotUnavailable_unknown.
    - rewrite !(isSlotUnavailable_inherited _ _ _ _ _ Hi). cbn [existsb].
      now rewrite Hrule.
    - rewrite !(isSlotUnavailable_steps _ _ _ _ _ _ Ht Hcfg).
      cbn [List.filter existsb]. rewrite Hrule. cbn [orb].
      apply strict_eq_false in Happt. rewrite Happt. now rewrite andb_false_r. }
  split; [exact Hslot|].
  intros formData tz now date Hst. apply isDateBlocked_ext.
  - intros time. rewrite Hst. apply Hslot.
  - rewrite Hst. unfold isDynamicDayBlocked. cbn [existsb]. now rewrite Hrule.
Qed.

(** X3, with a GA rule on the 2:00 PM slot and a GA booking: TN is not
    touched. *)
Lemma other_region_is_ignored_witness :
  isSlotUnavailable [booking "2024-03-12" "2:00 PM" "GA"]
    [BlockRule.mk "r4" "2024-03-12" (JStr "2:00 PM") (JStr "GA") JNull]
    "2024-03-12" "2:00 PM" (JStr "TN") = false.
Proof.
  rewrite (proj1 (other_region_is_ignored [] []
             (booking "2024-03-12" "2:00 PM" "GA")
             (BlockRule.mk "r4" "2024-03-12" (JStr "2:00 PM") (JStr "GA") JNull) "TN"
             eq_refl ltac:(discriminate) ltac:(discriminate))).
  reflexivity.
Defined.

(** X4. The slot check does not look at whole-day rules: for a named time
    slot, a rule without a time changes the answer of [isSlotUnavailable]
    for no date and no region, also a rule that blocks that whole day. *)
Theorem whole_day_rule_unseen_by_slot_check
    (appointments : list AppointmentRecord.t) (blockedRules : list BlockRule.t)
    (rule : BlockRule.t) (d t : string) (v : jsval) :
  absent (BlockRule.time rule) ->
  t <> EmptyString ->
  isSlotUnavailable appointments (rule :: blockedRules) d t v
  = isSlotUnavailable appointments blockedRules d t v.
Proof.
  intros Habs Ht.
  assert (Hne : strict_eq (BlockRule.time rule) (JStr t) = false).
  { apply strict_eq_false. intros Heq. unfold absent in Habs.
    rewrite Heq in Habs. apply truthy_JStr in Habs. contradiction. }
  destruct (region_cases v) as [Hu | [Hi | [Hv [config Hcfg]]]].
  - now rewrite !isSlotUnavailable_unknown.
  - rewrite !(isSlotUnavailable_inherited _ _ _ _ _ Hi). cbn [existsb].
    rewrite Hne. now rewrite andb_false_r.
  - rewrite !(isSlotUnavailable_steps _ _ _ _ _ _ Hv Hcfg). cbn [existsb].
    rewrite Hne. now rewrite andb_false_r.
Qed.

(** X4, on 2024-03-12, a day closed for every region: the date is blocked
    for GA, and still its 9:00 AM slot counts as available. *)
Lemma whole_day_rule_unseen_by_slot_check_witness :
  isDateBlocked [] [officeClosed] (formWithState "GA") (JSDate.fixedZone 0)
    (JSDate.make 2024 2 11) (JSDate.make 2024 2 12) = Normal true
  /\ isSlotUnavailable [] [officeClosed] "2024-03-12" "9:00 AM" (JStr "GA") = false.
Proof.
  split; [vm_compute; reflexivity|].
  rewrite (whole_day_rule_unseen_by_slot_check [] [] officeClosed
             "2024-03-12" "9:00 AM" (JStr "GA") eq_refl ltac:(discriminate)).
  reflexivity.
Defined.

(** ** The grid against the form *)

(** X5. The schedule grid and the appointment form agree: for a region of
    the table a grid cell is shown full or blocked exactly when the form's
    slot check or the form's whole-day step closes that slot; and when the
    grid reports a block for all states, the form blocks the date whatever
    region of the table is selected, and as well when none or an unknown
    one is (the names of inherited members, under which the form's check
    may throw, are left aside). *)
Theorem grid_agrees_with_form
    (appointments : list AppointmentRecord.t) (blockedRules : list BlockRule.t)
    (dateStr time state : string) (config : StateConfig.t) :
  STATE_CONFIG !! state = Some config ->
  (exists isFull isBlocked,
     ScheduleGrid.gridCell dateStr appointments blockedRules time state
     = Some (isFull, isBlocked)
     /\ isFull || isBlocked
        = isSlotUnavailable appointments blockedRules dateStr time (JStr state)
          || isDynamicDayBlocked blockedRules dateStr (JStr state))
  /\ (ScheduleGrid.isGlobalDayBlocked dateStr blockedRules = true ->
      ScheduleGrid.isDayBlocked dateStr (JStr state) blockedRules = true
      /\ forall formData tz now date,
           ~ inheritedName (get formData "state") ->
           dateStrOf date = dateStr ->
           isDateBlocked appointments blockedRules formData tz now date = Normal true).
Proof.
  intros Hcfg.
  assert (Hne : truthy (JStr state) = true).
  { apply not_false_is_true. intros Hf. apply truthy_JStr in Hf. subst state.
    rewrite STATE_CONFIG_empty_key in Hcfg. discriminate. }
  split.
  - unfold ScheduleGrid.gridCell. rewrite (proj2 (STATE_CONFIG_get_Entry _ _) Hcfg).
    cbv zeta. cbn [atCapacity].
    eexists. eexists. split; [reflexivity|].
    rewrite (isSlotUnavailable_steps _ _ _ _ _ _ Hne Hcfg).
    unfold ScheduleGrid.getAppointmentsForSlot, ScheduleGrid.isTimeBlocked,
      ScheduleGrid.isDayBlocked, isDynamicDayBlocked.
    rewrite Hne. cbn [andb]. now rewrite !orb_assoc.
  - intros Hglobal.
    unfold ScheduleGrid.isGlobalDayBlocked in Hglobal.
    apply existsb_exists in Hglobal. destruct Hglobal as [rule [Hin Hrule]].
    rewrite !andb_true_iff, String.eqb_eq, !negb_true_iff in Hrule.
    destruct Hrule as [[Hd Ht] Hs]. split.
    + unfold ScheduleGrid.isDayBlocked. apply existsb_exists. exists rule.
      split; [assumption|]. rewrite Hd, String.eqb_refl, Ht, Hs. reflexivity.
    + intros formData tz now date Hown Hdate.
      destruct (region_cases (get formData "state")) as [Hu | [Hi | [Hv [config' Hcfg']]]].
      * now apply isDateBlocked_unknown.
      * contradiction.
      * rewrite (isDateBlocked_known _ _ _ _ _ _ _ Hv Hcfg').
        assert (Hday : isDynamicDayBlocked blockedRules (dateStrOf date)
                         (get formData "state") = true).
        { apply isDynamicDayBlocked_rule. exists rule.
          unfold wholeDayRule, absent. rewrite Hdate. auto. }
        rewrite Hday. now rewrite !orb_true_r.
Qed.

(** X5, on 2024-03-12 closed for all states: the GA cell of 9:00 AM is
    shown blocked, and the form blocks the date for the region TN. *)
Lemma grid_agrees_with_form_witness :
  ScheduleGrid.gridCell "2024-03-12" [] [officeClosed] "9:00 AM" "GA" = Some (false, true)
  /\ isDateBlocked [] [officeClosed] (formWithState "TN") (JSDate.fixedZone 0)
       (JSDate.make 2024 2 11) (JSDate.make 2024 2 12) = Normal true.
Proof.
  split; [vm_compute; reflexivity|].
  refine (proj2 (proj2 (grid_agrees_with_form [] [officeClosed] "2024-03-12" "9:00 AM" "GA"
                          (StateConfig.mk 9 [1; 2; 3; 4; 5; 6]) eq_refl) eq_refl)
            (formWithState "TN") (JSDate.fixedZone 0)
            (JSDate.make 2024 2 11) (JSDate.make 2024 2 12) _ _).
  - intros [_ H]. vm_compute in H. discriminate.
  - vm_compute. reflexivity.
Defined.

(** ** The time select *)

(** X6. For a selected region of the table, an option of the time select is
    enabled exactly when its text announces remaining capacity, and the
    number announced is the capacity less the bookings and at least 1; a
    disabled option reads BLOCKED or FULL. *)
Theorem timeOption_text
    (appointments : list AppointmentRecord.t) (blockedRules : list BlockRule.t)
    (dateSelected time r : string) (config : StateConfig.t) :
  STATE_CONFIG !! r = Some config ->
  exists o,
    TimeSelect.timeOption appointments blockedRules dateSelected (JStr r) time = Some o
    /\ TimeSelect.value o = time
    /\ (TimeSelect.disabled o = false ->
        1 <= StateConfig.capacity config
             - Z.of_nat (bookingCount appointments dateSelected time r)
        /\ TimeSelect.text o
           = time +:+ " (" +:+ string_of_Z
               (StateConfig.capacity config
                - Z.of_nat (bookingCount appointments dateSelected time r))
             +:+ " left)")
    /\ (TimeSelect.disabled o = true ->
        TimeSelect.text o = time +:+ " (BLOCKED)"
        \/ TimeSelect.text o = time +:+ " (FULL)").
Proof.
  intros Hcfg.
  assert (Hne : truthy (JStr r) = true).
  { apply not_false_is_true. intros Hf. apply truthy_JStr in Hf. subst r.
    rewrite STATE_CONFIG_empty_key in Hcfg. discriminate. }
  unfold TimeSelect.timeOption. cbn [ToString].
  rewrite (proj2 (STATE_CONFIG_get_Entry _ _) Hcfg). cbv zeta.
  eexists. split; [reflexivity|].
  cbn [TimeSelect.value TimeSelect.disabled TimeSelect.text atCapacity
         TimeSelect.remainingText].
  rewrite (isSlotUnavailable_steps _ _ _ _ _ _ Hne Hcfg).
  rewrite bookings_length.
  destruct (existsb _ blockedRules); destruct (_ <=? _) eqn:Hcap; cbn [orb];
    (split; [reflexivity|]); split; intros H; try discriminate; auto.
  apply Z.leb_gt in Hcap. split; [lia | reflexivity].
Qed.

(** X6, for AL with one booking at 9:00 AM: one place left; for SC with one
    booking the slot is full. *)
Lemma timeOption_text_witness :
  TimeSelect.timeOption [booking "2024-03-12" "9:00 AM" "AL"] []
    "2024-03-12" (JStr "AL") "9:00 AM"
  = Some (TimeSelect.mkOption "9:00 AM" false "9:00 AM (1 left)")
  /\ TimeSelect.timeOption [booking "2024-03-12" "9:00 AM" "SC"] []
       "2024-03-12" (JStr "SC") "9:00 AM"
     = Some (TimeSelect.mkOption "9:00 AM" true "9:00 AM (FULL)").
Proof.
  destruct (timeOption_text [booking "2024-03-12" "9:00 AM" "AL"] []
              "2024-03-12" "9:00 AM" "AL" (StateConfig.mk 2 [1; 2; 3; 4; 5]) eq_refl)
    as [o (Ho & _)].
  split; vm_compute; reflexivity.
Defined.


(** ** Blocking and unblocking a slot *)

Lemma find_existsb {A : Type} (f : A -> bool) (l : list A) :
  List.find f l = None <-> existsb f l = false.
Proof.
  induction l as [|a l IH]; cbn [List.find existsb]; [tauto|].
  destruct (f a); cbn [orb]; [split; discriminate | exact IH].
Qed.

Lemma find_app_none {A : Type} (f : A -> bool) (l : list A) (x : A) :
  List.find f l = None -> f x = true -> List.find f (l ++ [x]) = Some x.
Proof.
  intros Hl Hx. induction l as [|a l IH]; cbn [List.find app] in *.
  - now rewrite Hx.
  - destruct (f a); [discriminate | now apply IH].
Qed.

Lemma existsb_false_all {A : Type} (f : A -> bool) (l : list A) :
  existsb f l = false -> forall x, In x l -> f x = false.
Proof.
  intros H x Hin. apply not_true_is_false. intros Hx.
  assert (Ht : existsb f l = true) by (apply existsb_exists; eauto).
  congruence.
Qed.

Lemma filter_all {A : Type} (f : A -> bool) (l : list A) :
  (forall x, In x l -> f x = true) -> List.filter f l = l.
Proof. intros H. apply forallb_filter_id. now apply forallb_forall. Qed.

(** The rule that [toggleBlockTime] has the store create. *)
Lemma toggleBlockTime_create (st : ScheduleGrid.State) (s : Supabase.Store)
    (time state : string) :
  Supabase.online s = true ->
  ScheduleGrid.isTimeBlocked (ScheduleGrid.formatDate (ScheduleGrid.selectedDate st))
    (ScheduleGrid.blockedRules st) time state = false ->
  ScheduleGrid.toggleBlockTime true time state st s
  = (ScheduleGrid.setBlockedRules
       (ScheduleGrid.blockedRules st
        ++ [BlockRule.mk (Supabase.server_id (Supabase.next_id s))
              (ScheduleGrid.formatDate (ScheduleGrid.selectedDate st))
              (JStr time) (JStr state) (JStr "Manual Slot Block")]) st,
     Supabase.mk
       (Supabase.block_rules s
        ++ [BlockRule.mk (Supabase.server_id (Supabase.next_id s))
              (ScheduleGrid.formatDate (ScheduleGrid.selectedDate st))
              (JStr time) (JStr state) (JStr "Manual Slot Block")])
       (S (Supabase.next_id s)) true).
Proof.
  intros Hon Hfree. unfold ScheduleGrid.isTimeBlocked in Hfree.
  apply find_existsb in Hfree.
  unfold ScheduleGrid.toggleBlockTime. cbn [negb]. cbv zeta. rewrite Hfree.
  unfold Supabase.bind, Supabase.insert_single, Supabase.ret. rewrite Hon.
  reflexivity.
Qed.

(** X7. Blocking a free slot from the column of a state: with the admin role
    and a reachable store, the store gains one rule for that date, time and
    state under an id of its own, the grid lists it, the slot is then
    blocked for that state, and the slots of every other state are as
    before. *)
Theorem toggleBlockTime_blocks_one_state
    (st : ScheduleGrid.State) (s : Supabase.Store) (time state : string) :
  Supabase.online s = true ->
  state <> EmptyString ->
  ScheduleGrid.isTimeBlocked (ScheduleGrid.formatDate (ScheduleGrid.selectedDate st))
    (ScheduleGrid.blockedRules st) time state = false ->
  Supabase.block_rules (snd (ScheduleGrid.toggleBlockTime true time state st s))
  = (Supabase.block_rules s
     ++ [BlockRule.mk (Supabase.server_id (Supabase.next_id s))
           (ScheduleGrid.formatDate (ScheduleGrid.selectedDate st))
           (JStr time) (JStr state) (JStr "Manual Slot Block")])%list
  /\ ScheduleGrid.isTimeBlocked (ScheduleGrid.formatDate (ScheduleGrid.selectedDate st))
       (ScheduleGrid.blockedRules (fst (ScheduleGrid.toggleBlockTime true time state st s)))
       time state = true
  /\ (forall time' other,
        other <> state ->
        ScheduleGrid.isTimeBlocked (ScheduleGrid.formatDate (ScheduleGrid.selectedDate st))
          (ScheduleGrid.blockedRules
             (fst (ScheduleGrid.toggleBlockTime true time state st s)))
          time' other
        = ScheduleGrid.isTimeBlocked
            (ScheduleGrid.formatDate (ScheduleGrid.selectedDate st))
            (ScheduleGrid.blockedRules st) time' other).
Proof.
  intros Hon Hstate Hfree. rewrite (toggleBlockTime_create _ _ _ _ Hon Hfree).
  cbn [fst snd Supabase.block_rules ScheduleGrid.setBlockedRules
         ScheduleGrid.blockedRules].
  split; [reflexivity|]. unfold ScheduleGrid.isTimeBlocked.
  split.
  - rewrite existsb_app. cbn [existsb BlockRule.date BlockRule.time BlockRule.state].
    rewrite String.eqb_refl.
    replace (strict_eq (JStr time) (JStr time)) with true
      by (symmetry; now apply strict_eq_true).
    replace (strict_eq (JStr state) (JStr state)) with true
      by (symmetry; now apply strict_eq_true).
    cbn [andb]. now rewrite !orb_true_r.
  - intros time' other Hother. rewrite existsb_app.
    cbn [existsb BlockRule.date BlockRule.time BlockRule.state].
    assert (Ht : truthy (JStr state) = true).
    { apply not_false_is_true. intros Hf. now apply truthy_JStr in Hf. }
    rewrite Ht.
    replace (strict_eq (JStr state) (JStr other)) with false
      by (symmetry; apply strict_eq_false; congruence).
    cbn [negb orb]. now rewrite andb_false_r, !orb_false_r.
Qed.

(** X7, blocking 10:00 AM for GA on the sample grid: TN stays open. *)
Lemma toggleBlockTime_blocks_one_state_witness :
  ScheduleGrid.isTimeBlocked "2024-03-12"
    (ScheduleGrid.blockedRules
       (fst (ScheduleGrid.toggleBlockTime true "10:00 AM" "GA"
               (gridOn [officeClosed] [] "ALL") (storeOf [officeClosed]))))
    "10:00 AM" "GA" = true
  /\ ScheduleGrid.isTimeBlocked "2024-03-12"
       (ScheduleGrid.blockedRules
          (fst (ScheduleGrid.toggleBlockTime true "10:00 AM" "GA"
                  (gridOn [officeClosed] [] "ALL") (storeOf [officeClosed]))))
       "10:00 AM" "TN" = false.
Proof.
  pose proof (toggleBlockTime_blocks_one_state (gridOn [officeClosed] [] "ALL")
                (storeOf [officeClosed]) "10:00 AM" "GA"
                eq_refl ltac:(discriminate) ltac:(vm_compute; reflexivity)) as H.
  destruct H as (_ & Hblocked & Hother).
  split; [exact Hblocked|].
  refine (eq_trans (Hother "10:00 AM" "TN" _) _); [discriminate|].
  vm_compute. reflexivity.
Defined.

(** X8. Blocking a free slot and toggling it again undoes the block: when
    the id that the store assigns is not in use, the rules of the grid and
    the rows of the store are what they were. *)
Theorem toggleBlockTime_twice
    (st : ScheduleGrid.State) (s : Supabase.Store) (time state : string) :
  Supabase.online s = true ->
  ScheduleGrid.isTimeBlocked (ScheduleGrid.formatDate (ScheduleGrid.selectedDate st))
    (ScheduleGrid.blockedRules st) time state = false ->
  ~ In (Supabase.server_id (Supabase.next_id s))
      (map BlockRule.id (ScheduleGrid.blockedRules st)) ->
  ~ In (Supabase.server_id (Supabase.next_id s))
      (map BlockRule.id (Supabase.block_rules s)) ->
  ScheduleGrid.blockedRules
    (fst (ScheduleGrid.toggleBlockTime true time state
            (fst (ScheduleGrid.toggleBlockTime true time state st s))
            (snd (ScheduleGrid.toggleBlockTime true time state st s))))
  = ScheduleGrid.blockedRules st
  /\ Supabase.block_rules
       (snd (ScheduleGrid.toggleBlockTime true time state
               (fst (ScheduleGrid.toggleBlockTime true time state st s))
               (snd (ScheduleGrid.toggleBlockTime true time state st s))))
     = Supabase.block_rules s.
Proof.
  intros Hon Hfree Hlocal Hstore. rewrite (toggleBlockTime_create _ _ _ _ Hon Hfree).
  cbn [fst snd]. unfold ScheduleGrid.isTimeBlocked in Hfree.
  apply find_existsb in Hfree.
  unfold ScheduleGrid.toggleBlockTime. cbn [negb]. cbv zeta.
  cbn [ScheduleGrid.setBlockedRules ScheduleGrid.blockedRules ScheduleGrid.selectedDate].
  rewrite (find_app_none _ _ _ Hfree).
  2:{ cbn [BlockRule.date BlockRule.time BlockRule.state].
      rewrite String.eqb_refl.
      replace (strict_eq (JStr time) (JStr time)) with true
        by (symmetry; now apply strict_eq_true).
      replace (strict_eq (JStr state) (JStr state)) with true
        by (symmetry; now apply strict_eq_true).
      cbn [andb]. apply orb_true_r. }
  unfold Supabase.bind, Supabase.delete_eq.
  rewrite delete_in_online by reflexivity. unfold Supabase.ret.
  cbn [fst snd ScheduleGrid.setBlockedRules ScheduleGrid.blockedRules
         Supabase.block_rules BlockRule.id].
  rewrite !List.filter_app. cbn [List.filter BlockRule.id includes existsb].
  rewrite String.eqb_refl. cbn [negb orb]. rewrite !app_nil_r.
  split; apply filter_all; intros r Hr; rewrite negb_true_iff.
  - apply String.eqb_neq. intros Heq. apply Hlocal. rewrite <- Heq. now apply in_map.
  - rewrite orb_false_r. apply String.eqb_neq. intros Heq. apply Hstore.
    rewrite <- Heq. now apply in_map.
Qed.

(** X8, on the sample grid. *)
Lemma toggleBlockTime_twice_witness :
  ScheduleGrid.blockedRules
    (fst (ScheduleGrid.toggleBlockTime true "10:00 AM" "GA"
            (fst (ScheduleGrid.toggleBlockTime true "10:00 AM" "GA"
                    (gridOn [officeClosed; slotClosed] [] "ALL")
                    (storeOf [officeClosed; slotClosed])))
            (snd (ScheduleGrid.toggleBlockTime true "10:00 AM" "GA"
                    (gridOn [officeClosed; slotClosed] [] "ALL")
                    (storeOf [officeClosed; slotClosed])))))
  = [officeClosed; slotClosed].
Proof.
  apply (proj1 (toggleBlockTime_twice (gridOn [officeClosed; slotClosed] [] "ALL")
                  (storeOf [officeClosed; slotClosed]) "10:00 AM" "GA"
                  eq_refl ltac:(vm_compute; reflexivity)
                  ltac:(vm_compute; intuition discriminate)
                  ltac:(vm_compute; intuition discriminate))).
Defined.

(** X9. Without the admin role, or when the store cannot be reached,
    [toggleBlockTime] changes neither the grid nor the store. *)
Theorem toggleBlockTime_fails_closed
    (isAdmin : bool) (st : ScheduleGrid.State) (s : Supabase.Store)
    (time state : string) :
  isAdmin = false \/ Supabase.online s = false ->
  ScheduleGrid.toggleBlockTime isAdmin time state st s = (st, s).
Proof.
  intros [Hadmin | Hoff]; unfold ScheduleGrid.toggleBlockTime.
  - now rewrite Hadmin.
  - destruct isAdmin; [|reflexivity]. cbn [negb]. cbv zeta.
    destruct (List.find _ (ScheduleGrid.blockedRules st));
      unfold Supabase.bind, Supabase.delete_eq, Supabase.delete_in,
        Supabase.insert_single, Supabase.ret;
      now rewrite Hoff.
Qed.

(** X9, for an admin whose store is unreachable. *)
Lemma toggleBlockTime_fails_closed_witness :
  ScheduleGrid.toggleBlockTime true "2:00 PM" "GA"
    (gridOn [officeClosed; slotClosed] [] "ALL")
    (Supabase.mk [officeClosed; slotClosed] 100 false)
  = (gridOn [officeClosed; slotClosed] [] "ALL",
     Supabase.mk [officeClosed; slotClosed] 100 false).
Proof.
  apply (toggleBlockTime_fails_closed true). right. reflexivity.
Defined.

(** ** Blocking and unblocking a day in the editor *)

Lemma toggledDate_setTempBlockedRules (rules : list BlockRule.t)
    (st : ScheduleGrid.State) (day : Z) :
  ScheduleGrid.toggledDate (ScheduleGrid.setTempBlockedRules rules st) day
  = ScheduleGrid.toggledDate st day.
Proof.
  unfold ScheduleGrid.toggledDate, ScheduleGrid.setTempBlockedRules.
  cbn [ScheduleGrid.blockModalViewDate]. reflexivity.
Qed.

(** The rule that a blocking toggle appends. *)
Lemma toggle_blocks (uuid : string) (day : Z) (st : ScheduleGrid.State) :
  ScheduleGrid.isDayBlocked (ScheduleGrid.toggledDate st day)
    (ScheduleGrid.targetStateOf (ScheduleGrid.blockStateFilter st))
    (ScheduleGrid.tempBlockedRules st) = false ->
  ScheduleGrid.toggleDateBlockFromCalendar uuid day st
  = ScheduleGrid.setTempBlockedRules
      (ScheduleGrid.tempBlockedRules st
       ++ [BlockRule.mk uuid (ScheduleGrid.toggledDate st day) JUndefined
             (ScheduleGrid.targetStateOf (ScheduleGrid.blockStateFilter st))
             (JStr "Manual Calendar Block")]) st.
Proof.
  intros H. unfold ScheduleGrid.toggleDateBlockFromCalendar. cbv zeta.
  now rewrite H.
Qed.

(** The appended rule counts as a block under the filter it was made for. *)
Lemma new_rule_blocks (dStr blockStateFilter : string) :
  String.eqb dStr dStr
  && negb (truthy JUndefined)
  && (negb (truthy (ScheduleGrid.targetStateOf blockStateFilter))
      || (truthy (ScheduleGrid.targetStateOf blockStateFilter)
          && strict_eq (ScheduleGrid.targetStateOf blockStateFilter)
               (ScheduleGrid.targetStateOf blockStateFilter))) = true.
Proof.
  rewrite String.eqb_refl. cbn [truthy negb andb].
  replace (strict_eq _ _) with true by (symmetry; now apply strict_eq_true).
  now destruct (truthy _).
Qed.

(** X10. Blocking a day in the editor adds one whole-day rule scoped to the
    active filter and the day then shows as blocked; under the all-regions
    filter it blocks the day for every state, under a region it leaves the
    days of every other state as they were. *)
Theorem calendar_block_scope (uuid : string) (day : Z) (st : ScheduleGrid.State) :
  ScheduleGrid.isDayBlocked (ScheduleGrid.toggledDate st day)
    (ScheduleGrid.targetStateOf (ScheduleGrid.blockStateFilter st))
    (ScheduleGrid.tempBlockedRules st) = false ->
  ScheduleGrid.isDayBlocked (ScheduleGrid.toggledDate st day)
    (ScheduleGrid.targetStateOf (ScheduleGrid.blockStateFilter st))
    (ScheduleGrid.tempBlockedRules
       (ScheduleGrid.toggleDateBlockFromCalendar uuid day st)) = true
  /\ (ScheduleGrid.blockStateFilter st = "ALL" ->
      forall state,
        ScheduleGrid.isDayBlocked (ScheduleGrid.toggledDate st day) state
          (ScheduleGrid.tempBlockedRules
             (ScheduleGrid.toggleDateBlockFromCalendar uuid day st)) = true)
  /\ (ScheduleGrid.blockStateFilter st <> "ALL" ->
      ScheduleGrid.blockStateFilter st <> EmptyString ->
      forall dStr other,
        other <> ScheduleGrid.blockStateFilter st ->
        ScheduleGrid.isDayBlocked dStr (JStr other)
          (ScheduleGrid.tempBlockedRules
             (ScheduleGrid.toggleDateBlockFromCalendar uuid day st))
        = ScheduleGrid.isDayBlocked dStr (JStr other) (ScheduleGrid.tempBlockedRules st)).
Proof.
  intros Hfree. rewrite (toggle_blocks _ _ _ Hfree).
  unfold ScheduleGrid.setTempBlockedRules. cbn [ScheduleGrid.tempBlockedRules].
  unfold ScheduleGrid.isDayBlocked. split; [|split].
  - rewrite existsb_app. cbn [existsb BlockRule.date BlockRule.time BlockRule.state].
    rewrite new_rule_blocks. now rewrite !orb_true_r.
  - intros Hall state. rewrite existsb_app.
    cbn [existsb BlockRule.date BlockRule.time BlockRule.state].
    unfold ScheduleGrid.targetStateOf. rewrite Hall. cbn [String.eqb].
    rewrite String.eqb_refl. cbn [truthy negb andb orb]. now rewrite !orb_true_r.
  - intros Hnall Hne dStr other Hother. rewrite existsb_app.
    cbn [existsb BlockRule.date BlockRule.time BlockRule.state].
    unfold ScheduleGrid.targetStateOf.
    apply String.eqb_neq in Hnall. rewrite Hnall.
    assert (Ht : truthy (JStr (ScheduleGrid.blockStateFilter st)) = true).
    { apply not_false_is_true. intros Hf. now apply truthy_JStr in Hf. }
    rewrite Ht.
    replace (strict_eq (JStr (ScheduleGrid.blockStateFilter st)) (JStr other)) with false
      by (symmetry; apply strict_eq_false; congruence).
    cbn [negb orb]. now rewrite !andb_false_r, !orb_false_r.
Qed.

(** X10, blocking 2024-03-13 for GA: GA is blocked that day, TN is not. *)
Lemma calendar_block_scope_witness :
  ScheduleGrid.isDayBlocked "2024-03-13" (JStr "GA")
    (ScheduleGrid.tempBlockedRules
       (ScheduleGrid.toggleDateBlockFromCalendar "uuid-1" 13
          (gridOn [] [officeClosed] "GA"))) = true
  /\ ScheduleGrid.isDayBlocked "2024-03-13" (JStr "TN")
       (ScheduleGrid.tempBlockedRules
          (ScheduleGrid.toggleDateBlockFromCalendar "uuid-1" 13
             (gridOn [] [officeClosed] "GA"))) = false.
Proof.
  assert (Hdate : ScheduleGrid.toggledDate (gridOn [] [officeClosed] "GA") 13
                  = "2024-03-13") by (vm_compute; reflexivity).
  pose proof (calendar_block_scope "uuid-1" 13 (gridOn [] [officeClosed] "GA")
                ltac:(vm_compute; reflexivity)) as (Hblocked & _ & Hother).
  rewrite Hdate in Hblocked.
  split; [exact Hblocked|].
  rewrite (Hother ltac:(discriminate) ltac:(discriminate) "2024-03-13" "TN"
             ltac:(discriminate)).
  reflexivity.
Defined.

(** X11. Blocking a day in the editor and toggling it again gives back the
    working copy that was there before. *)
Theorem calendar_block_then_unblock
    (uuid uuid' : string) (day : Z) (st : ScheduleGrid.State) :
  ScheduleGrid.isDayBlocked (ScheduleGrid.toggledDate st day)
    (ScheduleGrid.targetStateOf (ScheduleGrid.blockStateFilter st))
    (ScheduleGrid.tempBlockedRules st) = false ->
  ScheduleGrid.tempBlockedRules
    (ScheduleGrid.toggleDateBlockFromCalendar uuid' day
       (ScheduleGrid.toggleDateBlockFromCalendar uuid day st))
  = ScheduleGrid.tempBlockedRules st.
Proof.
  intros Hfree. rewrite (toggle_blocks _ _ _ Hfree).
  unfold ScheduleGrid.toggleDateBlockFromCalendar at 1. cbv zeta.
  rewrite toggledDate_setTempBlockedRules.
  unfold ScheduleGrid.setTempBlockedRules at 1 2 3 4.
  cbn [ScheduleGrid.tempBlockedRules ScheduleGrid.blockStateFilter].
  assert (Hnow : ScheduleGrid.isDayBlocked (ScheduleGrid.toggledDate st day)
            (ScheduleGrid.targetStateOf (ScheduleGrid.blockStateFilter st))
            (ScheduleGrid.tempBlockedRules st
             ++ [BlockRule.mk uuid (ScheduleGrid.toggledDate st day) JUndefined
                   (ScheduleGrid.targetStateOf (ScheduleGrid.blockStateFilter st))
                   (JStr "Manual Calendar Block")]) = true).
  { unfold ScheduleGrid.isDayBlocked. rewrite existsb_app.
    cbn [existsb BlockRule.date BlockRule.time BlockRule.state].
    rewrite new_rule_blocks. now rewrite !orb_true_r. }
  rewrite Hnow. unfold ScheduleGrid.setTempBlockedRules.
  cbn [ScheduleGrid.tempBlockedRules].
  rewrite List.filter_app.
  assert (Hnew : ScheduleGrid.keepOnUnblock (ScheduleGrid.toggledDate st day)
            (ScheduleGrid.targetStateOf (ScheduleGrid.blockStateFilter st))
            (BlockRule.mk uuid (ScheduleGrid.toggledDate st day) JUndefined
               (ScheduleGrid.targetStateOf (ScheduleGrid.blockStateFilter st))
               (JStr "Manual Calendar Block")) = false).
  { apply not_true_is_false. rewrite keepOnUnblock_spec. intros Hkeep. apply Hkeep.
    unfold wholeDayOn, exactScope, absent, ScheduleGrid.targetStateOf.
    cbn [BlockRule.date BlockRule.time BlockRule.state truthy].
    destruct (String.eqb (ScheduleGrid.blockStateFilter st) "ALL"); auto. }
  cbn [List.filter]. rewrite Hnew, app_nil_r.
  apply filter_all. intros r Hr. rewrite keepOnUnblock_spec.
  intros [[Hd Ht] Hscope].
  unfold ScheduleGrid.isDayBlocked in Hfree.
  assert (Hr' := existsb_false_all _ _ Hfree r Hr). cbv beta in Hr'.
  rewrite Hd, String.eqb_refl in Hr'. unfold absent in Ht. rewrite Ht in Hr'.
  cbn [negb andb] in Hr'. apply orb_false_iff in Hr'. destruct Hr' as [Hs Hm].
  apply negb_false_iff in Hs.
  unfold exactScope, ScheduleGrid.targetStateOf in *.
  destruct (String.eqb (ScheduleGrid.blockStateFilter st) "ALL").
  - destruct Hscope as [Hu | Hu]; rewrite Hu in Hs; discriminate.
  - rewrite Hscope in Hs, Hm. rewrite Hs in Hm. cbn [andb] in Hm.
    apply strict_eq_false in Hm. now apply Hm.
Qed.

(** X11, blocking 2024-03-13 for GA and toggling it again. *)
Lemma calendar_block_then_unblock_witness :
  ScheduleGrid.tempBlockedRules
    (ScheduleGrid.toggleDateBlockFromCalendar "uuid-2" 13
       (ScheduleGrid.toggleDateBlockFromCalendar "uuid-1" 13
          (gridOn [] [officeClosed] "GA")))
  = [officeClosed].
Proof.
  rewrite (calendar_block_then_unblock "uuid-1" "uuid-2" 13
             (gridOn [] [officeClosed] "GA") ltac:(vm_compute; reflexivity)).
  reflexivity.
Defined.

(** ** Committing the editor: the local list and the store *)

Lemma filter_none {A : Type} (f : A -> bool) (l : list A) :
  (forall x, In x l -> f x = false) -> List.filter f l = [].
Proof.
  intros H. induction l as [|a l IH]; [reflexivity|].
  cbn [List.filter]. rewrite (H a (or_introl eq_refl)).
  apply IH. intros x Hx. apply H. now right.
Qed.

Lemma NoDup_map_eq {A B : Type} (f : A -> B) (l : list A) (x y : A) :
  List.NoDup (map f l) -> In x l -> In y l -> f x = f y -> x = y.
Proof.
  induction l as [|a l IH]; cbn [map In]; [contradiction|].
  intros Hnd Hx Hy Heq. apply List.NoDup_cons_iff in Hnd. destruct Hnd as [Hnot Hnd].
  destruct Hx as [Hx | Hx], Hy as [Hy | Hy]; subst.
  - reflexivity.
  - exfalso. apply Hnot. rewrite Heq. now apply in_map.
  - exfalso. apply Hnot. rewrite <- Heq. now apply in_map.
  - now apply IH.
Qed.

(** Nothing was added and nothing removed when the working copy is the
    committed list. *)
Lemma diff_of_copy (st : ScheduleGrid.State) :
  ScheduleGrid.tempBlockedRules st = ScheduleGrid.blockedRules st ->
  ScheduleGrid.added st = [] /\ ScheduleGrid.removed st = [].
Proof.
  intros Hcopy. unfold ScheduleGrid.added, ScheduleGrid.removed. rewrite Hcopy.
  split; apply filter_none; intros x Hx; apply negb_false_iff;
    apply find_by_id; now apply in_map.
Qed.

(** X12. Opening the block-date editor and saving without a change sends
    nothing to the store and leaves the committed rules as they are; the
    editor is closed. *)
Theorem open_then_save_changes_nothing (st : ScheduleGrid.State) (s : Supabase.Store) :
  snd (ScheduleGrid.saveBlockModal (ScheduleGrid.openBlockModal true st) s) = s
  /\ ScheduleGrid.blockedRules
       (fst (ScheduleGrid.saveBlockModal (ScheduleGrid.openBlockModal true st) s))
     = ScheduleGrid.blockedRules st
  /\ ScheduleGrid.isBlockModalOpen
       (fst (ScheduleGrid.saveBlockModal (ScheduleGrid.openBlockModal true st) s))
     = false.
Proof.
  destruct (diff_of_copy (ScheduleGrid.openBlockModal true st) eq_refl) as [Ha Hr].
  unfold ScheduleGrid.saveBlockModal, Supabase.bind, Supabase.ret. cbv zeta.
  rewrite Ha, Hr. cbn [length Nat.ltb Nat.leb fst snd].
  repeat split.
Qed.

(** X13. After a commit that the store carries out, the grid shows what the
    store holds: when rules were added the list is read back from the
    store; when days were only unblocked, starting from an up-to-date list
    with distinct ids, the store and the grid both end with the working
    copy. *)
Theorem commit_leaves_grid_equal_to_store (st : ScheduleGrid.State) (s : Supabase.Store) :
  Supabase.online s = true ->
  (ScheduleGrid.added st <> [] ->
   ScheduleGrid.blockedRules (fst (ScheduleGrid.saveBlockModal st s))
   = Supabase.block_rules (snd (ScheduleGrid.saveBlockModal st s)))
  /\ (Supabase.block_rules s = ScheduleGrid.blockedRules st ->
      List.NoDup (map BlockRule.id (ScheduleGrid.blockedRules st)) ->
      (exists keep, ScheduleGrid.tempBlockedRules st
                    = List.filter keep (ScheduleGrid.blockedRules st)) ->
      ScheduleGrid.blockedRules (fst (ScheduleGrid.saveBlockModal st s))
      = ScheduleGrid.tempBlockedRules st
      /\ Supabase.block_rules (snd (ScheduleGrid.saveBlockModal st s))
         = ScheduleGrid.tempBlockedRules st).
Proof.
  intros Hon. split.
  - intros Hadded.
    unfold ScheduleGrid.saveBlockModal, Supabase.bind, Supabase.ret. cbv zeta.
    destruct (ScheduleGrid.added st) as [|a0 adds]; [contradiction|].
    destruct (ScheduleGrid.removed st) as [|r0 rs];
      cbn [length Nat.ltb Nat.leb].
    + rewrite (insert_online _ _ Hon). unfold Supabase.select_all.
      cbn [Supabase.online fst snd]. reflexivity.
    + rewrite (delete_in_online _ _ Hon). rewrite insert_online by reflexivity.
      unfold Supabase.select_all. cbn [Supabase.online fst snd]. reflexivity.
  - intros Hfresh Hnodup [keep Hkeep].
    assert (Hadded : ScheduleGrid.added st = []).
    { unfold ScheduleGrid.added. apply filter_none. intros x Hx.
      apply negb_false_iff, find_by_id. apply in_map.
      rewrite Hkeep in Hx. now apply filter_In in Hx. }
    split.
    + unfold ScheduleGrid.saveBlockModal, Supabase.bind, Supabase.ret. cbv zeta.
      rewrite Hadded.
      destruct (ScheduleGrid.removed st) as [|r0 rs]; cbn [length Nat.ltb Nat.leb].
      * reflexivity.
      * rewrite (delete_in_online _ _ Hon). reflexivity.
    + rewrite (saveBlockModal_store _ _ Hon), Hadded.
      cbn [map Supabase.store_all]. rewrite app_nil_r, Hfresh, Hkeep.
      apply filter_ext_in. intros r Hr.
      destruct (keep r) eqn:Hk.
      * apply negb_true_iff, not_true_is_false. rewrite includes_In, in_map_iff.
        intros [r' [Hid Hr']]. apply removed_spec in Hr'.
        destruct Hr' as [Hin' Hnot]. apply Hnot. rewrite Hid.
        apply in_map. rewrite Hkeep. apply filter_In. now split.
      * apply negb_false_iff. rewrite includes_In. apply in_map.
        apply removed_spec. split; [assumption|].
        rewrite Hkeep, in_map_iff. intros [r' [Hid Hr']].
        apply filter_In in Hr'. destruct Hr' as [Hin' Hk'].
        assert (r' = r); [|congruence].
        now apply (NoDup_map_eq BlockRule.id (ScheduleGrid.blockedRules st)).
Qed.

(** X13, unblocking the GA day of the sample rules and saving. *)
Lemma commit_leaves_grid_equal_to_store_witness :
  Supabase.block_rules
    (snd (ScheduleGrid.saveBlockModal
            (gridOn [officeClosed; gaClosed; slotClosed] [officeClosed; slotClosed] "GA")
            (storeOf [officeClosed; gaClosed; slotClosed])))
  = [officeClosed; slotClosed]
  /\ ScheduleGrid.blockedRules
       (fst (ScheduleGrid.saveBlockModal
               (gridOn [officeClosed; gaClosed; slotClosed] [officeClosed; slotClosed] "GA")
               (storeOf [officeClosed; gaClosed; slotClosed])))
     = [officeClosed; slotClosed].
Proof.
  assert (Hnd : List.NoDup (map BlockRule.id [officeClosed; gaClosed; slotClosed])).
  { repeat constructor; cbn [map In BlockRule.id officeClosed gaClosed slotClosed];
      intuition discriminate. }
  destruct (proj2 (commit_leaves_grid_equal_to_store
              (gridOn [officeClosed; gaClosed; slotClosed] [officeClosed; slotClosed] "GA")
              (storeOf [officeClosed; gaClosed; slotClosed]) eq_refl)
              eq_refl Hnd
              (ex_intro _ (fun r => negb (String.eqb (BlockRule.id r) "r2")) eq_refl))
    as [Hgrid Hstore].
  split; [exact Hstore | exact Hgrid].
Defined.

(** X14. A commit while the store cannot be reached leaves the store as it
    is and closes the editor; the grid keeps its rules when some were to be
    added, but takes over the working copy when rules were only removed,
    although nothing was deleted in the store. *)
Theorem commit_while_unreachable (st : ScheduleGrid.State) (s : Supabase.Store) :
  Supabase.online s = false ->
  snd (ScheduleGrid.saveBlockModal st s) = s
  /\ ScheduleGrid.isBlockModalOpen (fst (ScheduleGrid.saveBlockModal st s)) = false
  /\ (ScheduleGrid.added st <> [] ->
      ScheduleGrid.blockedRules (fst (ScheduleGrid.saveBlockModal st s))
      = ScheduleGrid.blockedRules st)
  /\ (ScheduleGrid.added st = [] ->
      ScheduleGrid.blockedRules (fst (ScheduleGrid.saveBlockModal st s))
      = ScheduleGrid.tempBlockedRules st).
Proof.
  intros Hoff.
  unfold ScheduleGrid.saveBlockModal, Supabase.bind, Supabase.ret. cbv zeta.
  destruct (ScheduleGrid.removed st) as [|r0 rs];
    destruct (ScheduleGrid.added st) as [|a0 adds];
    cbn [length Nat.ltb Nat.leb];
    unfold Supabase.delete_in, Supabase.insert; rewrite ?Hoff;
    cbn [fst snd]; repeat split; intros H; try reflexivity;
    try contradiction; try discriminate.
Qed.

(** X14, removing the GA rule in the editor while the store is down: the
    grid drops the rule, the store still has it. *)
Lemma commit_while_unreachable_witness :
  ScheduleGrid.blockedRules
    (fst (ScheduleGrid.saveBlockModal
            (gridOn [officeClosed; gaClosed] [officeClosed] "GA")
            (Supabase.mk [officeClosed; gaClosed] 100 false)))
  = [officeClosed]
  /\ Supabase.block_rules
       (snd (ScheduleGrid.saveBlockModal
               (gridOn [officeClosed; gaClosed] [officeClosed] "GA")
               (Supabase.mk [officeClosed; gaClosed] 100 false)))
     = [officeClosed; gaClosed].
Proof.
  destruct (commit_while_unreachable
              (gridOn [officeClosed; gaClosed] [officeClosed] "GA")
              (Supabase.mk [officeClosed; gaClosed] 100 false) eq_refl)
    as (Hstore & _ & _ & Hgrid).
  split.
  - exact (Hgrid eq_refl).
  - now rewrite Hstore.
Defined.

(** ** Saving an appointment *)

Lemma strict_eq_JStr (a b : string) : strict_eq (JStr a) (JStr b) = String.eqb a b.
Proof.
  destruct (String.eqb a b) eqn:E.
  - apply String.eqb_eq in E. subst. now apply strict_eq_true.
  - apply String.eqb_neq in E. apply strict_eq_false. congruence.
Qed.

Lemma existsb_pointwise {A : Type} (f g : A -> bool) (l : list A) :
  (forall x, f x = g x) -> existsb f l = existsb g l.
Proof.
  intros H. induction l as [|a l IH]; [reflexivity|].
  cbn [existsb]. now rewrite H, IH.
Qed.

(** On a date and a time that are strings, the untyped slot check is
    [isSlotUnavailable]. *)
Lemma isSlotUnavailableAny_strings
    (appointments : list AppointmentRecord.t) (blockedRules : list BlockRule.t)
    (d t : string) (v : jsval) :
  AppointmentMaker.isSlotUnavailableAny appointments blockedRules (JStr d) (JStr t) v
  = isSlotUnavailable appointments blockedRules d t v.
Proof.
  unfold AppointmentMaker.isSlotUnavailableAny, isSlotUnavailable.
  destruct (negb (truthy v)); [reflexivity|].
  assert (Hrules :
    existsb (fun r =>
      strict_eq (JStr (BlockRule.date r)) (JStr d)
      && strict_eq (BlockRule.time r) (JStr t)
      && (negb (truthy (BlockRule.state r)) || strict_eq (BlockRule.state r) v))
    blockedRules
    = existsb (fun r =>
        String.eqb (BlockRule.date r) d
        && strict_eq (BlockRule.time r) (JStr t)
        && (negb (truthy (BlockRule.state r)) || strict_eq (BlockRule.state r) v))
      blockedRules).
  { apply existsb_pointwise. intros r. now rewrite strict_eq_JStr. }
  destruct (STATE_CONFIG_get (ToString v)) as [config| |]; [| |reflexivity];
    destruct (atCapacity _ _); try reflexivity; now rewrite Hrules.
Qed.

(** The validation loop: it fails exactly on a visible required field
    without a value. *)
Lemma validate_fold (formData : gmap string jsval) (schema : list FormField.t)
    (e : gmap string bool) (b : bool) :
  snd (fold_left (fun (acc : gmap string bool * bool) field =>
         if isFieldVisible field formData then
           if FormField.required field
              && negb (truthy (get formData (FormField.id field)))
           then (assign (fst acc) (FormField.id field) true, false)
           else acc
         else acc) schema (e, b))
  = b && forallb (fun field =>
            negb (isFieldVisible field formData
                  && (FormField.required field
                      && negb (truthy (get formData (FormField.id field))))))
         schema.
Proof.
  revert e b. induction schema as [|field schema IH]; intros e b.
  - cbn [fold_left forallb snd]. now rewrite andb_true_r.
  - cbn [fold_left forallb].
    destruct (isFieldVisible field formData); cbn [andb negb].
    + destruct (FormField.required field && negb (truthy _)); cbn [negb andb fst].
      * rewrite IH. now rewrite andb_false_r.
      * apply IH.
    + apply IH.
Qed.

Lemma validate_missing (schema : list FormField.t) (formData : gmap string jsval) :
  snd (AppointmentMaker.validate schema formData) = false
  <-> missingRequired schema formData.
Proof.
  unfold AppointmentMaker.validate. rewrite validate_fold. cbn [andb].
  rewrite forallb_false_exists. unfold missingRequired.
  split; intros [field [Hin H]]; exists field.
  - rewrite negb_false_iff, !andb_true_iff, negb_true_iff in H. tauto.
  - split; [assumption|].
    rewrite negb_false_iff, !andb_true_iff, negb_true_iff. tauto.
Qed.

Lemma slotRefused_test (st : AppointmentMaker.State) :
  truthy (get (AppointmentMaker.formData st) "state")
  && truthy (get (AppointmentMaker.formData st) "appointmentDate")
  && truthy (get (AppointmentMaker.formData st) "appointmentTime")
  && AppointmentMaker.isSlotUnavailableAny (AppointmentMaker.appointments st)
       (AppointmentMaker.blockedRules st)
       (get (AppointmentMaker.formData st) "appointmentDate")
       (get (AppointmentMaker.formData st) "appointmentTime")
       (get (AppointmentMaker.formData st) "state") = true
  <-> slotRefused st.
Proof. unfold slotRefused. rewrite !andb_true_iff. tauto. Qed.

(** The ways in which [handleSaveAndCopy] gives up. *)
Lemma handleSaveAndCopy_rejects (user : option string) (st : AppointmentMaker.State)
    (db : AppointmentsTable.Store) :
  slotRefused st
  \/ missingRequired (AppointmentMaker.schema st) (AppointmentMaker.formData st)
  \/ user = None
  \/ AppointmentsTable.online db = false ->
  snd (AppointmentMaker.handleSaveAndCopy user st db) = db
  /\ AppointmentMaker.appointments (fst (AppointmentMaker.handleSaveAndCopy user st db))
     = AppointmentMaker.appointments st
  /\ AppointmentMaker.formData (fst (AppointmentMaker.handleSaveAndCopy user st db))
     = AppointmentMaker.formData st
  /\ AppointmentMaker.clipboard (fst (AppointmentMaker.handleSaveAndCopy user st db))
     = AppointmentMaker.clipboard st.
Proof.
  intros Hwhy. unfold AppointmentMaker.handleSaveAndCopy.
  destruct (AppointmentMaker.validate _ _) as [newErrors isValid] eqn:Hval.
  destruct (_ && _ && _ && _) eqn:Hslot; [repeat split|].
  destruct isValid; cbn [negb]; [|repeat split].
  destruct user as [u|]; [|repeat split].
  unfold AppointmentsTable.insert_single.
  cbn [AppointmentMaker.setErrors AppointmentMaker.formData AppointmentMaker.schema].
  destruct (AppointmentsTable.online db) eqn:Hon; [|repeat split].
  exfalso. destruct Hwhy as [H | [H | [H | H]]]; try discriminate.
  - apply slotRefused_test in H. congruence.
  - apply validate_missing in H. rewrite Hval in H. discriminate.
Qed.

(** X15. [handleSaveAndCopy] writes nothing when the chosen slot is
    unavailable, when a visible required field reads as empty
    ([formData[field.id]] is falsy), when nobody is signed in, or when the
    store cannot be reached: the table, the list of appointments, the form
    and the clipboard are left as they were. *)
Theorem save_rejected (user : option string) (st : AppointmentMaker.State)
    (db : AppointmentsTable.Store) :
  slotRefused st
  \/ missingRequired (AppointmentMaker.schema st) (AppointmentMaker.formData st)
  \/ user = None
  \/ AppointmentsTable.online db = false ->
  snd (AppointmentMaker.handleSaveAndCopy user st db) = db
  /\ AppointmentMaker.appointments (fst (AppointmentMaker.handleSaveAndCopy user st db))
     = AppointmentMaker.appointments st
  /\ AppointmentMaker.formData (fst (AppointmentMaker.handleSaveAndCopy user st db))
     = AppointmentMaker.formData st
  /\ AppointmentMaker.clipboard (fst (AppointmentMaker.handleSaveAndCopy user st db))
     = AppointmentMaker.clipboard st.
Proof. apply handleSaveAndCopy_rejects. Qed.

(** X15, for SC when the 9:00 AM slot already has its one booking. *)
Lemma save_rejected_witness :
  snd (AppointmentMaker.handleSaveAndCopy (Some "agent-1")
         (makerOn [booking "2024-03-12" "9:00 AM" "SC"] [] scForm)
         (tableOf [booking "2024-03-12" "9:00 AM" "SC"]))
  = tableOf [booking "2024-03-12" "9:00 AM" "SC"].
Proof.
  apply (save_rejected (Some "agent-1")
           (makerOn [booking "2024-03-12" "9:00 AM" "SC"] [] scForm)
           (tableOf [booking "2024-03-12" "9:00 AM" "SC"])).
  left. repeat split; vm_compute; reflexivity.
Defined.

(** X16. When somebody is signed in, the store can be reached, every
    visible required field is filled and the chosen slot is not refused,
    [handleSaveAndCopy] has the store create one record that holds the form
    and the generated summary, puts that record first in the list and
    clears the form and its errors. The summary reaches the clipboard when
    the clipboard takes it, and the last toast then says so; when the
    clipboard refuses or is missing, it keeps what it held, and a refusal
    is what the last toast reports. *)
Theorem save_accepted (u : string) (st : AppointmentMaker.State)
    (db : AppointmentsTable.Store) :
  AppointmentsTable.online db = true ->
  ~ missingRequired (AppointmentMaker.schema st) (AppointmentMaker.formData st) ->
  ~ slotRefused st ->
  AppointmentsTable.rows (snd (AppointmentMaker.handleSaveAndCopy (Some u) st db))
  = recordOf st db :: AppointmentsTable.rows db
  /\ AppointmentMaker.appointments
       (fst (AppointmentMaker.handleSaveAndCopy (Some u) st db))
     = recordOf st db :: AppointmentMaker.appointments st
  /\ AppointmentMaker.formData (fst (AppointmentMaker.handleSaveAndCopy (Some u) st db))
     = ∅
  /\ AppointmentMaker.errors (fst (AppointmentMaker.handleSaveAndCopy (Some u) st db))
     = ∅
  /\ match AppointmentMaker.clipboardAccess st with
     | AppointmentMaker.Resolves =>
         AppointmentMaker.clipboard
           (fst (AppointmentMaker.handleSaveAndCopy (Some u) st db))
         = Some (generateClipboardText (AppointmentMaker.formData st)
                   (AppointmentMaker.schema st))
         /\ AppointmentMaker.toast
              (fst (AppointmentMaker.handleSaveAndCopy (Some u) st db))
            = Some ("Copied to clipboard!", AppointmentMaker.success)
     | AppointmentMaker.Rejects =>
         AppointmentMaker.clipboard
           (fst (AppointmentMaker.handleSaveAndCopy (Some u) st db))
         = AppointmentMaker.clipboard st
         /\ AppointmentMaker.toast
              (fst (AppointmentMaker.handleSaveAndCopy (Some u) st db))
            = Some ("Failed to copy", AppointmentMaker.error)
     | AppointmentMaker.Missing =>
         AppointmentMaker.clipboard
           (fst (AppointmentMaker.handleSaveAndCopy (Some u) st db))
         = AppointmentMaker.clipboard st
         /\ AppointmentMaker.toast
              (fst (AppointmentMaker.handleSaveAndCopy (Some u) st db))
            = Some ("Saved, Copied & Form Cleared!", AppointmentMaker.success)
     end.
Proof.
  intros Hon Hvalid Hslot. unfold AppointmentMaker.handleSaveAndCopy.
  destruct (AppointmentMaker.validate _ _) as [newErrors isValid] eqn:Hval.
  destruct (_ && _ && _ && _) eqn:Hguard.
  { exfalso. apply Hslot. now apply slotRefused_test. }
  destruct isValid; cbn [negb].
  2:{ exfalso. apply Hvalid. apply validate_missing. now rewrite Hval. }
  unfold AppointmentsTable.insert_single. rewrite Hon.
  destruct st as [access sch apps rules form errs tst clip editing isOpen active view].
  destruct access; repeat split.
Qed.

(** X16, for SC with the slot still free. *)
Lemma save_accepted_witness :
  map AppointmentRecord.clipboardSummary
    (AppointmentsTable.rows
       (snd (AppointmentMaker.handleSaveAndCopy (Some "agent-1")
               (makerOn [] [] scForm) (tableOf []))))
  = ["Home Owner: Ann" +:+ LF +:+ "State: SC" +:+ LF +:+ "Date: 2024-03-12" +:+ LF
     +:+ "Time: 9:00 AM" +:+ LF +:+ confirmationLine].
Proof.
  rewrite (proj1 (save_accepted "agent-1" (makerOn [] [] scForm) (tableOf []) eq_refl
                    ltac:(intros (f & Hin & Hv & Hr & Ht); vm_compute in Hin;
                          repeat (destruct Hin as [Hin | Hin];
                                  [subst f; vm_compute in Hr, Ht; discriminate|]);
                          exact Hin)
                    ltac:(intros (_ & _ & _ & H); vm_compute in H; discriminate))).
  vm_compute. reflexivity.
Defined.

(** The two outcomes of [handleSaveAndCopy] for the list of appointments. *)
Lemma save_outcome (user : option string) (st : AppointmentMaker.State)
    (db : AppointmentsTable.Store) :
  AppointmentMaker.appointments (fst (AppointmentMaker.handleSaveAndCopy user st db))
  = AppointmentMaker.appointments st
  \/ (~ slotRefused st
      /\ AppointmentMaker.appointments
           (fst (AppointmentMaker.handleSaveAndCopy user st db))
         = recordOf st db :: AppointmentMaker.appointments st).
Proof.
  unfold AppointmentMaker.handleSaveAndCopy.
  destruct (AppointmentMaker.validate _ _) as [newErrors isValid] eqn:Hval.
  destruct (_ && _ && _ && _) eqn:Hguard; [now left|].
  destruct isValid; cbn [negb]; [|now left].
  destruct user as [u|]; [|now left].
  unfold AppointmentsTable.insert_single.
  destruct (AppointmentsTable.online db); [|now left].
  right. split.
  - intros H. apply slotRefused_test in H. congruence.
  - destruct st as [access sch apps rules form errs tst clip editing isOpen active view].
    now destruct access.
Qed.

Lemma json_lookup_JStr (obj : gmap string jsval) (k x : string) :
  AppointmentsTable.json obj !! k = Some (JStr x) <-> obj !! k = Some (JStr x).
Proof.
  unfold AppointmentsTable.json. rewrite map_lookup_filter_Some. cbn [snd].
  split; [tauto|]. intros H. split; [assumption | reflexivity].
Qed.

(** X17. Saving keeps every slot within capacity: if no slot of a region of
    the table holds more bookings than the region allows, the same is true
    of the list of appointments after [handleSaveAndCopy], whatever the
    form, the rules and the answer of the store. *)
Theorem save_keeps_capacity (user : option string) (st : AppointmentMaker.State)
    (db : AppointmentsTable.Store) :
  withinCapacity (AppointmentMaker.appointments st) ->
  withinCapacity
    (AppointmentMaker.appointments (fst (AppointmentMaker.handleSaveAndCopy user st db))).
Proof.
  intros Hinv.
  destruct (save_outcome user st db) as [Hsame | [Hfree Hnew]].
  - now rewrite Hsame.
  - rewrite Hnew. intros d t r config Hd Ht Hcfg.
    specialize (Hinv d t r config Hd Ht Hcfg).
    unfold bookingCount in *. rewrite filter_cons.
    destruct (decide (bookedFor d t r (recordOf st db))) as [Hb | Hb]; [|exact Hinv].
    destruct Hb as (Hbd & Hbt & Hbr). unfold recordOf in Hbd, Hbt, Hbr.
    cbn [AppointmentRecord.formData] in Hbd, Hbt, Hbr.
    apply (proj1 (json_lookup_JStr _ _ _)) in Hbd.
    apply (proj1 (json_lookup_JStr _ _ _)) in Hbt.
    apply (proj1 (json_lookup_JStr _ _ _)) in Hbr.
    assert (Hgd : get (AppointmentMaker.formData st) "appointmentDate" = JStr d)
      by (unfold get; now rewrite Hbd).
    assert (Hgt : get (AppointmentMaker.formData st) "appointmentTime" = JStr t)
      by (unfold get; now rewrite Hbt).
    assert (Hgr : get (AppointmentMaker.formData st) "state" = JStr r)
      by (unfold get; now rewrite Hbr).
    assert (Hnd : truthy (JStr d) = true)
      by (apply not_false_is_true; intros Hf; now apply truthy_JStr in Hf).
    assert (Hnt : truthy (JStr t) = true)
      by (apply not_false_is_true; intros Hf; now apply truthy_JStr in Hf).
    assert (Hnr : truthy (JStr r) = true).
    { apply not_false_is_true. intros Hf. apply truthy_JStr in Hf. subst r.
      rewrite STATE_CONFIG_empty_key in Hcfg. discriminate. }
    assert (Hopen : isSlotUnavailable (AppointmentMaker.appointments st)
                      (AppointmentMaker.blockedRules st) d t (JStr r) = false).
    { apply not_true_is_false. intros Htaken. apply Hfree. unfold slotRefused.
      rewrite Hgd, Hgt, Hgr, isSlotUnavailableAny_strings. auto. }
    rewrite (isSlotUnavailable_known _ _ _ _ _ _ Hcfg) in Hopen.
    apply orb_false_iff in Hopen. destruct Hopen as [Hcap _].
    apply Z.leb_gt in Hcap. unfold bookingCount in Hcap.
    cbn [length]. lia.
Qed.

(** X17, for the first booking of SC, starting from an empty list. *)
Lemma save_keeps_capacity_witness :
  withinCapacity
    (AppointmentMaker.appointments
       (fst (AppointmentMaker.handleSaveAndCopy (Some "agent-1")
               (makerOn [] [] scForm) (tableOf [])))).
Proof.
  apply (save_keeps_capacity (Some "agent-1") (makerOn [] [] scForm) (tableOf [])).
  intros d t r config _ _ Hcfg. cbn [makerOn AppointmentMaker.appointments].
  unfold bookingCount. rewrite filter_nil. cbn [length Z.of_nat].
  assert (Hr : r = "GA" \/ r = "TN" \/ r = "AL" \/ r = "SC").
  { unfold STATE_CONFIG in Hcfg.
    repeat (apply lookup_insert_Some in Hcfg;
            destruct Hcfg as [[Hk _] | [_ Hcfg]]; [subst r; tauto|]).
    rewrite lookup_empty in Hcfg. discriminate. }
  destruct Hr as [Hr | [Hr | [Hr | Hr]]]; subst r; vm_compute in Hcfg;
    injection Hcfg as <-; cbn [StateConfig.capacity]; lia.
Defined.

(** X18. Picking a date, or changing the state, empties the time: the form
    then holds no appointment time, and with a schema whose time field is
    required and always visible a save is refused until a time is picked
    again. *)
Theorem new_date_or_state_clears_time (user : option string)
    (st : AppointmentMaker.State) (db : AppointmentsTable.Store) (timeField : FormField.t) :
  In timeField (AppointmentMaker.schema st) ->
  FormField.id timeField = "appointmentTime" ->
  FormField.required timeField = true ->
  FormField.showWhen timeField = None ->
  (forall day field,
     AppointmentMaker.activeDateField st = Some field ->
     get (AppointmentMaker.formData (AppointmentMaker.selectDate day st)) "appointmentTime"
     = JStr EmptyString
     /\ snd (AppointmentMaker.handleSaveAndCopy user (AppointmentMaker.selectDate day st) db)
        = db)
  /\ (forall stateField value,
        FormField.id stateField = "state" ->
        get (AppointmentMaker.formData
               (AppointmentMaker.changeSelect stateField value st)) "appointmentTime"
        = JStr EmptyString
        /\ get (AppointmentMaker.formData
                  (AppointmentMaker.changeSelect stateField value st)) "appointmentDate"
           = JStr EmptyString
        /\ snd (AppointmentMaker.handleSaveAndCopy user
                  (AppointmentMaker.changeSelect stateField value st) db)
           = db).
Proof.
  intros Hin Hid Hreq Hshow.
  assert (Hrej : forall st',
            AppointmentMaker.schema st' = AppointmentMaker.schema st ->
            get (AppointmentMaker.formData st') "appointmentTime" = JStr EmptyString ->
            snd (AppointmentMaker.handleSaveAndCopy user st' db) = db).
  { intros st' Hschema Htime. apply handleSaveAndCopy_rejects. right. left.
    exists timeField. rewrite Hschema. split; [assumption|].
    unfold isFieldVisible. rewrite Hshow, Hid, Htime. auto. }
  split.
  - intros day field Hactive. unfold AppointmentMaker.selectDate. rewrite Hactive.
    cbv zeta.
    assert (Htime : get (AppointmentMaker.formData
              (AppointmentMaker.setActiveDateField None
                 (AppointmentMaker.setErrors
                    (<[field:=false]> (AppointmentMaker.errors
                       (AppointmentMaker.setFormData
                          (<["appointmentTime":=JStr EmptyString]>
                             (<[field:=JStr (AppointmentMaker.selectedDateStr
                                  (AppointmentMaker.calendarViewDate st) day)]>
                                (AppointmentMaker.formData st))) st)))
                    (AppointmentMaker.setFormData
                       (<["appointmentTime":=JStr EmptyString]>
                          (<[field:=JStr (AppointmentMaker.selectedDateStr
                               (AppointmentMaker.calendarViewDate st) day)]>
                             (AppointmentMaker.formData st))) st))))
              "appointmentTime" = JStr EmptyString).
    { cbn [AppointmentMaker.setActiveDateField AppointmentMaker.setErrors
             AppointmentMaker.setFormData AppointmentMaker.formData].
      unfold get. now rewrite lookup_insert_eq. }
    split; [exact Htime|]. now apply Hrej.
  - intros stateField value Hstate. unfold AppointmentMaker.changeSelect. cbv zeta.
    rewrite Hstate. cbn [String.eqb Ascii.eqb Bool.eqb].
    assert (Hform : forall st0,
              AppointmentMaker.formData st0
              = <["appointmentTime":=JStr EmptyString]>
                  (<["appointmentDate":=JStr EmptyString]>
                     (<["state":=JStr value]> (AppointmentMaker.formData st))) ->
              get (AppointmentMaker.formData st0) "appointmentTime" = JStr EmptyString
              /\ get (AppointmentMaker.formData st0) "appointmentDate" = JStr EmptyString).
    { intros st0 ->. unfold get. split.
      - now rewrite lookup_insert_eq.
      - rewrite lookup_insert_ne by discriminate. now rewrite lookup_insert_eq. }
    destruct (truthy (JStr value));
      (split; [|split]); try (apply Hform; reflexivity);
      (apply Hrej; [reflexivity | apply Hform; reflexivity]).
Qed.

(** X18, with the default schema: after choosing the 13th the filled SC form
    has lost its time, and saving writes nothing. *)
Lemma new_date_or_state_clears_time_witness :
  snd (AppointmentMaker.handleSaveAndCopy (Some "agent-1")
         (AppointmentMaker.selectDate 13 (makerOn [] [] scForm)) (tableOf []))
  = tableOf [].
Proof.
  refine (proj2 (proj1 (new_date_or_state_clears_time (Some "agent-1")
            (makerOn [] [] scForm) (tableOf [])
            (FormField.mk "appointmentTime" "select" "Appointment Time" true None
               (Some "Time: ") (Some LF)) _ eq_refl eq_refl eq_refl)
            13 "appointmentDate" eq_refl)).
  cbn [makerOn AppointmentMaker.schema]. unfold DEFAULT_SCHEMA.
  do 15 right. left. reflexivity.
Defined.

(** ** Deleting and editing a record *)

(** The optimistic removal followed by the restore. *)
Lemma remove_then_restore (id : string) (l : list AppointmentRecord.t) :
  List.NoDup (map AppointmentRecord.id l) ->
  match List.find (fun a => String.eqb (AppointmentRecord.id a) id) l with
  | Some deleted =>
      List.filter (fun a => negb (String.eqb (AppointmentRecord.id a) id)) l ++ [deleted]
  | None => List.filter (fun a => negb (String.eqb (AppointmentRecord.id a) id)) l
  end ≡ₚ l.
Proof.
  induction l as [|a l IH]; cbn [map List.find List.filter]; [reflexivity|].
  intros Hnd. apply List.NoDup_cons_iff in Hnd. destruct Hnd as [Hnot Hnd].
  destruct (String.eqb (AppointmentRecord.id a) id) eqn:E; cbn [negb].
  - apply String.eqb_eq in E.
    rewrite filter_all.
    + symmetry. apply Permutation_cons_append.
    + intros x Hx. apply negb_true_iff, String.eqb_neq. intros Hxid.
      apply Hnot. rewrite E, <- Hxid. now apply in_map.
  - specialize (IH Hnd).
    destruct (List.find _ l); cbn [app]; now rewrite IH.
Qed.

(** Among records with distinct ids the search by id finds the one record
    that carries it. *)
Lemma find_record_by_id (id : string) (l : list AppointmentRecord.t)
    (deleted : AppointmentRecord.t) :
  List.NoDup (map AppointmentRecord.id l) ->
  In deleted l -> AppointmentRecord.id deleted = id ->
  List.find (fun a => String.eqb (AppointmentRecord.id a) id) l = Some deleted.
Proof.
  induction l as [|a l IH]; cbn [map List.find In]; [intros _ []|].
  intros Hnd Hin Hid. apply List.NoDup_cons_iff in Hnd. destruct Hnd as [Hnot Hnd].
  destruct Hin as [-> | Hin].
  - now rewrite Hid, String.eqb_refl.
  - destruct (String.eqb (AppointmentRecord.id a) id) eqn:E.
    + exfalso. apply String.eqb_eq in E. apply Hnot.
      rewrite E, <- Hid. now apply in_map.
    + now apply IH.
Qed.

(** X19. A delete that the store refuses is rolled back: the table is
    untouched, and when the records have distinct ids the list of
    appointments holds the same records as before, so that no slot count
    changes. The order does change: the list is the old one without the
    record of that id, followed by that record; when no record has the id
    the list is the old one. The toast reports the failure. *)
Theorem delete_failure_restores (user : option string) (id : string)
    (st : AppointmentMaker.State) (db : AppointmentsTable.Store)
    (rules : Supabase.Store) :
  AppointmentsTable.online db = false ->
  List.NoDup (map AppointmentRecord.id (AppointmentMaker.appointments st)) ->
  snd (AppointmentMaker.handleDelete user id st db rules) = db
  /\ AppointmentMaker.appointments (fst (AppointmentMaker.handleDelete user id st db rules))
     ≡ₚ AppointmentMaker.appointments st
  /\ (forall d t r,
        bookingCount
          (AppointmentMaker.appointments
             (fst (AppointmentMaker.handleDelete user id st db rules))) d t r
        = bookingCount (AppointmentMaker.appointments st) d t r)
  /\ (forall deleted,
        In deleted (AppointmentMaker.appointments st) ->
        AppointmentRecord.id deleted = id ->
        AppointmentMaker.appointments
          (fst (AppointmentMaker.handleDelete user id st db rules))
        = (List.filter (fun a => negb (String.eqb (AppointmentRecord.id a) id))
             (AppointmentMaker.appointments st) ++ [deleted])%list)
  /\ (~ In id (map AppointmentRecord.id (AppointmentMaker.appointments st)) ->
      AppointmentMaker.appointments
        (fst (AppointmentMaker.handleDelete user id st db rules))
      = AppointmentMaker.appointments st)
  /\ AppointmentMaker.toast (fst (AppointmentMaker.handleDelete user id st db rules))
     = Some ("Failed to delete.", AppointmentMaker.error).
Proof.
  intros Hoff Hnd.
  assert (Hperm : AppointmentMaker.appointments
                    (fst (AppointmentMaker.handleDelete user id st db rules))
                  ≡ₚ AppointmentMaker.appointments st).
  { unfold AppointmentMaker.handleDelete, AppointmentsTable.delete_eq. cbv zeta.
    rewrite Hoff. cbn [fst].
    pose proof (remove_then_restore id (AppointmentMaker.appointments st) Hnd) as H.
    destruct (List.find _ (AppointmentMaker.appointments st)); exact H. }
  split; [|split; [|split; [|split; [|split]]]].
  - unfold AppointmentMaker.handleDelete, AppointmentsTable.delete_eq. cbv zeta.
    now rewrite Hoff.
  - exact Hperm.
  - intros d t r. unfold bookingCount. now rewrite Hperm.
  - intros deleted Hin Hid.
    unfold AppointmentMaker.handleDelete, AppointmentsTable.delete_eq. cbv zeta.
    rewrite Hoff, (find_record_by_id id _ deleted Hnd Hin Hid). now destruct st.
  - intros Hnot.
    unfold AppointmentMaker.handleDelete, AppointmentsTable.delete_eq. cbv zeta.
    rewrite Hoff.
    assert (Hall : List.filter (fun a => negb (String.eqb (AppointmentRecord.id a) id))
                     (AppointmentMaker.appointments st)
                   = AppointmentMaker.appointments st).
    { apply filter_all. intros a Ha. apply negb_true_iff, String.eqb_neq.
      intros Hid. apply Hnot. rewrite <- Hid. now apply in_map. }
    destruct (List.find _ (AppointmentMaker.appointments st)) as [a|] eqn:Hfind.
    + exfalso. apply find_some in Hfind. destruct Hfind as [Ha Hid].
      apply String.eqb_eq in Hid. apply Hnot. rewrite <- Hid. now apply in_map.
    + rewrite Hall. now destruct st.
  - unfold AppointmentMaker.handleDelete, AppointmentsTable.delete_eq. cbv zeta.
    rewrite Hoff.
    now destruct (List.find _ (AppointmentMaker.appointments st)); destruct st.
Qed.

(** X19, deleting the first of two records while the table is down: the
    record comes back behind the other one. *)
Lemma delete_failure_restores_witness :
  AppointmentMaker.appointments
    (fst (AppointmentMaker.handleDelete (Some "agent-1") "a1"
            (makerOn [AppointmentRecord.mk "a1" 1 scForm "one";
                      AppointmentRecord.mk "a2" 2 scForm "two"] [] ∅)
            (AppointmentsTable.mk [] 7 0 false) (storeOf [])))
  = [AppointmentRecord.mk "a2" 2 scForm "two"; AppointmentRecord.mk "a1" 1 scForm "one"].
Proof.
  refine (eq_trans (proj1 (proj2 (proj2 (proj2
            (delete_failure_restores (Some "agent-1") "a1"
               (makerOn [AppointmentRecord.mk "a1" 1 scForm "one";
                         AppointmentRecord.mk "a2" 2 scForm "two"] [] ∅)
               (AppointmentsTable.mk [] 7 0 false) (storeOf []) eq_refl _))))
            (AppointmentRecord.mk "a1" 1 scForm "one") _ eq_refl) _).
  - repeat constructor; cbn [map In AppointmentRecord.id]; intuition discriminate.
  - left. reflexivity.
  - reflexivity.
Defined.

(** X20. A delete that the store carries out leaves no row with that id in
    the table, and for a signed-in user the list of appointments is read
    back from the table, so that it shows exactly the remaining rows. *)
Theorem delete_success (u id : string) (st : AppointmentMaker.State)
    (db : AppointmentsTable.Store) (rules : Supabase.Store) :
  AppointmentsTable.online db = true ->
  AppointmentsTable.rows (snd (AppointmentMaker.handleDelete (Some u) id st db rules))
  = List.filter (fun a => negb (String.eqb (AppointmentRecord.id a) id))
      (AppointmentsTable.rows db)
  /\ ~ In id (map AppointmentRecord.id
               (AppointmentsTable.rows
                  (snd (AppointmentMaker.handleDelete (Some u) id st db rules))))
  /\ AppointmentMaker.appointments
       (fst (AppointmentMaker.handleDelete (Some u) id st db rules))
     = AppointmentsTable.rows (snd (AppointmentMaker.handleDelete (Some u) id st db rules)).
Proof.
  intros Hon.
  unfold AppointmentMaker.handleDelete, AppointmentsTable.delete_eq. cbv zeta.
  rewrite Hon. cbn [fst snd AppointmentsTable.rows].
  split; [reflexivity | split].
  - rewrite in_map_iff. intros [a [Hid Ha]]. apply filter_In in Ha.
    destruct Ha as [_ Ha]. rewrite Hid, String.eqb_refl in Ha. discriminate.
  - unfold AppointmentMaker.fetchAppointments, AppointmentsTable.select_all.
    cbn [AppointmentsTable.online fst].
    now destruct (fst (Supabase.select_all rules)).
Qed.

(** X20, deleting one of two rows. *)
Lemma delete_success_witness :
  AppointmentMaker.appointments
    (fst (AppointmentMaker.handleDelete (Some "agent-1") "a1"
            (makerOn [AppointmentRecord.mk "a1" 1 scForm "one";
                      AppointmentRecord.mk "a2" 2 scForm "two"] [] ∅)
            (tableOf [AppointmentRecord.mk "a2" 2 scForm "two";
                      AppointmentRecord.mk "a1" 1 scForm "one"]) (storeOf [])))
  = [AppointmentRecord.mk "a2" 2 scForm "two"].
Proof.
  rewrite (proj2 (proj2 (delete_success "agent-1" "a1"
             (makerOn [AppointmentRecord.mk "a1" 1 scForm "one";
                       AppointmentRecord.mk "a2" 2 scForm "two"] [] ∅)
             (tableOf [AppointmentRecord.mk "a2" 2 scForm "two";
                       AppointmentRecord.mk "a1" 1 scForm "one"]) (storeOf []) eq_refl))).
  rewrite (proj1 (delete_success "agent-1" "a1"
             (makerOn [AppointmentRecord.mk "a1" 1 scForm "one";
                       AppointmentRecord.mk "a2" 2 scForm "two"] [] ∅)
             (tableOf [AppointmentRecord.mk "a2" 2 scForm "two";
                       AppointmentRecord.mk "a1" 1 scForm "one"]) (storeOf []) eq_refl)).
  reflexivity.
Defined.

Lemma bookingCount_formData (l l' : list AppointmentRecord.t) (d t r : string) :
  map AppointmentRecord.formData l' = map AppointmentRecord.formData l ->
  bookingCount l' d t r = bookingCount l d t r.
Proof.
  unfold bookingCount. revert l'.
  induction l as [|a l IH]; intros [|a' l']; cbn [map]; try discriminate.
  - reflexivity.
  - intros Heq. injection Heq as Ha Hl. rewrite !filter_cons.
    specialize (IH l' Hl).
    destruct (decide (bookedFor d t r a')) as [H' | H'];
      destruct (decide (bookedFor d t r a)) as [H | H];
      cbn [length]; try congruence;
      exfalso; unfold bookedFor in *; rewrite Ha in *; tauto.
Qed.

(** X21. Editing the text of a record touches nothing but the summary of
    that record: with distinct ids, after the edit is saved every record
    has the form data, id and creation time it had, the edited record
    carries the new text, and no slot count changes. *)
Theorem edit_changes_summary_only (record : AppointmentRecord.t) (text : string)
    (st : AppointmentMaker.State) :
  In record (AppointmentMaker.appointments st) ->
  List.NoDup (map AppointmentRecord.id (AppointmentMaker.appointments st)) ->
  AppointmentMaker.appointments
    (AppointmentMaker.handleUpdateRecord
       (AppointmentMaker.editSummary text (AppointmentMaker.openEdit record st)))
  = map (fun a =>
           if String.eqb (AppointmentRecord.id a) (AppointmentRecord.id record)
           then AppointmentRecord.mk (AppointmentRecord.id a) (AppointmentRecord.createdAt a)
                  (AppointmentRecord.formData a) text
           else a)
      (AppointmentMaker.appointments st)
  /\ (forall d t r,
        bookingCount
          (AppointmentMaker.appointments
             (AppointmentMaker.handleUpdateRecord
                (AppointmentMaker.editSummary text (AppointmentMaker.openEdit record st))))
          d t r
        = bookingCount (AppointmentMaker.appointments st) d t r).
Proof.
  intros Hin Hnd.
  assert (Heq : AppointmentMaker.appointments
            (AppointmentMaker.handleUpdateRecord
               (AppointmentMaker.editSummary text (AppointmentMaker.openEdit record st)))
          = map (fun a =>
                   if String.eqb (AppointmentRecord.id a) (AppointmentRecord.id record)
                   then AppointmentRecord.mk (AppointmentRecord.id a)
                          (AppointmentRecord.createdAt a)
                          (AppointmentRecord.formData a) text
                   else a)
              (AppointmentMaker.appointments st)).
  { unfold AppointmentMaker.handleUpdateRecord, AppointmentMaker.editSummary,
      AppointmentMaker.openEdit.
    cbn [AppointmentMaker.editingRecord AppointmentMaker.setEditingRecord
           AppointmentMaker.setIsEditModalOpen AppointmentMaker.setAppointments
           AppointmentMaker.showToast AppointmentMaker.appointments
           AppointmentRecord.id].
    apply map_ext_in. intros a Ha.
    destruct (String.eqb (AppointmentRecord.id a) (AppointmentRecord.id record)) eqn:E;
      [|reflexivity].
    apply String.eqb_eq in E.
    assert (a = record)
      by now apply (NoDup_map_eq AppointmentRecord.id (AppointmentMaker.appointments st)).
    now subst a. }
  split; [exact Heq|].
  intros d t r. apply bookingCount_formData. rewrite Heq, map_map.
  apply map_ext. intros a.
  now destruct (String.eqb (AppointmentRecord.id a) (AppointmentRecord.id record)).
Qed.

(** X21, rewording the first of two records. *)
Lemma edit_changes_summary_only_witness :
  AppointmentMaker.appointments
    (AppointmentMaker.handleUpdateRecord
       (AppointmentMaker.editSummary "reworded"
          (AppointmentMaker.openEdit (AppointmentRecord.mk "a1" 1 scForm "one")
             (makerOn [AppointmentRecord.mk "a1" 1 scForm "one";
                       AppointmentRecord.mk "a2" 2 scForm "two"] [] ∅))))
  = [AppointmentRecord.mk "a1" 1 scForm "reworded";
     AppointmentRecord.mk "a2" 2 scForm "two"].
Proof.
  rewrite (proj1 (edit_changes_summary_only (AppointmentRecord.mk "a1" 1 scForm "one")
             "reworded"
             (makerOn [AppointmentRecord.mk "a1" 1 scForm "one";
                       AppointmentRecord.mk "a2" 2 scForm "two"] [] ∅)
             ltac:(left; reflexivity)
             ltac:(repeat constructor; cbn [map In AppointmentRecord.id];
                   intuition discriminate))).
  reflexivity.
Defined.

(** ** The calendar *)

Lemma isLeapYear_spec y :
  isLeapYear y = true <-> y mod 4 = 0 /\ (y mod 100 <> 0 \/ y mod 400 = 0).
Proof.
  unfold isLeapYear. rewrite andb_true_iff, orb_true_iff, negb_true_iff, !Z.eqb_eq, Z.eqb_neq.
  tauto.
Qed.

Lemma daysInMonth_cases y m :
  0 <= m <= 11 ->
  (m = 1 /\ isLeapYear y = true /\ daysInMonth y m = 29)
  \/ (m = 1 /\ isLeapYear y = false /\ daysInMonth y m = 28)
  \/ ((m = 3 \/ m = 5 \/ m = 8 \/ m = 10) /\ daysInMonth y m = 30)
  \/ ((m = 0 \/ m = 2 \/ m = 4 \/ m = 6 \/ m = 7 \/ m = 9 \/ m = 11) /\ daysInMonth y m = 31).
Proof.
  intros Hm. unfold daysInMonth.
  assert (m = 0 \/ m = 1 \/ m = 2 \/ m = 3 \/ m = 4 \/ m = 5 \/ m = 6 \/ m = 7
          \/ m = 8 \/ m = 9 \/ m = 10 \/ m = 11) as Hc by lia.
  destruct (isLeapYear y);
    repeat (destruct Hc as [Hc | Hc]; [subst m; cbn; tauto|]); subst m; cbn; tauto.
Qed.

Lemma civil_roundtrip y m d :
  1 <= m <= 12 -> 1 <= d <= daysInMonth y (m - 1) ->
  JSDate.civil_from_days (JSDate.days_from_civil y m d) = (y, m, d).
Proof.
  intros Hm Hd.
  pose proof (daysInMonth_cases y (m - 1) ltac:(lia)) as Hdim.
  assert (Hleap := isLeapYear_spec y).
  unfold JSDate.civil_from_days, JSDate.days_from_civil. cbv zeta.
  set (y' := if m <=? 2 then y - 1 else y).
  set (era := y' / 400).
  set (yoe := y' - era * 400).
  set (mp := if 2 <? m then m - 3 else m + 9).
  set (doy := (153 * mp + 2) / 5 + d - 1).
  set (doe := yoe * 365 + yoe / 4 - yoe / 100 + doy).
  replace (era * 146097 + doe - 719468 + 719468) with (doe + era * 146097) by ring.
  assert (Hyoe : 0 <= yoe <= 399) by (subst yoe era; Z.div_mod_to_equations; lia).
  assert (Hy' : (m <= 2 /\ y' = y - 1) \/ (2 < m /\ y' = y)).
  { subst y'. destruct (m <=? 2) eqn:E; [apply Z.leb_le in E | apply Z.leb_gt in E]; lia. }
  assert (Hmp : (m <= 2 /\ mp = m + 9) \/ (2 < m /\ mp = m - 3)).
  { subst mp. destruct (2 <? m) eqn:E; [apply Z.ltb_lt in E | apply Z.ltb_ge in E]; lia. }
  assert (Hdoy : 0 <= doy <= 364
                 \/ (doy = 365 /\ (yoe + 1) mod 4 = 0
                     /\ ((yoe + 1) mod 100 <> 0 \/ (yoe + 1) mod 400 = 0))).
  { destruct (isLeapYear y) eqn:El.
    - assert (Hl : y mod 4 = 0 /\ (y mod 100 <> 0 \/ y mod 400 = 0)) by now apply Hleap.
      subst doy yoe era. clearbody y' mp. clear Hleap.
      Z.div_mod_to_equations. lia.
    - left. subst doy. clearbody mp. clear Hleap Hyoe.
      Z.div_mod_to_equations. lia. }
  assert (Hdoe : 0 <= doe <= 146096).
  { subst doe. clearbody doy yoe. clear Hleap Hdim. Z.div_mod_to_equations. lia. }
  assert (E1 : (doe + era * 146097) / 146097 = era).
  { rewrite Z.div_add by discriminate. rewrite Z.div_small by lia. ring. }
  rewrite E1.
  replace (doe + era * 146097 - era * 146097) with doe by ring.
  assert (E2 : (doe - doe / 1460 + doe / 36524 - doe / 146096) / 365 = yoe).
  { subst doe. clearbody doy yoe. clear Hleap Hdim Hdoe E1.
    Z.div_mod_to_equations. lia. }
  rewrite E2.
  replace (doe - (365 * yoe + yoe / 4 - yoe / 100)) with doy by (subst doe; ring).
  assert (E3 : (5 * doy + 2) / 153 = mp).
  { subst doy. clearbody mp yoe. clear Hleap E1 E2 Hdoe Hdoy.
    Z.div_mod_to_equations. lia. }
  rewrite E3.
  replace (doy - (153 * mp + 2) / 5 + 1) with d by (subst doy; ring).
  destruct Hmp as [[Hm2 Hmp] | [Hm2 Hmp]], Hy' as [[Hm3 Hy'] | [Hm3 Hy']]; try lia.
  - replace (mp <? 10) with false by (symmetry; apply Z.ltb_ge; lia).
    replace (mp - 9 <=? 2) with true by (symmetry; apply Z.leb_le; lia).
    subst yoe. repeat f_equal; lia.
  - replace (mp <? 10) with true by (symmetry; apply Z.ltb_lt; lia).
    replace (mp + 3 <=? 2) with false by (symmetry; apply Z.leb_gt; lia).
    subst yoe. repeat f_equal; lia.
Qed.

(** Every day number is a civil date, and it is the day number of that
    date. *)
Lemma civil_from_days_valid z :
  1 <= snd (fst (JSDate.civil_from_days z)) <= 12
  /\ 1 <= snd (JSDate.civil_from_days z)
     <= daysInMonth (fst (fst (JSDate.civil_from_days z)))
          (snd (fst (JSDate.civil_from_days z)) - 1)
  /\ JSDate.days_from_civil (fst (fst (JSDate.civil_from_days z)))
       (snd (fst (JSDate.civil_from_days z))) (snd (JSDate.civil_from_days z)) = z.
Proof.
  unfold JSDate.civil_from_days. cbv zeta. cbn [fst snd].
  set (z' := z + 719468).
  set (era := z' / 146097).
  set (doe := z' - era * 146097).
  set (yoe := (doe - doe / 1460 + doe / 36524 - doe / 146096) / 365).
  set (doy := doe - (365 * yoe + yoe / 4 - yoe / 100)).
  set (mp := (5 * doy + 2) / 153).
  set (d := doy - (153 * mp + 2) / 5 + 1).
  set (m := if mp <? 10 then mp + 3 else mp - 9).
  set (y := if m <=? 2 then yoe + era * 400 + 1 else yoe + era * 400).
  assert (Hdoe : 0 <= doe <= 146096) by (subst doe era; Z.div_mod_to_equations; lia).
  assert (Hyoe : 0 <= yoe <= 399) by (subst yoe; clearbody doe; Z.div_mod_to_equations; lia).
  assert (Hdoy : 0 <= doy <= 364
                 \/ (doy = 365 /\ (yoe + 1) mod 4 = 0
                     /\ ((yoe + 1) mod 100 <> 0 \/ (yoe + 1) mod 400 = 0))).
  { subst doy yoe. clearbody doe. Z.div_mod_to_equations. lia. }
  assert (Hmp : 0 <= mp <= 11) by (subst mp; clearbody doy; Z.div_mod_to_equations; lia).
  assert (Hd : 1 <= d <= 31
               /\ (mp = 1 \/ mp = 3 \/ mp = 6 \/ mp = 8 -> d <= 30)
               /\ (mp = 11 -> d = doy - 336)).
  { subst d mp. clearbody doy. Z.div_mod_to_equations. lia. }
  assert (Hm : (mp < 10 /\ m = mp + 3) \/ (10 <= mp /\ m = mp - 9)).
  { subst m. destruct (mp <? 10) eqn:E; [apply Z.ltb_lt in E | apply Z.ltb_ge in E]; lia. }
  assert (Hy : (m <= 2 /\ y = yoe + era * 400 + 1) \/ (2 < m /\ y = yoe + era * 400)).
  { subst y. destruct (m <=? 2) eqn:E; [apply Z.leb_le in E | apply Z.leb_gt in E]; lia. }
  split; [lia | split].
  - pose proof (daysInMonth_cases y (m - 1) ltac:(lia)) as Hdim.
    pose proof (isLeapYear_spec y) as Hleap.
    destruct Hdim as [(Hm1 & Hl & ->) | [(Hm1 & Hl & ->) | [(Hm1 & ->) | (Hm1 & ->)]]];
      try lia.
    destruct Hdoy as [Hdoy | (Hdoy & H4 & H100)]; [lia|].
    exfalso. apply not_true_iff_false in Hl. apply Hl, Hleap.
    assert (y = yoe + 1 + era * 400) as -> by lia.
    clear - H4 H100. Z.div_mod_to_equations. lia.
  - unfold JSDate.days_from_civil. cbv zeta.
    set (y' := if m <=? 2 then y - 1 else y).
    assert (Hy' : y' = yoe + era * 400).
    { subst y'. destruct (m <=? 2) eqn:E; [apply Z.leb_le in E | apply Z.leb_gt in E]; lia. }
    rewrite Hy'.
    assert (E1 : (yoe + era * 400) / 400 = era).
    { rewrite Z.div_add by discriminate. rewrite Z.div_small by lia. ring. }
    rewrite E1.
    replace (yoe + era * 400 - era * 400) with yoe by ring.
    assert (Hmp' : (if 2 <? m then m - 3 else m + 9) = mp).
    { destruct (2 <? m) eqn:E; [apply Z.ltb_lt in E | apply Z.ltb_ge in E]; lia. }
    rewrite Hmp'. subst d doy doe z'. ring.
Qed.

Lemma days_from_civil_day (y m d : Z) :
  JSDate.days_from_civil y m d = JSDate.days_from_civil y m 1 + d - 1.
Proof. unfold JSDate.days_from_civil. cbv zeta. ring. Qed.

(** The day after the last day of a month is the first of the next. *)
Lemma next_month_first (y m : Z) :
  0 <= m <= 11 ->
  JSDate.days_from_civil y (m + 1) (daysInMonth y m) + 1
  = JSDate.days_from_civil (y + (m + 1) / 12) ((m + 1) mod 12 + 1) 1.
Proof.
  intros Hm.
  pose proof (isLeapYear_spec y) as Hleap.
  assert (Hnext : (m <= 10 /\ (m + 1) / 12 = 0 /\ (m + 1) mod 12 = m + 1)
                  \/ (m = 11 /\ (m + 1) / 12 = 1 /\ (m + 1) mod 12 = 0)).
  { Z.div_mod_to_equations. lia. }
  assert (Hc : m = 0 \/ m = 1 \/ m = 2 \/ m = 3 \/ m = 4 \/ m = 5 \/ m = 6 \/ m = 7
               \/ m = 8 \/ m = 9 \/ m = 10 \/ m = 11) by lia.
  assert (Hl : (isLeapYear y = true /\ y mod 4 = 0 /\ (y mod 100 <> 0 \/ y mod 400 = 0))
               \/ (isLeapYear y = false
                   /\ ~ (y mod 4 = 0 /\ (y mod 100 <> 0 \/ y mod 400 = 0)))).
  { destruct (isLeapYear y); [left | right]; (split; [reflexivity|]).
    - now apply Hleap.
    - intros H. apply Hleap in H. discriminate. }
  clear Hleap.
  unfold daysInMonth, JSDate.days_from_civil. cbv zeta.
  destruct Hnext as [(Hm' & E1 & E2) | (Hm' & E1 & E2)]; rewrite E1, E2; clear E1 E2;
    destruct Hl as [(El & Hl) | (El & Hl)]; rewrite El; clear El;
    decompose [or] Hc; clear Hc; subst m; try (exfalso; lia);
    cbn [Z.eqb Pos.eqb orb Z.add Pos.add Pos.succ Pos.add_carry Z.leb Z.ltb Z.compare
           Pos.compare Pos.compare_cont];
    repeat match goal with
           | |- context [?a <=? ?b] => destruct (Z.leb_spec a b); try (exfalso; lia)
           | |- context [?a <? ?b] => destruct (Z.ltb_spec a b); try (exfalso; lia)
           end;
    Z.div_mod_to_equations; lia.
Qed.

(** *** Reading a date back *)

Lemma msPerDay_pos : 0 < JSDate.msPerDay.
Proof. reflexivity. Qed.

Lemma Day_scaled (x r : Z) :
  0 <= r < JSDate.msPerDay -> JSDate.Day (x * JSDate.msPerDay + r) = x.
Proof.
  intros Hr. pose proof msPerDay_pos as Hpos. unfold JSDate.Day.
  rewrite Z.add_comm, Z.div_add by lia. rewrite Z.div_small by lia. lia.
Qed.

Lemma TimeWithinDay_range (t : JSDate.Date) :
  0 <= JSDate.TimeWithinDay t < JSDate.msPerDay.
Proof. apply Z.mod_pos_bound, msPerDay_pos. Qed.

Lemma getMonth_range (t : JSDate.Date) : 0 <= JSDate.getMonth t <= 11.
Proof.
  unfold JSDate.getMonth.
  pose proof (civil_from_days_valid (JSDate.Day t)) as (H & _). lia.
Qed.

Lemma getDate_range (t : JSDate.Date) :
  1 <= JSDate.getDate t <= daysInMonth (JSDate.getFullYear t) (JSDate.getMonth t).
Proof.
  unfold JSDate.getDate, JSDate.getFullYear, JSDate.getMonth.
  now pose proof (civil_from_days_valid (JSDate.Day t)) as (_ & H & _).
Qed.

Lemma Day_civil (t : JSDate.Date) :
  JSDate.days_from_civil (JSDate.getFullYear t) (JSDate.getMonth t + 1) (JSDate.getDate t)
  = JSDate.Day t.
Proof.
  unfold JSDate.getDate, JSDate.getFullYear, JSDate.getMonth.
  pose proof (civil_from_days_valid (JSDate.Day t)) as (_ & _ & H).
  now replace (snd (fst (JSDate.civil_from_days (JSDate.Day t))) - 1 + 1)
    with (snd (fst (JSDate.civil_from_days (JSDate.Day t)))) by ring.
Qed.

Lemma daysInMonth_range (y m : Z) : 0 <= m <= 11 -> 28 <= daysInMonth y m <= 31.
Proof. intros Hm. pose proof (daysInMonth_cases y m Hm). lia. Qed.

Lemma MakeDay_in_year (y m d : Z) :
  0 <= m <= 11 -> JSDate.MakeDay y m d = JSDate.days_from_civil y (m + 1) d.
Proof.
  intros Hm. unfold JSDate.MakeDay.
  rewrite Z.div_small, Z.mod_small, Z.add_0_r by lia.
  now rewrite (days_from_civil_day y (m + 1) d).
Qed.

(** A day of the month that the target month has. *)
Lemma MakeDay_fits (y m d : Z) :
  1 <= d <= daysInMonth (y + m / 12) (m mod 12) ->
  JSDate.civil_from_days (JSDate.MakeDay y m d) = (y + m / 12, m mod 12 + 1, d).
Proof.
  intros Hd. unfold JSDate.MakeDay. rewrite <- days_from_civil_day.
  pose proof (Z.mod_pos_bound m 12 ltac:(lia)).
  apply civil_roundtrip; [lia|].
  now replace (m mod 12 + 1 - 1) with (m mod 12) by ring.
Qed.

(** A day of the month that the target month does not have runs over into
    the month after it. *)
Lemma MakeDay_overflows (y m d : Z) :
  daysInMonth (y + m / 12) (m mod 12) < d <= 31 ->
  JSDate.civil_from_days (JSDate.MakeDay y m d)
  = (y + m / 12 + (m mod 12 + 1) / 12, (m mod 12 + 1) mod 12 + 1,
     d - daysInMonth (y + m / 12) (m mod 12)).
Proof.
  intros Hd. unfold JSDate.MakeDay.
  pose proof (Z.mod_pos_bound m 12 ltac:(lia)) as Hm.
  pose proof (daysInMonth_range (y + m / 12) (m mod 12) ltac:(lia)) as Hlen.
  pose proof (next_month_first (y + m / 12) (m mod 12) ltac:(lia)) as Hnext.
  rewrite (days_from_civil_day _ _ (daysInMonth _ _)) in Hnext.
  replace (JSDate.days_from_civil (y + m / 12) (m mod 12 + 1) 1 + d - 1)
    with (JSDate.days_from_civil (y + m / 12 + (m mod 12 + 1) / 12)
            ((m mod 12 + 1) mod 12 + 1) 1
          + (d - daysInMonth (y + m / 12) (m mod 12)) - 1) by lia.
  rewrite <- days_from_civil_day.
  pose proof (Z.mod_pos_bound (m mod 12 + 1) 12 ltac:(lia)) as Hm'.
  apply civil_roundtrip; [lia|].
  pose proof (daysInMonth_range (y + m / 12 + (m mod 12 + 1) / 12)
                ((m mod 12 + 1) mod 12 + 1 - 1) ltac:(lia)).
  lia.
Qed.

Lemma Day_make (y m d : Z) :
  plainYear y -> JSDate.Day (JSDate.make y m d) = JSDate.MakeDay y m d.
Proof.
  intros Hy. unfold JSDate.make, JSDate.MakeDay. cbv zeta.
  replace ((0 <=? y) && (y <=? 99)) with false.
  - unfold JSDate.Day. apply Z.div_mul. discriminate.
  - symmetry. apply andb_false_iff. rewrite Z.leb_gt, Z.leb_gt.
    unfold plainYear in Hy. lia.
Qed.

Lemma make_fields (y m d : Z) :
  plainYear y -> 0 <= m <= 11 -> 1 <= d <= daysInMonth y m ->
  JSDate.getFullYear (JSDate.make y m d) = y
  /\ JSDate.getMonth (JSDate.make y m d) = m
  /\ JSDate.getDate (JSDate.make y m d) = d.
Proof.
  intros Hy Hm Hd.
  unfold JSDate.getFullYear, JSDate.getMonth, JSDate.getDate.
  rewrite (Day_make _ _ _ Hy), (MakeDay_in_year _ _ _ Hm).
  rewrite civil_roundtrip; cbn [fst snd]; try lia.
  now replace (m + 1 - 1) with m by ring.
Qed.

(** [new Date(year, month + 1, 0)] is the last day of the month. *)
Lemma last_day_of_month (y m : Z) :
  plainYear y -> 0 <= m <= 11 ->
  JSDate.getDate (JSDate.make y (m + 1) 0) = daysInMonth y m.
Proof.
  intros Hy Hm. unfold JSDate.getDate. rewrite (Day_make _ _ _ Hy).
  unfold JSDate.MakeDay.
  pose proof (next_month_first y m Hm) as Hnext.
  replace (JSDate.days_from_civil (y + (m + 1) / 12) ((m + 1) mod 12 + 1) 1 + 0 - 1)
    with (JSDate.days_from_civil y (m + 1) (daysInMonth y m)) by lia.
  pose proof (daysInMonth_range y m Hm).
  rewrite civil_roundtrip; cbn [snd]; try lia.
  replace (m + 1 - 1) with m by ring. lia.
Qed.

Lemma Day_setMonth (month : Z) (t : JSDate.Date) :
  JSDate.Day (JSDate.setMonth month t)
  = JSDate.MakeDay (JSDate.getFullYear t) month (JSDate.getDate t).
Proof. unfold JSDate.setMonth. apply Day_scaled, TimeWithinDay_range. Qed.

(** *** The month on view *)

Lemma maker_getDaysInMonth (date : JSDate.Date) :
  plainYear (JSDate.getFullYear date) ->
  AppointmentMaker.getDaysInMonth date
  = daysInMonth (JSDate.getFullYear date) (JSDate.getMonth date).
Proof.
  intros Hy. unfold AppointmentMaker.getDaysInMonth. cbv zeta.
  apply last_day_of_month; auto using getMonth_range.
Qed.

(** X22. For a month on view outside the years 0 to 99, [getDaysInMonth]
    is the length of that month in the Gregorian calendar, February of a
    leap year included; the form's calendar and the editor's calendar
    compute it alike. *)
Theorem getDaysInMonth_is_month_length (date : JSDate.Date) :
  plainYear (JSDate.getFullYear date) ->
  AppointmentMaker.getDaysInMonth date
  = daysInMonth (JSDate.getFullYear date) (JSDate.getMonth date)
  /\ ScheduleGrid.getDaysInMonth date
     = daysInMonth (JSDate.getFullYear date) (JSDate.getMonth date).
Proof.
  intros Hy. split; [now apply maker_getDaysInMonth|].
  unfold ScheduleGrid.getDaysInMonth. cbv zeta.
  apply last_day_of_month; auto using getMonth_range.
Qed.

(** X22, February 2024 has 29 days. *)
Lemma getDaysInMonth_is_month_length_witness :
  AppointmentMaker.getDaysInMonth (JSDate.make 2024 1 10)
  = daysInMonth (JSDate.getFullYear (JSDate.make 2024 1 10))
      (JSDate.getMonth (JSDate.make 2024 1 10)).
Proof.
  apply (getDaysInMonth_is_month_length (JSDate.make 2024 1 10)).
  right. vm_compute. reflexivity.
Defined.

(** X23. In a month outside the years 0 to 99, the date string that
    choosing a cell of the calendar writes into the form is the string
    under which [isDateBlocked] looked the cell up when it drew it. *)
Theorem selected_date_names_the_cell (view : JSDate.Date) (day : Z) :
  plainYear (JSDate.getFullYear view) ->
  1 <= day <= AppointmentMaker.getDaysInMonth view ->
  AppointmentMaker.selectedDateStr view day
  = dateStrOf (AppointmentMaker.cellDate view day).
Proof.
  intros Hy Hday. rewrite (maker_getDaysInMonth _ Hy) in Hday.
  destruct (make_fields _ _ day Hy (getMonth_range view) Hday) as (Ey & Em & Ed).
  unfold dateStrOf, AppointmentMaker.cellDate, AppointmentMaker.selectedDateStr.
  cbv zeta. now rewrite Ey, Em, Ed.
Qed.

(** X23, the 13th of March 2024. *)
Lemma selected_date_names_the_cell_witness :
  AppointmentMaker.selectedDateStr (JSDate.make 2024 2 1) 13
  = dateStrOf (AppointmentMaker.cellDate (JSDate.make 2024 2 1) 13).
Proof.
  apply (selected_date_names_the_cell (JSDate.make 2024 2 1) 13).
  - right. vm_compute. reflexivity.
  - split; vm_compute; discriminate.
Defined.

(** X24. Every cell of a calendar stands in the column of its weekday:
    after the blank cells of [getFirstDayOfMonth], the cell [day] falls in
    the column numbered like [getDay] of the cell's date, in the form and
    in the editor. *)
Theorem calendar_columns_are_weekdays (view : JSDate.Date) (day : Z) :
  (AppointmentMaker.getFirstDayOfMonth view + (day - 1)) mod 7
  = JSDate.getDay (AppointmentMaker.cellDate view day)
  /\ (ScheduleGrid.getFirstDayOfMonth view + (day - 1)) mod 7
     = JSDate.getDay (AppointmentMaker.cellDate view day).
Proof.
  assert (H : forall y m,
            (JSDate.getDay (JSDate.make y m 1) + (day - 1)) mod 7
            = JSDate.getDay (JSDate.make y m day)).
  { intros y m. unfold JSDate.getDay, JSDate.make. cbv zeta.
    set (first := JSDate.days_from_civil _ _ 1).
    unfold JSDate.Day. rewrite !Z.div_mul by discriminate.
    rewrite Z.add_mod_idemp_l by discriminate. f_equal. ring. }
  unfold AppointmentMaker.getFirstDayOfMonth, ScheduleGrid.getFirstDayOfMonth,
    AppointmentMaker.cellDate. cbv zeta. split; apply H.
Qed.

(** *** Moving between months *)

(** The fields of a date after [setMonth]. *)
Lemma setMonth_fits (month : Z) (t : JSDate.Date) :
  JSDate.getDate t
  <= daysInMonth (JSDate.getFullYear t + month / 12) (month mod 12) ->
  JSDate.getFullYear (JSDate.setMonth month t) = JSDate.getFullYear t + month / 12
  /\ JSDate.getMonth (JSDate.setMonth month t) = month mod 12
  /\ JSDate.getDate (JSDate.setMonth month t) = JSDate.getDate t.
Proof.
  intros Hd. pose proof (getDate_range t) as Hr.
  unfold JSDate.getFullYear at 1, JSDate.getMonth at 1, JSDate.getDate at 1.
  rewrite Day_setMonth, MakeDay_fits by lia. cbn [fst snd].
  repeat split. ring.
Qed.

Lemma setMonth_overflows (month : Z) (t : JSDate.Date) :
  daysInMonth (JSDate.getFullYear t + month / 12) (month mod 12)
  < JSDate.getDate t ->
  JSDate.getFullYear (JSDate.setMonth month t)
  = JSDate.getFullYear t + month / 12 + (month mod 12 + 1) / 12
  /\ JSDate.getMonth (JSDate.setMonth month t) = (month mod 12 + 1) mod 12
  /\ JSDate.getDate (JSDate.setMonth month t)
     = JSDate.getDate t
       - daysInMonth (JSDate.getFullYear t + month / 12) (month mod 12).
Proof.
  intros Hd. pose proof (getDate_range t) as Hr.
  pose proof (daysInMonth_range (JSDate.getFullYear t) (JSDate.getMonth t)
                (getMonth_range t)) as Hlen.
  unfold JSDate.getFullYear at 1, JSDate.getMonth at 1, JSDate.getDate at 1.
  rewrite Day_setMonth, MakeDay_overflows by lia. cbn [fst snd].
  repeat split. ring.
Qed.

(** What the two calendars show after an arrow. *)
Lemma shown_after_arrow (direction : AppointmentMaker.Direction)
    (st : AppointmentMaker.State) (g : ScheduleGrid.State) (view shown : JSDate.Date) :
  AppointmentMaker.calendarViewDate st = view ->
  ScheduleGrid.blockModalViewDate g = view ->
  shown = AppointmentMaker.calendarViewDate
            (AppointmentMaker.handleCalendarNav direction st)
  \/ shown = ScheduleGrid.blockModalViewDate (gridArrow direction g) ->
  shown = JSDate.setMonth (JSDate.getMonth view + monthStep direction) view.
Proof.
  intros Hst Hg [-> | ->].
  - unfold AppointmentMaker.handleCalendarNav. cbv zeta.
    cbn [AppointmentMaker.setCalendarViewDate AppointmentMaker.calendarViewDate].
    rewrite Hst. now destruct direction.
  - destruct direction; cbn [gridArrow];
      unfold ScheduleGrid.showPreviousMonth, ScheduleGrid.showNextMonth; cbv zeta;
      cbn [ScheduleGrid.setBlockModalViewDate ScheduleGrid.blockModalViewDate];
      now rewrite Hg.
Qed.

(** X26. An arrow of a calendar, in the form or in the editor, shows the
    month before or after the one on view whenever that month has the day
    of the month of the view date; the day of the month is kept. *)
Theorem calendar_arrow_shows_adjacent_month
    (direction : AppointmentMaker.Direction)
    (st : AppointmentMaker.State) (g : ScheduleGrid.State) (view shown : JSDate.Date) :
  AppointmentMaker.calendarViewDate st = view ->
  ScheduleGrid.blockModalViewDate g = view ->
  JSDate.getDate view <= daysInMonth (targetYear view direction) (targetMonth view direction) ->
  shown = AppointmentMaker.calendarViewDate
            (AppointmentMaker.handleCalendarNav direction st)
  \/ shown = ScheduleGrid.blockModalViewDate (gridArrow direction g) ->
  JSDate.getFullYear shown = targetYear view direction
  /\ JSDate.getMonth shown = targetMonth view direction
  /\ JSDate.getDate shown = JSDate.getDate view.
Proof.
  intros Hst Hg Hfits Hshown.
  rewrite (shown_after_arrow direction st g view shown Hst Hg Hshown).
  now apply setMonth_fits.
Qed.

(** X26, from 15 January 2024 the next arrow shows February 2024. *)
Lemma calendar_arrow_shows_adjacent_month_witness :
  JSDate.getMonth
    (AppointmentMaker.calendarViewDate
       (AppointmentMaker.handleCalendarNav AppointmentMaker.next
          (makerViewing (JSDate.make 2024 0 15))))
  = targetMonth (JSDate.make 2024 0 15) AppointmentMaker.next.
Proof.
  refine (proj1 (proj2 (calendar_arrow_shows_adjacent_month AppointmentMaker.next
            (makerViewing (JSDate.make 2024 0 15)) (gridViewing (JSDate.make 2024 0 15))
            (JSDate.make 2024 0 15) _ eq_refl eq_refl _ (or_introl eq_refl)))).
  vm_compute. discriminate.
Defined.

(** X27. When the month asked for is shorter than the day of the month of
    the view date, the arrow runs over it: the calendar shows the month
    after the one asked for, so the next arrow skips a month and the
    previous arrow stays in the month on view. *)
Theorem calendar_arrow_runs_over_short_month
    (direction : AppointmentMaker.Direction)
    (st : AppointmentMaker.State) (g : ScheduleGrid.State) (view shown : JSDate.Date) :
  AppointmentMaker.calendarViewDate st = view ->
  ScheduleGrid.blockModalViewDate g = view ->
  daysInMonth (targetYear view direction) (targetMonth view direction) < JSDate.getDate view ->
  shown = AppointmentMaker.calendarViewDate
            (AppointmentMaker.handleCalendarNav direction st)
  \/ shown = ScheduleGrid.blockModalViewDate (gridArrow direction g) ->
  JSDate.getMonth shown = (targetMonth view direction + 1) mod 12
  /\ JSDate.getDate shown
     = JSDate.getDate view
       - daysInMonth (targetYear view direction) (targetMonth view direction)
  /\ (direction = AppointmentMaker.next ->
      JSDate.getMonth shown = (JSDate.getMonth view + 2) mod 12)
  /\ (direction = AppointmentMaker.prev ->
      JSDate.getMonth shown = JSDate.getMonth view
      /\ JSDate.getFullYear shown = JSDate.getFullYear view).
Proof.
  intros Hst Hg Hover Hshown.
  rewrite (shown_after_arrow direction st g view shown Hst Hg Hshown).
  destruct (setMonth_overflows _ _ Hover) as (Ey & Em & Ed).
  pose proof (getMonth_range view) as Hm.
  fold (targetMonth view direction) in Em, Ey.
  split; [exact Em|]. split; [exact Ed|]. split.
  - intros ->. rewrite Em. unfold targetMonth. cbn [monthStep].
    clear - Hm. Z.div_mod_to_equations. lia.
  - intros ->. rewrite Em, Ey. unfold targetMonth. cbn [monthStep].
    clear - Hm. split; Z.div_mod_to_equations; lia.
Qed.

(** X27, from 31 January 2024 the next arrow shows March. *)
Lemma calendar_arrow_runs_over_short_month_witness :
  JSDate.getMonth
    (AppointmentMaker.calendarViewDate
       (AppointmentMaker.handleCalendarNav AppointmentMaker.next
          (makerViewing (JSDate.make 2024 0 31))))
  = (JSDate.getMonth (JSDate.make 2024 0 31) + 2) mod 12.
Proof.
  refine (proj1 (proj2 (proj2 (calendar_arrow_runs_over_short_month AppointmentMaker.next
            (makerViewing (JSDate.make 2024 0 31)) (gridViewing (JSDate.make 2024 0 31))
            (JSDate.make 2024 0 31) _ eq_refl eq_refl _ (or_introl eq_refl)))) eq_refl).
  vm_compute. reflexivity.
Defined.

(** ** From the editor to the form *)

Lemma store_all_In (n : nat) (rows : list Supabase.NewRule) (r : Supabase.NewRule) :
  In r rows -> exists k, In (Supabase.stored k r) (Supabase.store_all n rows).
Proof.
  revert n. induction rows as [|r0 rows IH]; intros n; cbn [In]; [contradiction|].
  intros [-> | Hin].
  - exists n. now left.
  - destruct (IH (S n) Hin) as [k Hk]. exists k. now right.
Qed.

(** A commit that adds rules reads the list back from the store. *)
Lemma saveBlockModal_reads_back (st : ScheduleGrid.State) (s : Supabase.Store) :
  Supabase.online s = true ->
  ScheduleGrid.added st <> [] ->
  ScheduleGrid.blockedRules (fst (ScheduleGrid.saveBlockModal st s))
  = Supabase.block_rules (snd (ScheduleGrid.saveBlockModal st s)).
Proof.
  intros Hon Hadded.
  unfold ScheduleGrid.saveBlockModal, Supabase.bind, Supabase.ret. cbv zeta.
  destruct (ScheduleGrid.added st) as [|a0 adds]; [contradiction|].
  destruct (ScheduleGrid.removed st) as [|r0 rs];
    cbn [length Nat.ltb Nat.leb].
  - rewrite (insert_online _ _ Hon). unfold Supabase.select_all.
    cbn [Supabase.online fst snd]. reflexivity.
  - rewrite (delete_in_online _ _ Hon). rewrite insert_online by reflexivity.
    unfold Supabase.select_all. cbn [Supabase.online fst snd]. reflexivity.
Qed.

(** The editor and the form name a cell alike when they show the same
    month. *)
Lemma toggledDate_cellDate (st : ScheduleGrid.State) (view : JSDate.Date) (day : Z) :
  JSDate.getFullYear view = JSDate.getFullYear (ScheduleGrid.blockModalViewDate st) ->
  JSDate.getMonth view = JSDate.getMonth (ScheduleGrid.blockModalViewDate st) ->
  ScheduleGrid.toggledDate st day = dateStrOf (AppointmentMaker.cellDate view day).
Proof.
  intros Hy Hm.
  unfold ScheduleGrid.toggledDate, ScheduleGrid.formatDate, dateStrOf,
    AppointmentMaker.cellDate. cbv zeta.
  now rewrite Hy, Hm.
Qed.

(** X28. A day that is blocked in the editor with a fresh temporary id and
    committed to a reachable store is, once the rules are read from the
    store, a blocked cell of the form's calendar for every form whose
    region is the one of the editor's filter, and for every form when the
    filter is the all-regions one; the grid holds the same rows as the
    store. Forms whose state is the name of an inherited member, under
    which the form's check may throw, are left aside. *)
Theorem blocked_day_reaches_the_form
    (uuid : string) (day : Z) (st : ScheduleGrid.State) (s : Supabase.Store)
    (appointments : list AppointmentRecord.t) (formData : gmap string jsval)
    (tz : JSDate.Zone) (now view : JSDate.Date) :
  Supabase.online s = true ->
  ~ inheritedName (get formData "state") ->
  ~ In uuid (map BlockRule.id (ScheduleGrid.blockedRules st)) ->
  ScheduleGrid.isDayBlocked (ScheduleGrid.toggledDate st day)
    (ScheduleGrid.targetStateOf (ScheduleGrid.blockStateFilter st))
    (ScheduleGrid.tempBlockedRules st) = false ->
  JSDate.getFullYear view = JSDate.getFullYear (ScheduleGrid.blockModalViewDate st) ->
  JSDate.getMonth view = JSDate.getMonth (ScheduleGrid.blockModalViewDate st) ->
  ScheduleGrid.blockStateFilter st = "ALL"
  \/ get formData "state" = JStr (ScheduleGrid.blockStateFilter st) ->
  ScheduleGrid.blockedRules
    (fst (ScheduleGrid.saveBlockModal
            (ScheduleGrid.toggleDateBlockFromCalendar uuid day st) s))
  = Supabase.block_rules
      (snd (ScheduleGrid.saveBlockModal
              (ScheduleGrid.toggleDateBlockFromCalendar uuid day st) s))
  /\ isDateBlocked appointments
       (Supabase.block_rules
          (snd (ScheduleGrid.saveBlockModal
                  (ScheduleGrid.toggleDateBlockFromCalendar uuid day st) s)))
       formData tz now (AppointmentMaker.cellDate view day) = Normal true.
Proof.
  intros Hon Hown Hfresh Hfree Hy Hm Hscope.
  rewrite (toggle_blocks uuid day st Hfree).
  set (newRule := BlockRule.mk uuid (ScheduleGrid.toggledDate st day) JUndefined
                    (ScheduleGrid.targetStateOf (ScheduleGrid.blockStateFilter st))
                    (JStr "Manual Calendar Block")).
  set (st1 := ScheduleGrid.setTempBlockedRules
                (ScheduleGrid.tempBlockedRules st ++ [newRule])%list st).
  assert (Hadd : In newRule (ScheduleGrid.added st1)).
  { apply added_spec. split.
    - apply in_or_app. right. now left.
    - exact Hfresh. }
  assert (Hne : ScheduleGrid.added st1 <> []).
  { intros E. rewrite E in Hadd. contradiction. }
  split; [now apply saveBlockModal_reads_back|].
  destruct (store_all_In (Supabase.next_id s)
              (map ScheduleGrid.withoutId (ScheduleGrid.added st1))
              (ScheduleGrid.withoutId newRule) (in_map _ _ _ Hadd)) as [k Hk].
  assert (Hin : In (Supabase.stored k (ScheduleGrid.withoutId newRule))
                  (Supabase.block_rules (snd (ScheduleGrid.saveBlockModal st1 s)))).
  { rewrite (saveBlockModal_store _ _ Hon). apply in_or_app. now right. }
  destruct (region_cases (get formData "state")) as [Hunk | [Hi | [Ht [config Hcfg]]]].
  - now apply isDateBlocked_unknown.
  - contradiction.
  - rewrite (isDateBlocked_known _ _ _ _ _ _ config Ht Hcfg).
    assert (Hdyn : isDynamicDayBlocked
                     (Supabase.block_rules (snd (ScheduleGrid.saveBlockModal st1 s)))
                     (dateStrOf (AppointmentMaker.cellDate view day))
                     (get formData "state") = true).
    { apply isDynamicDayBlocked_rule.
      exists (Supabase.stored k (ScheduleGrid.withoutId newRule)).
      split; [exact Hin|]. unfold wholeDayRule, absent.
      cbn [Supabase.stored ScheduleGrid.withoutId newRule BlockRule.date BlockRule.time
             BlockRule.state Supabase.new_date Supabase.new_time Supabase.new_state
             Supabase.column].
      split; [now apply toggledDate_cellDate|]. split; [reflexivity|].
      unfold ScheduleGrid.targetStateOf.
      destruct (String.eqb (ScheduleGrid.blockStateFilter st) "ALL") eqn:Eall.
      - left. reflexivity.
      - right. destruct Hscope as [Hall | Hstate].
        + apply String.eqb_neq in Eall. contradiction.
        + now rewrite Hstate. }
    rewrite Hdyn, orb_true_r. reflexivity.
Qed.

(** X28, blocking Wednesday 2024-03-13 for GA: the GA form has that cell
    blocked. *)
Lemma blocked_day_reaches_the_form_witness :
  isDateBlocked []
    (Supabase.block_rules
       (snd (ScheduleGrid.saveBlockModal
               (ScheduleGrid.toggleDateBlockFromCalendar "uuid-1" 13
                  (gridOn [officeClosed] [officeClosed] "GA"))
               (storeOf [officeClosed]))))
    (formWithState "GA") (JSDate.fixedZone 0) (JSDate.make 2024 2 1)
    (AppointmentMaker.cellDate (JSDate.make 2024 2 20) 13) = Normal true.
Proof.
  refine (proj2 (blocked_day_reaches_the_form "uuid-1" 13
            (gridOn [officeClosed] [officeClosed] "GA") (storeOf [officeClosed])
            [] (formWithState "GA") (JSDate.fixedZone 0)
            (JSDate.make 2024 2 1) (JSDate.make 2024 2 20)
            eq_refl _ _ _ _ _ (or_intror _))).
  - intros [_ H]. vm_compute in H. discriminate.
  - vm_compute. intuition discriminate.
  - vm_compute. reflexivity.
  - vm_compute. reflexivity.
  - vm_compute. reflexivity.
  - vm_compute. reflexivity.
Defined.
